(** * Selection and feature-result composition engine of the OCCT server

    A shallow embedding of [src/native/occt_server/main.cpp]: the shape
    registry, the kernel result model and its merge, selector resolution
    with its ranking pipeline, the modifier mappings of the PMI export and
    the [/v1/exec-feature] handler.

    Conventions of the embedding.
    - [double] is IEEE binary64, the kernel's primitive [float]; [std::max],
      [std::min] and [std::abs] are written out with the comparisons the C++
      library uses.
    - [nlohmann::json] values are the inductive type [json]; an object is an
      association list read at the first binding of a key, and a loop over
      an object visits its values in the order of the list.  Integer and
      floating JSON numbers are both read through [get<double>()] by the
      code, so a number carries the double that call returns.
    - A C++ function that returns [std::nullopt] with an error string, or
      that throws, returns [Err] here, with the two cases kept apart.
    - [std::unordered_map] is a [gmap]; [std::vector] is a [list]. *)

From Stdlib Require Import Floats ZArith Lia.
From stdpp Require Import base strings gmap list pretty.

Local Open Scope string_scope.

(** ** Failures *)

(** The exceptions the code can raise: [std::runtime_error] with its message,
    and nlohmann's [type_error] with its numeric id (302: wrong type for
    [get], 305: [operator[]] on a non-array, 306: [value()] on a
    non-object).  [parse_error] is what [json::parse] raises. *)
Inductive exn : Type :=
  | runtime_error (what : string)
  | type_error (id : nat)
  | parse_error.

(** How a call can fail: [std::nullopt] returned with the [error]
    out-parameter set, or an exception thrown. *)
Inductive failure : Type :=
  | Nullopt (error : string)
  | Thrown (e : exn).

Inductive res (A : Type) : Type :=
  | Ok (a : A)
  | Err (f : failure).
Arguments Ok {A} a.
Arguments Err {A} f.

Definition bind {A B : Type} (r : res A) (k : A -> res B) : res B :=
  match r with
  | Ok a => k a
  | Err f => Err f
  end.

Notation "'let*' x ':=' r 'in' k" := (bind r (fun x => k))
  (at level 10, x name, r at level 100, k at level 200).

Definition throw {A : Type} (e : exn) : res A := Err (Thrown e).

(** The error strings of [resolveSelector], under the names the design
    document gives them. *)
Definition MissingNamedOutput (name : string) : failure :=
  Nullopt ("Missing named output: " ++ name).
Definition NoMatch : failure := Nullopt "Selector matched 0 candidates".
Definition AmbiguousSelection : failure :=
  Nullopt "Selector ambiguity after ranking".
Definition MissingCenter : failure :=
  Nullopt "Selector requires center metadata".
Definition UnknownHandle (handle : string) : exn :=
  runtime_error ("Unknown shape handle: " ++ handle).

(** ** Doubles *)

(** [std::max(a, b)] is [(a < b) ? b : a]; [std::min(a, b)] is
    [(b < a) ? b : a]. *)
Definition std_max (a b : float) : float := if (a <? b)%float then b else a.
Definition std_min (a b : float) : float := if (b <? a)%float then b else a.

(** [a >= b] on doubles. *)
Definition fge (a b : float) : bool := (b <=? a)%float.

(** The literal [0.9]: the binary64 value nearest to nine tenths. *)
Definition c0_9 : float := 0x1.ccccccccccccdp-1%float.

(** ** JSON values *)

#[local] Set Warnings "-register-all".

Inductive json : Type :=
  | JNull
  | JBool (b : bool)
  | JNum (d : float)
  | JStr (s : string)
  | JArr (items : list json)
  | JObj (fields : list (string * json)).

Fixpoint assoc (key : string) (fields : list (string * json)) : option json :=
  match fields with
  | [] => None
  | (k, v) :: rest => if String.eqb k key then Some v else assoc key rest
  end.

(** [j.contains(key)]. *)
Definition contains (j : json) (key : string) : bool :=
  match j with
  | JObj fields => match assoc key fields with Some _ => true | None => false end
  | _ => false
  end.

Definition is_string (j : json) : bool :=
  match j with JStr _ => true | _ => false end.
Definition is_array (j : json) : bool :=
  match j with JArr _ => true | _ => false end.
Definition is_null (j : json) : bool :=
  match j with JNull => true | _ => false end.

(** [j.get<std::string>()], [j.get<bool>()], [j.get<double>()]. *)
Definition get_string (j : json) : res string :=
  match j with JStr s => Ok s | _ => throw (type_error 302) end.
Definition get_bool (j : json) : res bool :=
  match j with JBool b => Ok b | _ => throw (type_error 302) end.
Definition get_double (j : json) : res float :=
  match j with JNum d => Ok d | _ => throw (type_error 302) end.

(** [j.value(key, fallback)]: the member converted to the type of the
    fallback, the fallback when the key is absent, [type_error] 306 when
    [j] is not an object. *)
Definition value_with {A : Type} (get : json -> res A)
    (j : json) (key : string) (fallback : A) : res A :=
  match j with
  | JObj fields =>
      match assoc key fields with
      | Some v => get v
      | None => Ok fallback
      end
  | _ => throw (type_error 306)
  end.

Definition value_string := value_with get_string.
Definition value_bool := value_with get_bool.
Definition value_double := value_with get_double.
Definition value_json := value_with (fun v : json => Ok v).

(** [j[key]] on a [const] object.  Reading a key that is not there is
    undefined in C++ (the library asserts); [JNull] stands for what is
    read then. *)
Definition at_key (j : json) (key : string) : json :=
  match j with
  | JObj fields => default JNull (assoc key fields)
  | _ => JNull
  end.

(** [j[idx]] on a non-const value: [null] becomes an array, an array is
    padded with [null] up to [idx], anything else throws 305. *)
Definition at_index (j : json) (idx : nat) : res json :=
  match j with
  | JNull => Ok JNull
  | JArr items => Ok (nth idx items JNull)
  | _ => throw (type_error 305)
  end.

(** What a range-[for] over [j] visits: the elements of an array, the
    values of an object, nothing for [null], the value itself otherwise. *)
Definition elements (j : json) : list json :=
  match j with
  | JNull => []
  | JArr items => items
  | JObj fields => map snd fields
  | _ => [j]
  end.

(** [meta[key] = v] on an object under construction. *)
Fixpoint set_key (key : string) (v : json) (fields : list (string * json))
    : list (string * json) :=
  match fields with
  | [] => [(key, v)]
  | (k, w) :: rest =>
      if String.eqb k key then (k, v) :: rest else (k, w) :: set_key key v rest
  end.

(** ** Geometry values *)

(** [gp_Vec] and [gp_Pnt]: three doubles. *)
(** The accessors [X()], [Y()], [Z()] are [vX], [vY], [vZ]. *)
Record gp_Vec : Type := Vec { vX : float; vY : float; vZ : float }.
Definition gp_Pnt : Type := gp_Vec.

Definition vecToJson (vec : gp_Vec) : json :=
  JArr [JNum (vX vec); JNum (vY vec); JNum (vZ vec)].
Definition pointToJson (pnt : gp_Pnt) : json := vecToJson pnt.

Definition axisVectorFromString (dir : string) : gp_Vec :=
  if String.eqb dir "+X" then Vec 1 0 0
  else if String.eqb dir "-X" then Vec (-1) 0 0
  else if String.eqb dir "+Y" then Vec 0 1 0
  else if String.eqb dir "-Y" then Vec 0 (-1) 0
  else if String.eqb dir "+Z" then Vec 0 0 1
  else if String.eqb dir "-Z" then Vec 0 0 (-1)
  else Vec 0 0 1.

Definition axisDirectionFromVector (vec : gp_Vec) : string :=
  let ax := PrimFloat.abs (vX vec) in
  let ay := PrimFloat.abs (vY vec) in
  let az := PrimFloat.abs (vZ vec) in
  let maxVal := std_max ax (std_max ay az) in
  if (maxVal <? c0_9)%float then ""
  else if fge ax ay && fge ax az then
    (if fge (vX vec) 0 then "+X" else "-X")
  else if fge ay ax && fge ay az then
    (if fge (vY vec) 0 then "+Y" else "-Y")
  else (if fge (vZ vec) 0 then "+Z" else "-Z").

(** ** The result model *)

Record KernelObject : Type := mkObject {
  obj_id : string;
  obj_kind : string;
  obj_meta : json
}.

Record KernelSelection : Type := mkSelection {
  sel_id : string;
  sel_kind : string;
  sel_meta : json
}.

Record KernelResult : Type := mkResult {
  outputs : gmap string KernelObject;
  selections : list KernelSelection
}.

Definition emptyResult : KernelResult := mkResult ∅ [].

(** ** The shape registry *)

Section Registry.

(** [TopoDS_Shape], the kernel's shape value. *)
Context {TopoDS_Shape : Type}.

(** [std::size_t] is 64 bits wide; [counter_++] wraps. *)
Definition size_max : N := 2 ^ 64.

Record ShapeRegistry : Type := mkRegistry {
  shapes_ : gmap string TopoDS_Shape;
  counter_ : N
}.

Definition emptyRegistry : ShapeRegistry := mkRegistry ∅ 0.

(** ["shape:" + std::to_string(n)]. *)
Definition handleOf (n : N) : string := "shape:" ++ pretty n.

Definition registerShape (r : ShapeRegistry) (shape : TopoDS_Shape)
    : string * ShapeRegistry :=
  let handle := handleOf (counter_ r) in
  (handle,
   mkRegistry (<[handle := shape]> (shapes_ r))
              ((counter_ r + 1) mod size_max)%N).

Definition get (r : ShapeRegistry) (handle : string) : res TopoDS_Shape :=
  match shapes_ r !! handle with
  | Some shape => Ok shape
  | None => throw (UnknownHandle handle)
  end.

Definition clear (r : ShapeRegistry) : ShapeRegistry :=
  mkRegistry ∅ (counter_ r).

(** Registering a sequence of shapes, oldest first; the handles come back
    in the same order. *)
Fixpoint registerAll (r : ShapeRegistry) (shapes : list TopoDS_Shape)
    : list string * ShapeRegistry :=
  match shapes with
  | [] => ([], r)
  | shape :: rest =>
      let '(h, r1) := registerShape r shape in
      let '(hs, r2) := registerAll r1 rest in
      (h :: hs, r2)
  end.

Record Session : Type := mkSession {
  registry : ShapeRegistry;
  current : KernelResult
}.

Definition emptySession : Session := mkSession emptyRegistry emptyResult.

End Registry.

Arguments ShapeRegistry : clear implicits.
Arguments Session : clear implicits.

(** ** Merging two result models *)

(** The string under ["ownerKey"], when the metadata has one. *)
Definition ownerKeyOf (meta : json) : option string :=
  if contains meta "ownerKey" && is_string (at_key meta "ownerKey") then
    match at_key meta "ownerKey" with
    | JStr s => Some s
    | _ => None
    end
  else None.

(** The inner loop over [ownerKeys]: [skip] is set at the first equal key. *)
Definition owned (ownerKeys : list string) (owner : string) : bool :=
  existsb (fun key => String.eqb key owner) ownerKeys.

Definition mergeResults (upstream next : KernelResult) : KernelResult :=
  let merged_outputs :=
    map_fold (fun key obj acc => <[key := obj]> acc)
             (outputs upstream) (outputs next) in
  let ownerKeys := omap (fun sel => ownerKeyOf (sel_meta sel)) (selections next) in
  let kept :=
    List.filter
      (fun sel =>
         let skip :=
           match ownerKeyOf (sel_meta sel) with
           | Some owner => owned ownerKeys owner
           | None => false
           end in
         negb skip)
      (selections upstream) in
  mkResult merged_outputs (kept ++ selections next).

(** ** Selector resolution *)

(** The element-kind test at the head of the candidate loop: a selection is
    passed over when the selector names a class and the selection is of
    another one. *)
Definition kindAdmits (kind : string) (sel : KernelSelection) : bool :=
  negb (String.eqb kind "selector.face" && negb (String.eqb (sel_kind sel) "face"))
  && negb (String.eqb kind "selector.edge" && negb (String.eqb (sel_kind sel) "edge"))
  && negb (String.eqb kind "selector.solid" && negb (String.eqb (sel_kind sel) "solid")).

(** One predicate against one selection: the value [matches] has after the
    predicate's branch.  When both sides of [!=] read JSON, the left one is
    read first. *)
Definition evalPredicate (pred : json) (sel : KernelSelection) : res bool :=
  let* predKind := value_string pred "kind" "" in
  if String.eqb predKind "pred.planar" then
    value_bool (sel_meta sel) "planar" false
  else if String.eqb predKind "pred.normal" then
    let* have := value_string (sel_meta sel) "normal" "" in
    let* want := value_string pred "value" "" in
    Ok (String.eqb have want)
  else if String.eqb predKind "pred.createdBy" then
    let* have := value_string (sel_meta sel) "createdBy" "" in
    let* want := value_string pred "featureId" "" in
    Ok (String.eqb have want)
  else if String.eqb predKind "pred.role" then
    let* have := value_string (sel_meta sel) "role" "" in
    let* want := value_string pred "value" "" in
    Ok (String.eqb have want)
  else Ok true.

(** The predicate loop, left at the first predicate that does not match. *)
Fixpoint matchesAll (preds : list json) (sel : KernelSelection) : res bool :=
  match preds with
  | [] => Ok true
  | pred :: rest =>
      let* m := evalPredicate pred sel in
      if m then matchesAll rest sel else Ok false
  end.

(** The candidate loop over [current.selections]. *)
Fixpoint collectCandidates (kind : string) (selector : json)
    (sels : list KernelSelection) : res (list KernelSelection) :=
  match sels with
  | [] => Ok []
  | sel :: rest =>
      if kindAdmits kind sel then
        let* preds := value_json selector "predicates" (JArr []) in
        let* m := matchesAll (elements preds) sel in
        let* tail := collectCandidates kind selector rest in
        Ok (if m then sel :: tail else tail)
      else collectCandidates kind selector rest
  end.

(** The first loop of a ranking stage: the best score, from [init], under
    [pick] ([std::max] or [std::min], applied as [pick best score]). *)
Fixpoint bestScore (score : KernelSelection -> res float)
    (pick : float -> float -> float) (best : float)
    (candidates : list KernelSelection) : res float :=
  match candidates with
  | [] => Ok best
  | c :: rest =>
      let* s := score c in
      bestScore score pick (pick best s) rest
  end.

(** The second loop: the candidates whose score [==] the best one. *)
Fixpoint keepBest (score : KernelSelection -> res float) (best : float)
    (candidates : list KernelSelection) : res (list KernelSelection) :=
  match candidates with
  | [] => Ok []
  | c :: rest =>
      let* s := score c in
      let* filtered := keepBest score best rest in
      Ok (if (s =? best)%float then c :: filtered else filtered)
  end.

Definition rankBy (score : KernelSelection -> res float)
    (pick : float -> float -> float) (init : float)
    (candidates : list KernelSelection) : res (list KernelSelection) :=
  let* best := bestScore score pick init candidates in
  keepBest score best candidates.

Definition areaOf (c : KernelSelection) : res float :=
  value_double (sel_meta c) "area" 0.
Definition centerZOf (c : KernelSelection) : res float :=
  value_double (sel_meta c) "centerZ" 0.

Definition origin3 : json := JArr [JNum 0; JNum 0; JNum 0].

(** [cc[i].get<double>()]. *)
Definition coordinate (cc : json) (i : nat) : res float :=
  let* v := at_index cc i in get_double v.

(** The distance of a candidate's center to the point [(tx, ty, tz)]. *)
Definition distanceTo (tx ty tz : float) (c : KernelSelection) : res float :=
  let* cc := value_json (sel_meta c) "center" origin3 in
  let* cx := coordinate cc 0 in
  let dx := (cx - tx)%float in
  let* cy := coordinate cc 1 in
  let dy := (cy - ty)%float in
  let* cz := coordinate cc 2 in
  let dz := (cz - tz)%float in
  Ok (PrimFloat.sqrt (dx * dx + dy * dy + dz * dz))%float.

(** The center of the resolved target of [rank.closestTo]. *)
Definition targetCenter (targetSel : KernelSelection)
    : res (float * float * float) :=
  let* center := value_json (sel_meta targetSel) "center" origin3 in
  match center with
  | JArr items =>
      if (length items <? 3)%nat then Err MissingCenter
      else
        let* tx := coordinate center 0 in
        let* ty := coordinate center 1 in
        let* tz := coordinate center 2 in
        Ok (tx, ty, tz)
  | _ => Err MissingCenter
  end.

Section Resolve.

(** The resolver the [rank.closestTo] branch calls on its target. *)
Variable resolve : json -> KernelResult -> res KernelSelection.

(** One ranking stage, entered with more than one candidate.  A rule
    without a ["target"] member is read as [null] there. *)
Definition rankStage (rule : json) (current : KernelResult)
    (candidates : list KernelSelection) : res (list KernelSelection) :=
  let* ruleKind := value_string rule "kind" "" in
  if String.eqb ruleKind "rank.maxArea" then
    rankBy areaOf std_max (-1)%float candidates
  else if String.eqb ruleKind "rank.minZ" then
    rankBy centerZOf std_min infinity candidates
  else if String.eqb ruleKind "rank.maxZ" then
    rankBy centerZOf std_max neg_infinity candidates
  else if String.eqb ruleKind "rank.closestTo" then
    let* targetSel := resolve (at_key rule "target") current in
    let* t := targetCenter targetSel in
    let '(tx, ty, tz) := t in
    rankBy (distanceTo tx ty tz) std_min infinity candidates
  else Ok candidates.

(** The loop over the rank rules, left once one candidate or none
    remains. *)
Fixpoint rankPipeline (rules : list json) (current : KernelResult)
    (candidates : list KernelSelection) : res (list KernelSelection) :=
  match rules with
  | [] => Ok candidates
  | rule :: rest =>
      if (length candidates <=? 1)%nat then Ok candidates
      else
        let* narrowed := rankStage rule current candidates in
        rankPipeline rest current narrowed
  end.

(** The body of [resolveSelector], with [resolve] for its recursive
    call. *)
Definition resolveSelectorBody (selector : json) (current : KernelResult)
    : res KernelSelection :=
  let* kind := value_string selector "kind" "" in
  if String.eqb kind "selector.named" then
    let* name := value_string selector "name" "" in
    match outputs current !! name with
    | None => Err (MissingNamedOutput name)
    | Some obj => Ok (mkSelection (obj_id obj) (obj_kind obj) (obj_meta obj))
    end
  else
    let* candidates := collectCandidates kind selector (selections current) in
    match candidates with
    | [] => Err NoMatch
    | _ =>
        let* rankRules := value_json selector "rank" (JArr []) in
        let* ranked := rankPipeline (elements rankRules) current candidates in
        match ranked with
        | [only] => Ok only
        | _ => Err AmbiguousSelection
        end
    end.

End Resolve.

(** The nesting depth of a JSON value: a bound on how deep the targets of
    [rank.closestTo] rules can nest. *)
Fixpoint depth (j : json) : nat :=
  match j with
  | JArr items => S (list_max (map depth items))
  | JObj fields =>
      S (list_max (map (fun kv => match kv with (_, v) => depth v end) fields))
  | _ => 0
  end.

(** [resolveSelector] unrolled [fuel] times. *)
Fixpoint resolveSelectorUpTo (fuel : nat) (selector : json)
    (current : KernelResult) : res KernelSelection :=
  match fuel with
  | O => throw (type_error 306)
  | S fuel' => resolveSelectorBody (resolveSelectorUpTo fuel') selector current
  end.

(** [resolveSelector]: the recursion is on the target of a rule of the
    selector, a strictly shallower value, so [depth selector] unrollings
    reach every call ([resolveSelector_unfold] below). *)
Definition resolveSelector (selector : json) (current : KernelResult)
    : res KernelSelection :=
  resolveSelectorUpTo (S (depth selector)) selector current.

(** ** Geometry references and PMI modifiers *)

(** The kernel's modifier and tolerance-type enumerations, as far as the
    code names their values. *)
Inductive XCAFDimTolObjects_DatumSingleModif : Type :=
  | DatumSingleModif_MaximumMaterialRequirement
  | DatumSingleModif_LeastMaterialRequirement
  | DatumSingleModif_Basic.

Inductive XCAFDimTolObjects_GeomToleranceModif : Type :=
  | GeomToleranceModif_Maximum_Material_Requirement
  | GeomToleranceModif_Least_Material_Requirement
  | GeomToleranceModif_Free_State
  | GeomToleranceModif_Tangent_Plane
  | GeomToleranceModif_Statistical_Tolerance.

Inductive XCAFDimTolObjects_GeomToleranceType : Type :=
  | GeomToleranceType_ProfileOfSurface
  | GeomToleranceType_Flatness
  | GeomToleranceType_Parallelism
  | GeomToleranceType_Perpendicularity
  | GeomToleranceType_Position
  | GeomToleranceType_None.

Definition mapDatumModifier (modifier : string) : XCAFDimTolObjects_DatumSingleModif :=
  if String.eqb modifier "MMB" then DatumSingleModif_MaximumMaterialRequirement
  else if String.eqb modifier "LMB" then DatumSingleModif_LeastMaterialRequirement
  else DatumSingleModif_Basic.

Definition mapTolModifier (modifier : string)
    : option XCAFDimTolObjects_GeomToleranceModif :=
  if String.eqb modifier "MMC" then Some GeomToleranceModif_Maximum_Material_Requirement
  else if String.eqb modifier "LMC" then Some GeomToleranceModif_Least_Material_Requirement
  else if String.eqb modifier "FREE_STATE" then Some GeomToleranceModif_Free_State
  else if String.eqb modifier "TANGENT_PLANE" then Some GeomToleranceModif_Tangent_Plane
  else if String.eqb modifier "STATISTICAL" then Some GeomToleranceModif_Statistical_Tolerance
  else None.

Definition mapToleranceType (kind : string) : XCAFDimTolObjects_GeomToleranceType :=
  if String.eqb kind "constraint.surfaceProfile" then GeomToleranceType_ProfileOfSurface
  else if String.eqb kind "constraint.flatness" then GeomToleranceType_Flatness
  else if String.eqb kind "constraint.parallelism" then GeomToleranceType_Parallelism
  else if String.eqb kind "constraint.perpendicularity" then GeomToleranceType_Perpendicularity
  else if String.eqb kind "constraint.position" then GeomToleranceType_Position
  else GeomToleranceType_None.

(** The modifier loop of a datum: every element of ["modifiers"] is read as
    a string, mapped and added to the datum object, in order. *)
Fixpoint addDatumModifiers (mods : list json)
    : res (list XCAFDimTolObjects_DatumSingleModif) :=
  match mods with
  | [] => Ok []
  | modifier :: rest =>
      let* s := get_string modifier in
      let* added := addDatumModifiers rest in
      Ok (mapDatumModifier s :: added)
  end.

Definition datumModifiers (datum : json)
    : res (list XCAFDimTolObjects_DatumSingleModif) :=
  if contains datum "modifiers" && is_array (at_key datum "modifiers") then
    addDatumModifiers (elements (at_key datum "modifiers"))
  else Ok [].

(** The modifier loop of a tolerance: an element is added only when
    [mapTolModifier] has a value for it. *)
Fixpoint addTolModifiers (mods : list json)
    : res (list XCAFDimTolObjects_GeomToleranceModif) :=
  match mods with
  | [] => Ok []
  | modifier :: rest =>
      let* s := get_string modifier in
      let* added := addTolModifiers rest in
      Ok (match mapTolModifier s with
          | Some mapped => mapped :: added
          | None => added
          end)
  end.

Definition tolModifiers (constraint : json)
    : res (list XCAFDimTolObjects_GeomToleranceModif) :=
  if contains constraint "modifiers" && is_array (at_key constraint "modifiers") then
    addTolModifiers (elements (at_key constraint "modifiers"))
  else Ok [].

Section Annotations.

Context {TopoDS_Shape : Type}.

Definition resolveGeometryRef (ref : json) (current : KernelResult)
    (registry : ShapeRegistry TopoDS_Shape) : res TopoDS_Shape :=
  match ref with
  | JObj _ =>
      let* kind := value_string ref "kind" "" in
      let* selector := value_json ref "selector" (JObj []) in
      let* selection :=
        match resolveSelector selector current with
        | Err (Nullopt error) => throw (runtime_error error)
        | r => r
        end in
      if String.eqb kind "ref.surface" && negb (String.eqb (sel_kind selection) "face") then
        throw (runtime_error "Expected face selection for ref.surface")
      else if String.eqb kind "ref.edge" && negb (String.eqb (sel_kind selection) "edge") then
        throw (runtime_error "Expected edge selection for ref.edge")
      else if String.eqb kind "ref.axis" || String.eqb kind "ref.point"
              || String.eqb kind "ref.frame" then
        throw (runtime_error ("Geometry ref kind not supported yet: " ++ kind))
      else
        let* handle := value_string (sel_meta selection) "handle" "" in
        if String.eqb handle "" then
          throw (runtime_error "Selection missing handle metadata")
        else get registry handle
  | _ => throw (runtime_error "Invalid geometry ref")
  end.

(** What the datum loop attaches to the document for one datum: its
    name, the shape it points at and its modifiers. *)
Record DatumRecord : Type := mkDatum {
  datum_name : string;
  datum_target : TopoDS_Shape;
  datum_modifiers : list XCAFDimTolObjects_DatumSingleModif
}.

(** What the constraint loop attaches for one tolerance; [tol_datums] are
    the datums it was linked to, by their position in the datum list. *)
Record ToleranceRecord : Type := mkTolerance {
  tol_type : XCAFDimTolObjects_GeomToleranceType;
  tol_value : float;
  tol_diameter : bool;
  tol_modifiers : list XCAFDimTolObjects_GeomToleranceModif;
  tol_target : TopoDS_Shape;
  tol_datums : list nat
}.

(** One pass of the datum loop; the second component is the id the datum
    is entered under in [datumLabels], when it has one. *)
Definition buildDatum (datum : json) (current : KernelResult)
    (registry : ShapeRegistry TopoDS_Shape)
    : res (DatumRecord * option string) :=
  let* datumId := value_string datum "id" "" in
  let* label := value_string datum "label" datumId in
  let* target := value_json datum "target" (JObj []) in
  let* targetShape := resolveGeometryRef target current registry in
  let* mods := datumModifiers datum in
  Ok (mkDatum label targetShape mods,
      if String.eqb datumId "" then None else Some datumId).

(** The datum loop: the records in order, and [datumLabels] from ids to
    positions, a later datum taking over the id of an earlier one. *)
Fixpoint buildDatums (datums : list json) (current : KernelResult)
    (registry : ShapeRegistry TopoDS_Shape) (position : nat)
    (datumLabels : gmap string nat)
    : res (list DatumRecord * gmap string nat) :=
  match datums with
  | [] => Ok ([], datumLabels)
  | datum :: rest =>
      let* built := buildDatum datum current registry in
      let labels :=
        match built.2 with
        | Some datumId => <[datumId := position]> datumLabels
        | None => datumLabels
        end in
      let* more := buildDatums rest current registry (S position) labels in
      Ok (built.1 :: more.1, more.2)
  end.

(** The datum references of a constraint that name a recorded datum. *)
Fixpoint linkDatums (refs : list json) (datumLabels : gmap string nat)
    : res (list nat) :=
  match refs with
  | [] => Ok []
  | datumRef :: rest =>
      let* refId := value_string datumRef "datum" "" in
      let* linked := linkDatums rest datumLabels in
      Ok (match datumLabels !! refId with
          | Some position => position :: linked
          | None => linked
          end)
  end.

(** One pass of the constraint loop; [None] when the kind has no
    tolerance type and the constraint is passed over. *)
Definition buildTolerance (constraint : json) (current : KernelResult)
    (registry : ShapeRegistry TopoDS_Shape) (datumLabels : gmap string nat)
    : res (option ToleranceRecord) :=
  let* kind := value_string constraint "kind" "" in
  match mapToleranceType kind with
  | GeomToleranceType_None => Ok None
  | tolType =>
      let* targetRef := value_json constraint "target" (JObj []) in
      let* targetShape := resolveGeometryRef targetRef current registry in
      let* value := value_double constraint "tolerance" 0 in
      let* diameter :=
        if String.eqb kind "constraint.position" then
          let* zone := value_string constraint "zone" "" in
          Ok (String.eqb zone "diameter")
        else Ok false in
      let* mods := tolModifiers constraint in
      let* linked :=
        if contains constraint "datum" && is_array (at_key constraint "datum") then
          linkDatums (elements (at_key constraint "datum")) datumLabels
        else Ok [] in
      Ok (Some (mkTolerance tolType value diameter mods targetShape linked))
  end.

Fixpoint buildTolerances (constraints : list json) (current : KernelResult)
    (registry : ShapeRegistry TopoDS_Shape) (datumLabels : gmap string nat)
    : res (list ToleranceRecord) :=
  match constraints with
  | [] => Ok []
  | constraint :: rest =>
      let* built := buildTolerance constraint current registry datumLabels in
      let* more := buildTolerances rest current registry datumLabels in
      Ok (match built with
          | Some tol => tol :: more
          | None => more
          end)
  end.

(** The annotation graph [exportStepWithPmi] hands to the STEP writer: the
    datums of the payload, then its constraints. *)
Definition annotationGraph (pmiPayload : json) (current : KernelResult)
    (registry : ShapeRegistry TopoDS_Shape)
    : res (list DatumRecord * list ToleranceRecord) :=
  let* datums :=
    if contains pmiPayload "datums" then
      buildDatums (elements (at_key pmiPayload "datums")) current registry 0 ∅
    else Ok ([], ∅) in
  let* tolerances :=
    if contains pmiPayload "constraints" then
      buildTolerances (elements (at_key pmiPayload "constraints")) current
                      registry datums.2
    else Ok [] in
  Ok (datums.1, tolerances).

End Annotations.

(** ** Reading a feature request *)

Definition is_number (j : json) : bool :=
  match j with JNum _ => true | _ => false end.

Definition parseScalar (value : json) (fallback : float) : res float :=
  match value with
  | JNum d => Ok d
  | JObj _ =>
      let* kind := value_string value "kind" "" in
      if String.eqb kind "expr.literal" then value_double value "value" fallback
      else Ok fallback
  | _ => Ok fallback
  end.

Definition parsePoint2D (value : json) (z : float) : res gp_Pnt :=
  match value with
  | JArr items =>
      if (length items <? 2)%nat then Ok (Vec 0 0 z)
      else
        let* x := parseScalar (nth 0 items JNull) 0 in
        let* y := parseScalar (nth 1 items JNull) 0 in
        Ok (Vec x y z)
  | _ => Ok (Vec 0 0 z)
  end.

Definition parseAxis (axis : json) : res gp_Vec :=
  match axis with
  | JStr dir => Ok (axisVectorFromString dir)
  | JObj _ =>
      let* kind := value_string axis "kind" "" in
      if String.eqb kind "axis.vector" then
        let* direction :=
          value_json axis "direction" (JArr [JNum 0; JNum 0; JNum 1]) in
        match direction with
        | JArr items =>
            if (length items <? 3)%nat then Ok (Vec 0 0 1)
            else
              let* x := parseScalar (nth 0 items JNull) 0 in
              let* y := parseScalar (nth 1 items JNull) 0 in
              let* z := parseScalar (nth 2 items JNull) 0 in
              Ok (Vec x y z)
        | _ => Ok (Vec 0 0 1)
        end
      else Ok (Vec 0 0 1)
  | _ => Ok (Vec 0 0 1)
  end.

(** [static_cast<int>(d)]: truncation toward zero.  Outside the range of
    [int] the C++ result is undefined; [INT_MIN] stands for it. *)
Definition static_cast_int (d : float) : Z :=
  let truncated :=
    match Prim2SF d with
    | S754_finite s m e =>
        let magnitude :=
          if (0 <=? e)%Z then Z.shiftl (Zpos m) e else Z.shiftr (Zpos m) (- e) in
        if s then (- magnitude)%Z else magnitude
    | S754_zero _ => 0%Z
    | _ => (- 2 ^ 31)%Z
    end in
  if ((- 2 ^ 31 <=? truncated) && (truncated <? 2 ^ 31))%Z then truncated
  else (- 2 ^ 31)%Z.

(** [gp_Vec::Magnitude], [Normalize] and [Multiplied]. *)
Definition Magnitude (v : gp_Vec) : float :=
  PrimFloat.sqrt (vX v * vX v + vY v * vY v + vZ v * vZ v)%float.
Definition Normalize (v : gp_Vec) : gp_Vec :=
  let d := Magnitude v in Vec (vX v / d) (vY v / d) (vZ v / d).
Definition Multiplied (v : gp_Vec) (scalar : float) : gp_Vec :=
  Vec (vX v * scalar) (vY v * scalar) (vZ v * scalar).

(** What the [try] block around [BRepAdaptor_Surface] leaves behind: no
    plane (or a failure before [planar] is set), a plane whose axis could
    not be read, or a plane with its axis direction. *)
Inductive plane_probe : Type :=
  | NotPlane
  | PlaneWithoutAxis
  | PlaneAxis (dir : gp_Vec).

(** The operations of the geometry kernel the feature handler calls.  They
    are taken to return; [surfaceProperties] is [None] when the call raises
    inside its [try] block. *)
Record Kernel (TopoDS_Shape : Type) : Type := mkKernel {
  makeRectangleFace : float -> float -> gp_Pnt -> TopoDS_Shape;
  makeCircleFace : float -> gp_Pnt -> TopoDS_Shape;
  polygonFace : Z -> float -> gp_Pnt -> float -> TopoDS_Shape;
  MakePrism : TopoDS_Shape -> gp_Vec -> TopoDS_Shape;
  faces : TopoDS_Shape -> list TopoDS_Shape;
  edges : TopoDS_Shape -> list TopoDS_Shape;
  boundingBox : TopoDS_Shape -> gp_Pnt * gp_Pnt;
  surfaceProperties : TopoDS_Shape -> option (float * gp_Pnt);
  probePlane : TopoDS_Shape -> plane_probe
}.
Arguments makeRectangleFace {TopoDS_Shape} k _ _ _.
Arguments makeCircleFace {TopoDS_Shape} k _ _.
Arguments polygonFace {TopoDS_Shape} k _ _ _ _.
Arguments MakePrism {TopoDS_Shape} k _ _.
Arguments faces {TopoDS_Shape} k _.
Arguments edges {TopoDS_Shape} k _.
Arguments boundingBox {TopoDS_Shape} k _.
Arguments surfaceProperties {TopoDS_Shape} k _.
Arguments probePlane {TopoDS_Shape} k _.

Definition makeSolidMeta (handle ownerKey featureId : string)
    (center : gp_Pnt) (tags : json) : json :=
  let meta := set_key "handle" (JStr handle) [] in
  let meta := set_key "ownerHandle" (JStr handle) meta in
  let meta := set_key "ownerKey" (JStr ownerKey) meta in
  let meta := set_key "createdBy" (JStr featureId) meta in
  let meta := set_key "role" (JStr "body") meta in
  let meta := set_key "center" (pointToJson center) meta in
  let meta := set_key "centerZ" (JNum (vZ center)) meta in
  let meta := if is_null tags then meta else set_key "featureTags" tags meta in
  JObj meta.

Definition makeFaceMeta (handle ownerHandle ownerKey featureId : string)
    (center : gp_Pnt) (area : float) (planar : bool) (normal : string)
    (normalVec : option gp_Vec) (tags : json) : json :=
  let meta := set_key "handle" (JStr handle) [] in
  let meta := set_key "ownerHandle" (JStr ownerHandle) meta in
  let meta := set_key "ownerKey" (JStr ownerKey) meta in
  let meta := set_key "createdBy" (JStr featureId) meta in
  let meta := set_key "planar" (JBool planar) meta in
  let meta := set_key "area" (JNum area) meta in
  let meta := set_key "center" (pointToJson center) meta in
  let meta := set_key "centerZ" (JNum (vZ center)) meta in
  let meta :=
    if String.eqb normal "" then meta else set_key "normal" (JStr normal) meta in
  let meta :=
    match normalVec with
    | Some vec => set_key "normalVec" (vecToJson vec) meta
    | None => meta
    end in
  let meta := if is_null tags then meta else set_key "featureTags" tags meta in
  JObj meta.

Definition makeEdgeMeta (handle ownerHandle ownerKey featureId : string)
    (center : gp_Pnt) (tags : json) : json :=
  let meta := set_key "handle" (JStr handle) [] in
  let meta := set_key "ownerHandle" (JStr ownerHandle) meta in
  let meta := set_key "ownerKey" (JStr ownerKey) meta in
  let meta := set_key "createdBy" (JStr featureId) meta in
  let meta := set_key "role" (JStr "edge") meta in
  let meta := set_key "center" (pointToJson center) meta in
  let meta := set_key "centerZ" (JNum (vZ center)) meta in
  let meta := if is_null tags then meta else set_key "featureTags" tags meta in
  JObj meta.

(** ** Applying a feature *)

(** [j[key]] on a [const] value: 305 unless [j] is an object; a key that
    is not there is read as [null]. *)
Definition index_key (j : json) (key : string) : res json :=
  match j with
  | JObj fields => Ok (default JNull (assoc key fields))
  | _ => throw (type_error 305)
  end.

Fixpoint parseOutputs (entries : list json) (acc : gmap string KernelObject)
    : res (gmap string KernelObject) :=
  match entries with
  | [] => Ok acc
  | entry :: rest =>
      let* object := index_key entry "object" in
      let* id := value_string object "id" "" in
      let* kind := value_string object "kind" "" in
      let* meta := value_json object "meta" (JObj []) in
      let* key := value_string entry "key" id in
      parseOutputs rest (<[key := mkObject id kind meta]> acc)
  end.

Fixpoint parseSelections (entries : list json) : res (list KernelSelection) :=
  match entries with
  | [] => Ok []
  | entry :: rest =>
      let* id := value_string entry "id" "" in
      let* kind := value_string entry "kind" "" in
      let* meta := value_json entry "meta" (JObj []) in
      let* sels := parseSelections rest in
      Ok (mkSelection id kind meta :: sels)
  end.

Definition parseKernelResult (value : json) : res KernelResult :=
  match value with
  | JObj _ =>
      let* outs :=
        if contains value "outputs" then
          parseOutputs (elements (at_key value "outputs")) ∅
        else Ok ∅ in
      let* sels :=
        if contains value "selections" then
          parseSelections (elements (at_key value "selections"))
        else Ok [] in
      Ok (mkResult outs sels)
  | _ => Ok emptyResult
  end.

Definition serializeKernelResult (result : KernelResult) : json :=
  let outs :=
    map (fun entry : string * KernelObject =>
           JObj [("key", JStr (fst entry));
                 ("object", JObj [("id", JStr (obj_id (snd entry)));
                                  ("kind", JStr (obj_kind (snd entry)));
                                  ("meta", obj_meta (snd entry))])])
        (map_to_list (outputs result)) in
  let sels :=
    map (fun sel =>
           JObj [("id", JStr (sel_id sel)); ("kind", JStr (sel_kind sel));
                 ("meta", sel_meta sel)])
        (selections result) in
  JObj [("outputs", JArr outs); ("selections", JArr sels)].

Section Feature.

Context {TopoDS_Shape : Type} (kernel : Kernel TopoDS_Shape).

Definition shapeCenter (shape : TopoDS_Shape) : gp_Pnt :=
  let '(minPnt, maxPnt) := boundingBox kernel shape in
  Vec ((vX minPnt + vX maxPnt) / 2) ((vY minPnt + vY maxPnt) / 2)
      ((vZ minPnt + vZ maxPnt) / 2).

Definition makePolygonFace (sides : Z) (radius : float) (center : gp_Pnt)
    (rotation : float) : res TopoDS_Shape :=
  if (sides <? 3)%Z then throw (runtime_error "profile.poly requires sides >= 3")
  else Ok (polygonFace kernel sides radius center rotation).

Definition buildProfileFace (profile : json) : res TopoDS_Shape :=
  let* kind := value_string profile "kind" "" in
  if String.eqb kind "profile.rectangle" then
    let* width := parseScalar (at_key profile "width") 0 in
    let* height := parseScalar (at_key profile "height") 0 in
    let* c := value_json profile "center" (JArr [JNum 0; JNum 0]) in
    let* center := parsePoint2D c 0 in
    Ok (makeRectangleFace kernel width height center)
  else if String.eqb kind "profile.circle" then
    let* radius := parseScalar (at_key profile "radius") 0 in
    let* c := value_json profile "center" (JArr [JNum 0; JNum 0]) in
    let* center := parsePoint2D c 0 in
    Ok (makeCircleFace kernel radius center)
  else if String.eqb kind "profile.poly" then
    let* sides := parseScalar (at_key profile "sides") 0 in
    let* radius := parseScalar (at_key profile "radius") 0 in
    let* c := value_json profile "center" (JArr [JNum 0; JNum 0]) in
    let* center := parsePoint2D c 0 in
    let* rotation := value_double profile "rotation" 0 in
    makePolygonFace (static_cast_int sides) radius center rotation
  else throw (runtime_error ("Unsupported profile kind: " ++ kind)).

(** One pass of the face loop of [collectSelections]. *)
Definition faceSelection (face : TopoDS_Shape)
    (faceHandle ownerHandle ownerKey featureId : string) (tags : json)
    : KernelSelection :=
  let '(area, center) :=
    match surfaceProperties kernel face with
    | Some (mass, centre) => (mass, centre)
    | None => (0%float, shapeCenter face)
    end in
  let '(planar, normalDir, normalVec) :=
    match probePlane kernel face with
    | NotPlane => (false, "", None)
    | PlaneWithoutAxis => (true, "", None)
    | PlaneAxis vec => (true, axisDirectionFromVector vec, Some vec)
    end in
  mkSelection "face" "face"
    (makeFaceMeta faceHandle ownerHandle ownerKey featureId center area
                  planar normalDir normalVec tags).

Fixpoint collectFaces (fs : list TopoDS_Shape)
    (registry : ShapeRegistry TopoDS_Shape)
    (ownerHandle ownerKey featureId : string) (tags : json)
    : list KernelSelection * ShapeRegistry TopoDS_Shape :=
  match fs with
  | [] => ([], registry)
  | face :: rest =>
      let '(faceHandle, r1) := registerShape registry face in
      let sel := faceSelection face faceHandle ownerHandle ownerKey featureId tags in
      let '(sels, r2) := collectFaces rest r1 ownerHandle ownerKey featureId tags in
      (sel :: sels, r2)
  end.

Fixpoint collectEdges (es : list TopoDS_Shape)
    (registry : ShapeRegistry TopoDS_Shape)
    (ownerHandle ownerKey featureId : string) (tags : json)
    : list KernelSelection * ShapeRegistry TopoDS_Shape :=
  match es with
  | [] => ([], registry)
  | edge :: rest =>
      let '(edgeHandle, r1) := registerShape registry edge in
      let sel :=
        mkSelection "edge" "edge"
          (makeEdgeMeta edgeHandle ownerHandle ownerKey featureId
                        (shapeCenter edge) tags) in
      let '(sels, r2) := collectEdges rest r1 ownerHandle ownerKey featureId tags in
      (sel :: sels, r2)
  end.

Definition collectSelections (shape : TopoDS_Shape)
    (registry : ShapeRegistry TopoDS_Shape)
    (featureId ownerKey : string) (tags : json)
    : KernelResult * ShapeRegistry TopoDS_Shape :=
  let '(ownerHandle, r1) := registerShape registry shape in
  let solidSelection :=
    mkSelection "solid" "solid"
      (makeSolidMeta ownerHandle ownerKey featureId (shapeCenter shape) tags) in
  let '(faceSels, r2) :=
    collectFaces (faces kernel shape) r1 ownerHandle ownerKey featureId tags in
  let '(edgeSels, r3) :=
    collectEdges (edges kernel shape) r2 ownerHandle ownerKey featureId tags in
  let output :=
    mkObject (featureId ++ ":" ++ ownerKey) "solid"
             (JObj [("handle", JStr ownerHandle); ("role", JStr "body")]) in
  (mkResult {[ ownerKey := output ]} (solidSelection :: faceSels ++ edgeSels), r3).

(** [SessionManager]: the sessions by id. *)
Definition SessionManager : Type := gmap string (Session TopoDS_Shape).

(** [sessions.get(id)]: the session under [id], made and stored first
    when there is none. *)
Definition sessionGet (sessions : SessionManager) (sessionId : string)
    : Session TopoDS_Shape * SessionManager :=
  match sessions !! sessionId with
  | Some session => (session, sessions)
  | None => (emptySession, <[sessionId := emptySession]> sessions)
  end.

(** The state of session [id] as a client sees it: a session that was
    never made is the one [sessionGet] would make. *)
Definition sessionState (sessions : SessionManager) (sessionId : string)
    : Session TopoDS_Shape :=
  default emptySession (sessions !! sessionId).

(** The reply of a handler: the body on success, or status 400 with the
    exception caught. *)
Inductive response : Type :=
  | Replied (content : json)
  | Status400 (f : failure).

(** The part of the [/v1/exec-feature] handler from the payload to the
    solid: every statement that can throw before the registry is
    touched. *)
Definition buildSolid (feature : json) : res TopoDS_Shape :=
  let* kind := value_string feature "kind" "" in
  let* featureId := value_string feature "id" "feature" in
  let* tags := value_json feature "tags" (JArr []) in
  if negb (String.eqb kind "feature.extrude") then
    throw (runtime_error ("Unsupported feature kind: " ++ kind))
  else
    let* profile := value_json feature "profile" (JObj []) in
    let* profileKind := value_string profile "kind" "" in
    if String.eqb profileKind "profile.ref" then
      throw (runtime_error "profile.ref not supported in native backend yet")
    else
      let* face := buildProfileFace profile in
      let* depthValue := value_double feature "depth" 0 in
      let depthJson := JNum depthValue in
      if match depthJson with JStr s => String.eqb s "throughAll" | _ => false end
      then throw (runtime_error "throughAll not supported in native backend yet")
      else
        let* depth := parseScalar depthJson 0 in
        let* a := value_json feature "axis" (JObj []) in
        let* axis := parseAxis a in
        let axis := if (Magnitude axis =? 0)%float then Vec 0 0 1 else axis in
        let axis := Normalize axis in
        let vec := Multiplied axis depth in
        Ok (MakePrism kernel face vec).

(** The [try] block of the handler, started after [json::parse]: the
    sessions as the block leaves them, and its result.  Nothing throws
    once the solid is built: the kernel calls of [collectSelections]
    return, and the reply holds only strings of the parsed request and
    handles, which [dump] accepts. *)
Definition execFeatureTry (sessions : SessionManager) (payload : json)
    : SessionManager * res json :=
  match value_string payload "sessionId" "default" with
  | Err f => (sessions, Err f)
  | Ok sessionId =>
      let '(session, sessions1) := sessionGet sessions sessionId in
      let prepared :=
        let* up := value_json payload "upstream" (JObj []) in
        let* upstream := parseKernelResult up in
        let* feature := value_json payload "feature" (JObj []) in
        let* solid := buildSolid feature in
        let* featureId := value_string feature "id" "feature" in
        let* tags := value_json feature "tags" (JArr []) in
        let* resultKey := value_string feature "result" "body:main" in
        Ok (upstream, solid, featureId, tags, resultKey) in
      match prepared with
      | Err f => (sessions1, Err f)
      | Ok (upstream, solid, featureId, tags, resultKey) =>
          let '(built, registry1) :=
            collectSelections solid (registry session) featureId resultKey tags in
          let merged := mergeResults upstream built in
          (<[sessionId := mkSession registry1 merged]> sessions1,
           Ok (JObj [("result", serializeKernelResult built)]))
      end
  end.

(** The handler of [/v1/exec-feature]; [body] is [None] when the request
    body is not JSON and [json::parse] throws. *)
Definition execFeature (sessions : SessionManager) (body : option json)
    : SessionManager * response :=
  match body with
  | None => (sessions, Status400 (Thrown parse_error))
  | Some payload =>
      match execFeatureTry sessions payload with
      | (sessions', Ok content) => (sessions', Replied content)
      | (sessions', Err f) => (sessions', Status400 f)
      end
  end.

End Feature.

(** ** Notions the properties are stated with *)

(** A double that is not NaN: it compares equal to itself. *)
Definition ordered (x : float) : Prop := (x =? x)%float = true.

Definition canonicalTokens : list string := ["+X"; "-X"; "+Y"; "-Y"; "+Z"; "-Z"].





(** ** A small kernel and model to run the definitions on *)

(** Shapes are numbered: 10 is an extruded box, 11 its top face, 12 its
    bottom face, 13 a face whose plane has the unit axis (0.6, 0.8, 0), 21 an
    edge. *)
Definition boxKernel : Kernel nat := {|
  makeRectangleFace := fun _ _ _ => 1%nat;
  makeCircleFace := fun _ _ => 2%nat;
  polygonFace := fun _ _ _ _ => 3%nat;
  MakePrism := fun _ _ => 10%nat;
  faces := fun shape => if Nat.eqb shape 10 then [11; 12; 13]%nat else [];
  edges := fun shape => if Nat.eqb shape 10 then [21]%nat else [];
  boundingBox := fun _ => (Vec (-5) (-5) 0, Vec 5 5 5);
  surfaceProperties := fun face =>
    if Nat.eqb face 11 then Some (100%float, Vec 0 0 5)
    else if Nat.eqb face 12 then Some (100%float, Vec 0 0 0)
    else None;
  probePlane := fun face =>
    if Nat.eqb face 11 then PlaneAxis (Vec 0 0 1)
    else if Nat.eqb face 12 then PlaneAxis (Vec 0 0 (-1))
    else if Nat.eqb face 13 then PlaneAxis (Vec 0x1.3333333333333p-1 0x1.999999999999ap-1 0)
    else NotPlane
|}.

(** A [pred.normal] predicate asking for [+Z], and one without a value. *)
Definition predNormalZ : json :=
  JObj [("kind", JStr "pred.normal"); ("value", JStr "+Z")].

(** The value under ["ownerKey"] in the metadata of a selection. *)
Definition ownerValue (sel : KernelSelection) : option json :=
  match sel_meta sel with
  | JObj fields => assoc "ownerKey" fields
  | _ => None
  end.

(** A selection is shadowed by [next] when its owner key is a string and a
    selection of [next] has the same string as its owner key. *)
Definition shadowedBy (next : list KernelSelection) (sel : KernelSelection)
    : bool :=
  match ownerValue sel with
  | Some (JStr owner) =>
      existsb (fun other =>
                 match ownerValue other with
                 | Some (JStr key) => String.eqb key owner
                 | _ => false
                 end) next
  | _ => false
  end.

(** Two selections whose owner key is the number 7. *)
Definition numberedFace : KernelSelection :=
  mkSelection "face" "face" (JObj [("ownerKey", JNum 7)]).
Definition numberedSolid : KernelSelection :=
  mkSelection "solid" "solid" (JObj [("ownerKey", JNum 7)]).

(** Every handle the registry holds was made from a counter value below
    the current one. *)
Definition issuedBelow {TopoDS_Shape : Type} (r : ShapeRegistry TopoDS_Shape)
    : Prop :=
  forall handle, is_Some (shapes_ r !! handle) ->
    exists n, (n < counter_ r)%N /\ handle = handleOf n.

(** The selections that pass every predicate of [preds], whatever their
    kind, in order; the first predicate that throws ends the loop. *)
Fixpoint keepMatching (preds : json) (sels : list KernelSelection)
    : res (list KernelSelection) :=
  match sels with
  | [] => Ok []
  | sel :: rest =>
      let* m := matchesAll (elements preds) sel in
      let* tail := keepMatching preds rest in
      Ok (if m then sel :: tail else tail)
  end.

(** The result model and registry after extruding the box as feature [F1]
    in a fresh session: a solid, the faces 11, 12 and 13 and the edge 21. *)
Definition boxModel : KernelResult :=
  (collectSelections boxKernel 10%nat emptyRegistry "F1" "body:main" JNull).1.
Definition boxRegistry : ShapeRegistry nat :=
  (collectSelections boxKernel 10%nat emptyRegistry "F1" "body:main" JNull).2.

Definition boxSolid : KernelSelection :=
  mkSelection "solid" "solid"
    (makeSolidMeta "shape:0" "body:main" "F1" (Vec 0 0 0x1.4p+1) JNull).
Definition topFace : KernelSelection :=
  faceSelection boxKernel 11%nat "shape:1" "shape:0" "body:main" "F1" JNull.
Definition bottomFace : KernelSelection :=
  faceSelection boxKernel 12%nat "shape:2" "shape:0" "body:main" "F1" JNull.
Definition sideFace : KernelSelection :=
  faceSelection boxKernel 13%nat "shape:3" "shape:0" "body:main" "F1" JNull.
Definition boxEdge : KernelSelection :=
  mkSelection "edge" "edge"
    (makeEdgeMeta "shape:4" "shape:0" "body:main" "F1" (Vec 0 0 0x1.4p+1) JNull).

(** Selectors over the box: the planar face of greatest [centerZ]; the
    planar faces of greatest area; anything made by [F1] under a selector
    kind the resolver does not know; the face closest to a named output. *)
Definition selHighestFace : json :=
  JObj [("kind", JStr "selector.face");
        ("predicates", JArr [JObj [("kind", JStr "pred.planar")]]);
        ("rank", JArr [JObj [("kind", JStr "rank.maxZ")]])].
Definition selLargestFace : json :=
  JObj [("kind", JStr "selector.face");
        ("predicates", JArr [JObj [("kind", JStr "pred.planar")]]);
        ("rank", JArr [JObj [("kind", JStr "rank.maxArea")]])].
Definition selAnyF1 : json :=
  JObj [("kind", JStr "selector.any");
        ("predicates",
         JArr [JObj [("kind", JStr "pred.createdBy"); ("featureId", JStr "F1")]])].
Definition ruleClosestTo (name : string) : json :=
  JObj [("kind", JStr "rank.closestTo");
        ("target", JObj [("kind", JStr "selector.named"); ("name", JStr name)])].
Definition selClosestTo (name : string) : json :=
  JObj [("kind", JStr "selector.face"); ("rank", JArr [ruleClosestTo name])].



(** What the named lookup of [body:main] returns on the box. *)
Definition bodyOutput : KernelSelection :=
  mkSelection "F1:body:main" "solid"
    (JObj [("handle", JStr "shape:0"); ("role", JStr "body")]).

(** A model as a client can send it upstream: two faces made by [F0]
    whose areas are the numbers -5 and -2. *)
Definition sunkFace (area : float) : KernelSelection :=
  mkSelection "face" "face"
    (JObj [("createdBy", JStr "F0"); ("area", JNum area)]).
Definition sunkModel : KernelResult :=
  mkResult ∅ [sunkFace (-5); sunkFace (-2)].
Definition ruleMaxArea : json := JObj [("kind", JStr "rank.maxArea")].
Definition selLargestSunk : json :=
  JObj [("kind", JStr "selector.face"); ("rank", JArr [ruleMaxArea])].

(** Requests to [/v1/exec-feature]: the extrusion of a 10 by 10 rectangle
    by 5 along [+Z] as feature [F1] in session [s1], and a feature of a
    kind the handler does not build, sent to a session [s2]. *)
Definition extrudeRequest : json :=
  JObj [("sessionId", JStr "s1");
        ("feature",
         JObj [("kind", JStr "feature.extrude"); ("id", JStr "F1");
               ("tags", JNull);
               ("profile",
                JObj [("kind", JStr "profile.rectangle");
                      ("width", JNum 10); ("height", JNum 10)]);
               ("depth", JNum 5); ("axis", JStr "+Z")])].
Definition revolveRequest : json :=
  JObj [("sessionId", JStr "s2");
        ("feature", JObj [("kind", JStr "feature.revolve"); ("id", JStr "F2")])].

(** The sessions after [extrudeRequest] on a fresh server. *)
Definition boxSessions : gmap string (Session nat) :=
  {[ "s1" := mkSession boxRegistry boxModel ]}.

(** A position tolerance on the highest planar face of the box, without
    its modifiers. *)
Definition positionFields : list (string * json) :=
  [("kind", JStr "constraint.position");
   ("target", JObj [("kind", JStr "ref.surface"); ("selector", selHighestFace)]);
   ("tolerance", JNum 0.5); ("zone", JStr "diameter")].

(** ** STEP schema selection *)

(** The loop body of [toUpperCopy]: a byte from ['a'] to ['z'] is moved to
    its capital, any other byte is left. *)
Definition upperChar (ch : Ascii.ascii) : Ascii.ascii :=
  let n := Ascii.N_of_ascii ch in
  if ((97 <=? n) && (n <=? 122))%N then Ascii.ascii_of_N (n - 97 + 65) else ch.

Fixpoint toUpperCopy (value : string) : string :=
  match value with
  | EmptyString => EmptyString
  | String ch rest => String (upperChar ch) (toUpperCopy rest)
  end.

(** [haystack.find(needle) != std::string::npos]. *)
Definition found (needle haystack : string) : bool :=
  match String.index 0 needle haystack with
  | Some _ => true
  | None => false
  end.

(** The part of the kernel the export and mesh requests use.  [Statics] is
    the process-wide table of [Interface_Static]; the enumeration of
    [write.step.schema] is read through [schemaStart] ([estart]),
    [schemaCount] ([ecount]) and [schemaEnum] (the value under ["enum i"],
    [None] for a null pointer).  [stepWrite] and [stepWritePmi] stand for
    the transfer, the write to the temporary file and the read of its
    bytes, [None] when the writer does not report [IFSelect_RetDone].
    [triangulation] is the triangulation of a face after the shape was
    meshed with the given linear deflection, relative flag and angular
    deflection: [None] for a null handle, otherwise the nodes, already
    moved by the face's location, and the triangles by their node numbers,
    counted from 1. *)
Record StepKernel (TopoDS_Shape Statics Graph : Type) : Type := mkStepKernel {
  schemaStart : Z;
  schemaCount : Z;
  schemaEnum : Z -> option string;
  SetCVal : string -> Statics -> Statics;
  stepWrite : Statics -> TopoDS_Shape -> option (list Byte.byte);
  stepWritePmi : Statics -> TopoDS_Shape -> Graph -> option (list Byte.byte);
  explore : TopoDS_Shape -> list TopoDS_Shape;
  triangulation :
    TopoDS_Shape -> float -> bool -> float -> TopoDS_Shape ->
    option (list gp_Pnt * list (Z * Z * Z))
}.
Arguments schemaStart {TopoDS_Shape Statics Graph} s.
Arguments schemaCount {TopoDS_Shape Statics Graph} s.
Arguments schemaEnum {TopoDS_Shape Statics Graph} s _.
Arguments SetCVal {TopoDS_Shape Statics Graph} s _ _.
Arguments stepWrite {TopoDS_Shape Statics Graph} s _ _.
Arguments stepWritePmi {TopoDS_Shape Statics Graph} s _ _ _.
Arguments explore {TopoDS_Shape Statics Graph} s _.
Arguments triangulation {TopoDS_Shape Statics Graph} s _ _ _ _ _.

(** The reply of the export and mesh handlers: the body sent, or status
    400 with the exception caught. *)
Inductive reply (A : Type) : Type :=
  | Sent (content : A)
  | Refused (f : failure).
Arguments Sent {A} content.
Arguments Refused {A} f.

Section StepExport.

Context {TopoDS_Shape Statics : Type}.
Context (step : StepKernel TopoDS_Shape Statics
                  (list (@DatumRecord TopoDS_Shape)
                   * list (@ToleranceRecord TopoDS_Shape))).

(** The loop of [findSchemaEnumMatch] over the offsets [i] still to
    visit. *)
Fixpoint schemaMatchFrom (tokenUpper : string) (offsets : list nat) : string :=
  match offsets with
  | [] => ""
  | i :: rest =>
      let idx := (schemaStart step + Z.of_nat i)%Z in
      match schemaEnum step idx with
      | None => schemaMatchFrom tokenUpper rest
      | Some valueStr =>
          if String.eqb valueStr "" then schemaMatchFrom tokenUpper rest
          else if found tokenUpper (toUpperCopy valueStr) then valueStr
          else schemaMatchFrom tokenUpper rest
      end
  end.

Definition findSchemaEnumMatch (token : string) : string :=
  if (schemaCount step <=? 0)%Z then ""
  else schemaMatchFrom (toUpperCopy token) (seq 0 (Z.to_nat (schemaCount step))).

(** The value [writeStepSchema] passes to [SetCVal], [None] when it
    returns without a call. *)
Definition schemaTarget (schema : string) : option string :=
  if String.eqb schema "" then None
  else
    let mapped :=
      if String.eqb schema "AP242" then findSchemaEnumMatch "AP242"
      else findSchemaEnumMatch schema in
    Some (if String.eqb mapped "" then schema else mapped).

Definition writeStepSchema (schema : string) (statics : Statics) : Statics :=
  match schemaTarget schema with
  | None => statics
  | Some target => SetCVal step target statics
  end.

Definition exportStep (shape : TopoDS_Shape) (schema : string)
    (statics : Statics) : Statics * res (list Byte.byte) :=
  let statics1 := writeStepSchema schema statics in
  (statics1,
   match stepWrite step statics1 shape with
   | Some bytes => Ok bytes
   | None => throw (runtime_error "Failed to write STEP")
   end).

Definition exportStepWithPmi (shape : TopoDS_Shape) (current : KernelResult)
    (registry : ShapeRegistry TopoDS_Shape) (pmiPayload : json)
    (schema : string) (statics : Statics)
    : Statics * res (list Byte.byte) :=
  let statics1 := writeStepSchema schema statics in
  (statics1,
   let* graph := annotationGraph pmiPayload current registry in
   match stepWritePmi step statics1 shape graph with
   | Some bytes => Ok bytes
   | None => throw (runtime_error "Failed to write STEP with PMI")
   end).

(** ** Meshing *)

(** The node loop of one face: three coordinates per node. *)
Definition nodePositions (nodes : list gp_Pnt) : list float :=
  flat_map (fun p => [vX p; vY p; vZ p]) nodes.

(** The triangle loop of one face: node numbers counted from 1 become
    indices counted from [vertexOffset]. *)
Definition triangleIndices (vertexOffset : Z) (triangles : list (Z * Z * Z))
    : list Z :=
  flat_map (fun t => let '(n1, n2, n3) := t in
                     [vertexOffset + n1 - 1; vertexOffset + n2 - 1;
                      vertexOffset + n3 - 1]%Z)
           triangles.

(** The face loop of [meshShape]: the buffers after the faces [fs], from
    the buffers and the offset before them.  [int] is computed without
    wrap-around: the C++ behaviour beyond [2^31 - 1] is undefined. *)
Fixpoint meshFaces (mesh : TopoDS_Shape -> option (list gp_Pnt * list (Z * Z * Z)))
    (fs : list TopoDS_Shape) (positions : list float) (indices : list Z)
    (vertexOffset : Z) : list float * list Z :=
  match fs with
  | [] => (positions, indices)
  | face :: rest =>
      match mesh face with
      | None => meshFaces mesh rest positions indices vertexOffset
      | Some (nodes, triangles) =>
          meshFaces mesh rest
            (positions ++ nodePositions nodes)
            (indices ++ triangleIndices vertexOffset triangles)
            (vertexOffset + Z.of_nat (length nodes))%Z
      end
  end.

(** [meshShape]: the vectors stored under ["positions"] and
    ["indices"]. *)
Definition meshShape (shape : TopoDS_Shape) (options : json)
    : res (list float * list Z) :=
  let* linDeflection := value_double options "linearDeflection" 0x1.999999999999ap-4 in
  let* angDeflection := value_double options "angularDeflection" 0.5 in
  let* relative := value_bool options "relative" false in
  Ok (meshFaces (triangulation step shape linDeflection relative angDeflection)
                (explore step shape) [] [] 0).

(** ** The mesh and export handlers *)

(** The head the three handlers share: the session and the shape of the
    request. *)
Definition requestShape (sessions : gmap string (Session TopoDS_Shape))
    (payload : json)
    : gmap string (Session TopoDS_Shape)
      * res (Session TopoDS_Shape * TopoDS_Shape) :=
  match value_string payload "sessionId" "default" with
  | Err f => (sessions, Err f)
  | Ok sessionId =>
      let '(session, sessions1) := sessionGet sessions sessionId in
      (sessions1,
       let* handle := value_string payload "handle" "" in
       if String.eqb handle "" then throw (runtime_error "Missing shape handle")
       else
         let* shape := get (registry session) handle in
         Ok (session, shape))
  end.

(** [options.value("schema", "AP242")] of the payload's options. *)
Definition requestSchema (payload : json) : res string :=
  let* options := value_json payload "options" (JObj []) in
  value_string options "schema" "AP242".

Definition meshHandler (sessions : gmap string (Session TopoDS_Shape))
    (body : option json)
    : gmap string (Session TopoDS_Shape) * reply (list float * list Z) :=
  match body with
  | None => (sessions, Refused (Thrown parse_error))
  | Some payload =>
      let '(sessions1, found_shape) := requestShape sessions payload in
      (sessions1,
       match
         (let* ss := found_shape in
          let* options := value_json payload "options" (JObj []) in
          meshShape ss.2 options)
       with
       | Ok buffers => Sent buffers
       | Err f => Refused f
       end)
  end.

Definition exportStepHandler (sessions : gmap string (Session TopoDS_Shape))
    (statics : Statics) (body : option json)
    : gmap string (Session TopoDS_Shape) * Statics * reply (list Byte.byte) :=
  match body with
  | None => (sessions, statics, Refused (Thrown parse_error))
  | Some payload =>
      let '(sessions1, found_shape) := requestShape sessions payload in
      match (let* ss := found_shape in
             let* schema := requestSchema payload in
             Ok (ss.2, schema)) with
      | Err f => (sessions1, statics, Refused f)
      | Ok (shape, schema) =>
          match exportStep shape schema statics with
          | (statics1, Ok bytes) => (sessions1, statics1, Sent bytes)
          | (statics1, Err f) => (sessions1, statics1, Refused f)
          end
      end
  end.

Definition exportStepPmiHandler (sessions : gmap string (Session TopoDS_Shape))
    (statics : Statics) (body : option json)
    : gmap string (Session TopoDS_Shape) * Statics * reply (list Byte.byte) :=
  match body with
  | None => (sessions, statics, Refused (Thrown parse_error))
  | Some payload =>
      let '(sessions1, found_shape) := requestShape sessions payload in
      match (let* ss := found_shape in
             let* pmiPayload := value_json payload "pmi" (JObj []) in
             let* schema := requestSchema payload in
             Ok (ss, pmiPayload, schema)) with
      | Err f => (sessions1, statics, Refused f)
      | Ok (session, shape, pmiPayload, schema) =>
          match exportStepWithPmi shape (current session) (registry session)
                  pmiPayload schema statics with
          | (statics1, Ok bytes) => (sessions1, statics1, Sent bytes)
          | (statics1, Err f) => (sessions1, statics1, Refused f)
          end
      end
  end.

End StepExport.

(** ** Notions for the further properties *)

(** The handle a selection carries in its metadata. *)
Definition handleOfSelection (sel : KernelSelection) : res string :=
  value_string (sel_meta sel) "handle" "".

(** The shapes [collectSelections] registers for a solid, in order: the
    solid, its faces, its edges. *)
Definition registeredShapes {TopoDS_Shape : Type} (kernel : Kernel TopoDS_Shape)
    (shape : TopoDS_Shape) : list TopoDS_Shape :=
  shape :: faces kernel shape ++ edges kernel shape.

(** A selection owned by the output key [ownerKey]. *)
Definition ownedBy (ownerKey : string) (sel : KernelSelection) : bool :=
  match ownerKeyOf (sel_meta sel) with
  | Some owner => String.eqb owner ownerKey
  | None => false
  end.

(** A reference of kind [refKind] to the output named [name]. *)
Definition namedRef (refKind name : string) : json :=
  JObj [("kind", JStr refKind);
        ("selector", JObj [("kind", JStr "selector.named"); ("name", JStr name)])].


(** A selector for a solid whose rank list holds a number where a rule is
    expected. *)
Definition selSolidOddRank : json :=
  JObj [("kind", JStr "selector.solid"); ("rank", JArr [JNum 5])].

(** A reference to the highest planar face of the box as a surface. *)
Definition refHighestFace : json :=
  JObj [("kind", JStr "ref.surface"); ("selector", selHighestFace)].

(** A PMI payload on the box: datum [A] on the highest planar face, a
    datum without an id, a constraint of an unknown kind whose target is
    not even a reference, and a position tolerance linked to [A] and to a
    datum [Z] that does not exist. *)
Definition boxPmi : json :=
  JObj [("datums",
         JArr [JObj [("id", JStr "A"); ("target", refHighestFace)];
               JObj [("label", JStr "B"); ("target", refHighestFace)]]);
        ("constraints",
         JArr [JObj [("kind", JStr "constraint.roundness"); ("target", JNum 5)];
               JObj (("datum", JArr [JObj [("datum", JStr "A")];
                                     JObj [("datum", JStr "Z")];
                                     JObj []])
                     :: positionFields)])].

(** An entry of the schema enumeration that [findSchemaEnumMatch] accepts
    for the upper-cased token: a non-empty value whose upper-cased copy
    contains the token. *)
Definition schemaEntryMatches (tokenUpper : string) (entry : option string)
    : bool :=
  match entry with
  | Some valueStr =>
      negb (String.eqb valueStr "") && found tokenUpper (toUpperCopy valueStr)
  | None => false
  end.

(** Every triangle of the mesh names nodes of its own face. *)
Definition trianglesInRange (nodes : list gp_Pnt) (triangles : list (Z * Z * Z))
    : Prop :=
  Forall (fun t => let '(n1, n2, n3) := t in
                   (1 <= n1 <= Z.of_nat (length nodes))%Z /\
                   (1 <= n2 <= Z.of_nat (length nodes))%Z /\
                   (1 <= n3 <= Z.of_nat (length nodes))%Z)
         triangles.

(** A STEP kernel and mesher for the box.  The statics are the value of
    [write.step.schema]; the enumeration runs from 1 to 4 and has an empty
    entry; faces 11 and 13 have a triangulation, face 12 has none. *)
Definition boxStep
    : StepKernel nat string
        (list (@DatumRecord nat) * list (@ToleranceRecord nat)) := {|
  schemaStart := 1;
  schemaCount := 4;
  schemaEnum := fun idx =>
    if (idx =? 1)%Z then Some "AP214CD"
    else if (idx =? 2)%Z then Some ""
    else if (idx =? 3)%Z then Some "AP203"
    else if (idx =? 4)%Z then Some "ap242dis"
    else None;
  SetCVal := fun value _ => value;
  stepWrite := fun statics _ =>
    if String.eqb statics "" then None else Some [Byte.x49; Byte.x53; Byte.x4f];
  stepWritePmi := fun statics _ _ =>
    if String.eqb statics "" then None else Some [Byte.x49; Byte.x53; Byte.x4f];
  explore := faces boxKernel;
  triangulation := fun _ _ _ _ face =>
    if Nat.eqb face 11 then
      Some ([Vec (-5) (-5) 5; Vec 5 (-5) 5; Vec 5 5 5; Vec (-5) 5 5],
            [(1, 2, 3); (1, 3, 4)]%Z)
    else if Nat.eqb face 13 then
      Some ([Vec 5 (-5) 0; Vec 5 5 0; Vec 5 5 5], [(1, 2, 3)]%Z)
    else None
|}.

(** Requests to the mesh and export handlers: the solid of the box asked
    for in session [s1], the same handle asked for in a session [s2], and
    a request without a handle. *)
Definition meshRequest : json :=
  JObj [("sessionId", JStr "s1"); ("handle", JStr "shape:0")].
Definition strayRequest : json :=
  JObj [("sessionId", JStr "s2"); ("handle", JStr "shape:0")].
Definition bareRequest : json := JObj [("sessionId", JStr "s1")].

(** An extrusion whose depth is the string ["throughAll"], and one of a
    five-sided profile with two sides. *)
Definition throughAllFeature : json :=
  JObj [("kind", JStr "feature.extrude"); ("id", JStr "F3");
        ("profile",
         JObj [("kind", JStr "profile.rectangle");
               ("width", JNum 10); ("height", JNum 10)]);
        ("depth", JStr "throughAll")].
Definition thinPolyFeature : json :=
  JObj [("kind", JStr "feature.extrude");
        ("profile",
         JObj [("kind", JStr "profile.poly");
               ("sides", JNum 2); ("radius", JNum 1)]);
        ("depth", JNum 5)].

(** An export request for the solid of the box whose only datum points at
    an output that does not exist. *)
Definition lostDatumRequest : json :=
  JObj [("sessionId", JStr "s1"); ("handle", JStr "shape:0");
        ("pmi",
         JObj [("datums",
                JArr [JObj [("id", JStr "A");
                            ("target", namedRef "ref.surface" "body:gone")]])])].

(** ** Notions for the closest-to stage *)




(** ** Notions for the modifier tags *)


(** ** The feature handler when a kernel call raises *)

(** The same handler over a kernel whose calls can raise.  The registry
    is threaded through the collection of the selections, so that what an
    exception leaves behind can be read. *)
Module Raising.

(** How a block of the handler ends: with a value, with a failure of the
    program or of the JSON library, or with an exception of the geometry
    kernel. *)
Inductive outcome (A : Type) : Type :=
  | Done (a : A)
  | Failed (f : failure)
  | Standard_Failure.
Arguments Done {A} a.
Arguments Failed {A} f.
Arguments Standard_Failure {A}.

Definition bind {A B : Type} (o : outcome A) (k : A -> outcome B) : outcome B :=
  match o with
  | Done a => k a
  | Failed f => Failed f
  | Standard_Failure => Standard_Failure
  end.

Notation "'call*' x ':=' o 'in' k" := (bind o (fun x => k))
  (at level 10, x name, o at level 100, k at level 200).

(** A statement of the program or of the JSON library. *)
Definition of_res {A : Type} (r : res A) : outcome A :=
  match r with
  | Ok a => Done a
  | Err f => Failed f
  end.

(** A call into the kernel, [None] when it raises. *)
Definition call {A : Type} (r : option A) : outcome A :=
  match r with
  | Some a => Done a
  | None => Standard_Failure
  end.

(** The operations of the geometry kernel, each [None] when the call
    raises.  [boundingBox] stands for [BRepBndLib::Add] with [CornerMin]
    and [CornerMax], which raise on a void box; [Normalize] for
    [gp_Vec::Normalize], which raises on a vector without a direction.
    The explorers do not raise; [surfaceProperties] and [probePlane] are
    called inside [try] blocks that catch everything, as before. *)
Record Kernel (TopoDS_Shape : Type) : Type := mkKernel {
  makeRectangleFace : float -> float -> gp_Pnt -> option TopoDS_Shape;
  makeCircleFace : float -> gp_Pnt -> option TopoDS_Shape;
  polygonFace : Z -> float -> gp_Pnt -> float -> option TopoDS_Shape;
  Normalize : gp_Vec -> option gp_Vec;
  MakePrism : TopoDS_Shape -> gp_Vec -> option TopoDS_Shape;
  faces : TopoDS_Shape -> list TopoDS_Shape;
  edges : TopoDS_Shape -> list TopoDS_Shape;
  boundingBox : TopoDS_Shape -> option (gp_Pnt * gp_Pnt);
  surfaceProperties : TopoDS_Shape -> option (float * gp_Pnt);
  probePlane : TopoDS_Shape -> plane_probe
}.
Arguments makeRectangleFace {TopoDS_Shape} k _ _ _.
Arguments makeCircleFace {TopoDS_Shape} k _ _.
Arguments polygonFace {TopoDS_Shape} k _ _ _ _.
Arguments Normalize {TopoDS_Shape} k _.
Arguments MakePrism {TopoDS_Shape} k _ _.
Arguments faces {TopoDS_Shape} k _.
Arguments edges {TopoDS_Shape} k _.
Arguments boundingBox {TopoDS_Shape} k _.
Arguments surfaceProperties {TopoDS_Shape} k _.
Arguments probePlane {TopoDS_Shape} k _.

Section Feature.

Context {TopoDS_Shape : Type} (kernel : Kernel TopoDS_Shape).

(** A computation on the registry of the session: the registry as the
    computation leaves it, also when it is cut short, and its outcome. *)
Definition M (A : Type) : Type :=
  ShapeRegistry TopoDS_Shape -> ShapeRegistry TopoDS_Shape * outcome A.

Definition ret {A : Type} (a : A) : M A := fun registry => (registry, Done a).

Definition then_ {A B : Type} (m : M A) (k : A -> M B) : M B :=
  fun registry =>
    match m registry with
    | (registry1, Done a) => k a registry1
    | (registry1, Failed f) => (registry1, Failed f)
    | (registry1, Standard_Failure) => (registry1, Standard_Failure)
    end.

Notation "'step*' x ':=' m 'in' k" := (then_ m (fun x => k))
  (at level 10, x name, m at level 100, k at level 200).

(** [registry.registerShape(shape)]. *)
Definition register (shape : TopoDS_Shape) : M string :=
  fun registry =>
    let '(handle, registry1) := registerShape registry shape in
    (registry1, Done handle).

(** A statement that leaves the registry alone. *)
Definition pure {A : Type} (o : outcome A) : M A := fun registry => (registry, o).

Definition shapeCenter (shape : TopoDS_Shape) : outcome gp_Pnt :=
  call* box := call (boundingBox kernel shape) in
  let '(minPnt, maxPnt) := box in
  Done (Vec ((vX minPnt + vX maxPnt) / 2) ((vY minPnt + vY maxPnt) / 2)
            ((vZ minPnt + vZ maxPnt) / 2)).

Definition makePolygonFace (sides : Z) (radius : float) (center : gp_Pnt)
    (rotation : float) : outcome TopoDS_Shape :=
  if (sides <? 3)%Z then
    Failed (Thrown (runtime_error "profile.poly requires sides >= 3"))
  else call (polygonFace kernel sides radius center rotation).

Definition buildProfileFace (profile : json) : outcome TopoDS_Shape :=
  call* kind := of_res (value_string profile "kind" "") in
  if String.eqb kind "profile.rectangle" then
    call* width := of_res (parseScalar (at_key profile "width") 0) in
    call* height := of_res (parseScalar (at_key profile "height") 0) in
    call* c := of_res (value_json profile "center" (JArr [JNum 0; JNum 0])) in
    call* center := of_res (parsePoint2D c 0) in
    call (makeRectangleFace kernel width height center)
  else if String.eqb kind "profile.circle" then
    call* radius := of_res (parseScalar (at_key profile "radius") 0) in
    call* c := of_res (value_json profile "center" (JArr [JNum 0; JNum 0])) in
    call* center := of_res (parsePoint2D c 0) in
    call (makeCircleFace kernel radius center)
  else if String.eqb kind "profile.poly" then
    call* sides := of_res (parseScalar (at_key profile "sides") 0) in
    call* radius := of_res (parseScalar (at_key profile "radius") 0) in
    call* c := of_res (value_json profile "center" (JArr [JNum 0; JNum 0])) in
    call* center := of_res (parsePoint2D c 0) in
    call* rotation := of_res (value_double profile "rotation" 0) in
    makePolygonFace (static_cast_int sides) radius center rotation
  else Failed (Thrown (runtime_error ("Unsupported profile kind: " ++ kind))).

(** One pass of the face loop of [collectSelections], after the face is
    registered.  The [catch] handler of the first [try] block calls
    [shapeCenter], whose exception leaves the loop. *)
Definition faceSelection (face : TopoDS_Shape)
    (faceHandle ownerHandle ownerKey featureId : string) (tags : json)
    : outcome KernelSelection :=
  call* measured :=
    match surfaceProperties kernel face with
    | Some (mass, centre) => Done (mass, centre)
    | None => call* center := shapeCenter face in Done (0%float, center)
    end in
  let '(area, center) := measured in
  let '(planar, normalDir, normalVec) :=
    match probePlane kernel face with
    | NotPlane => (false, "", None)
    | PlaneWithoutAxis => (true, "", None)
    | PlaneAxis vec => (true, axisDirectionFromVector vec, Some vec)
    end in
  Done (mkSelection "face" "face"
          (makeFaceMeta faceHandle ownerHandle ownerKey featureId center area
                        planar normalDir normalVec tags)).

Fixpoint collectFaces (fs : list TopoDS_Shape)
    (ownerHandle ownerKey featureId : string) (tags : json)
    : M (list KernelSelection) :=
  match fs with
  | [] => ret []
  | face :: rest =>
      step* faceHandle := register face in
      step* sel :=
        pure (faceSelection face faceHandle ownerHandle ownerKey featureId tags) in
      step* sels := collectFaces rest ownerHandle ownerKey featureId tags in
      ret (sel :: sels)
  end.

Fixpoint collectEdges (es : list TopoDS_Shape)
    (ownerHandle ownerKey featureId : string) (tags : json)
    : M (list KernelSelection) :=
  match es with
  | [] => ret []
  | edge :: rest =>
      step* edgeHandle := register edge in
      step* center := pure (shapeCenter edge) in
      let sel :=
        mkSelection "edge" "edge"
          (makeEdgeMeta edgeHandle ownerHandle ownerKey featureId center tags) in
      step* sels := collectEdges rest ownerHandle ownerKey featureId tags in
      ret (sel :: sels)
  end.

Definition collectSelections (shape : TopoDS_Shape)
    (featureId ownerKey : string) (tags : json) : M KernelResult :=
  step* ownerHandle := register shape in
  step* solidCenter := pure (shapeCenter shape) in
  let solidSelection :=
    mkSelection "solid" "solid"
      (makeSolidMeta ownerHandle ownerKey featureId solidCenter tags) in
  step* faceSels :=
    collectFaces (faces kernel shape) ownerHandle ownerKey featureId tags in
  step* edgeSels :=
    collectEdges (edges kernel shape) ownerHandle ownerKey featureId tags in
  let output :=
    mkObject (featureId ++ ":" ++ ownerKey) "solid"
             (JObj [("handle", JStr ownerHandle); ("role", JStr "body")]) in
  ret (mkResult {[ ownerKey := output ]} (solidSelection :: faceSels ++ edgeSels)).

(** The part of the handler from the feature to the solid. *)
Definition buildSolid (feature : json) : outcome TopoDS_Shape :=
  call* kind := of_res (value_string feature "kind" "") in
  call* featureId := of_res (value_string feature "id" "feature") in
  call* tags := of_res (value_json feature "tags" (JArr [])) in
  if negb (String.eqb kind "feature.extrude") then
    Failed (Thrown (runtime_error ("Unsupported feature kind: " ++ kind)))
  else
    call* profile := of_res (value_json feature "profile" (JObj [])) in
    call* profileKind := of_res (value_string profile "kind" "") in
    if String.eqb profileKind "profile.ref" then
      Failed (Thrown (runtime_error
                        "profile.ref not supported in native backend yet"))
    else
      call* face := buildProfileFace profile in
      call* depthValue := of_res (value_double feature "depth" 0) in
      let depthJson := JNum depthValue in
      if match depthJson with JStr s => String.eqb s "throughAll" | _ => false end
      then Failed (Thrown (runtime_error
                             "throughAll not supported in native backend yet"))
      else
        call* depth := of_res (parseScalar depthJson 0) in
        call* a := of_res (value_json feature "axis" (JObj [])) in
        call* axis := of_res (parseAxis a) in
        let axis := if (Magnitude axis =? 0)%float then Vec 0 0 1 else axis in
        call* axis := call (Normalize kernel axis) in
        let vec := Multiplied axis depth in
        call (MakePrism kernel face vec).

(** The [try] block of the handler, started after [json::parse]: the
    sessions as the block leaves them, and how it ends.  The registry of
    the session is the object [collectSelections] writes to, so the
    session holds what was registered when an exception leaves the
    collection; [session.current] is assigned after it. *)
Definition execFeatureTry (sessions : gmap string (Session TopoDS_Shape))
    (payload : json)
    : gmap string (Session TopoDS_Shape) * outcome json :=
  match value_string payload "sessionId" "default" with
  | Err f => (sessions, Failed f)
  | Ok sessionId =>
      let '(session, sessions1) := sessionGet sessions sessionId in
      let prepared :=
        call* up := of_res (value_json payload "upstream" (JObj [])) in
        call* upstream := of_res (parseKernelResult up) in
        call* feature := of_res (value_json payload "feature" (JObj [])) in
        call* solid := buildSolid feature in
        call* featureId := of_res (value_string feature "id" "feature") in
        call* tags := of_res (value_json feature "tags" (JArr [])) in
        call* resultKey := of_res (value_string feature "result" "body:main") in
        Done (upstream, solid, featureId, tags, resultKey) in
      match prepared with
      | Done (upstream, solid, featureId, tags, resultKey) =>
          match collectSelections solid featureId resultKey tags
                  (registry session) with
          | (registry1, Done built) =>
              (<[sessionId := mkSession registry1 (mergeResults upstream built)]>
                 sessions1,
               Done (JObj [("result", serializeKernelResult built)]))
          | (registry1, Failed f) =>
              (<[sessionId := mkSession registry1 (current session)]> sessions1,
               Failed f)
          | (registry1, Standard_Failure) =>
              (<[sessionId := mkSession registry1 (current session)]> sessions1,
               Standard_Failure)
          end
      | Failed f => (sessions1, Failed f)
      | Standard_Failure => (sessions1, Standard_Failure)
      end
  end.

(** The handler of [/v1/exec-feature]: [Done] is the reply with its body,
    anything else a reply with an error status. *)
Definition execFeature (sessions : gmap string (Session TopoDS_Shape))
    (body : option json)
    : gmap string (Session TopoDS_Shape) * outcome json :=
  match body with
  | None => (sessions, Failed (Thrown parse_error))
  | Some payload => execFeatureTry sessions payload
  end.

End Feature.

End Raising.

(** A kernel that never raises, as a kernel that can. *)
Definition neverRaising {TopoDS_Shape : Type} (kernel : Kernel TopoDS_Shape)
    : Raising.Kernel TopoDS_Shape := {|
  Raising.makeRectangleFace := fun w h c => Some (makeRectangleFace kernel w h c);
  Raising.makeCircleFace := fun r c => Some (makeCircleFace kernel r c);
  Raising.polygonFace := fun n r c a => Some (polygonFace kernel n r c a);
  Raising.Normalize := fun v => Some (Normalize v);
  Raising.MakePrism := fun face vec => Some (MakePrism kernel face vec);
  Raising.faces := faces kernel;
  Raising.edges := edges kernel;
  Raising.boundingBox := fun shape => Some (boundingBox kernel shape);
  Raising.surfaceProperties := surfaceProperties kernel;
  Raising.probePlane := probePlane kernel
|}.

(** The reply of the handler as an outcome. *)
Definition outcomeOf (r : response) : Raising.outcome json :=
  match r with
  | Replied content => Raising.Done content
  | Status400 f => Raising.Failed f
  end.



(** The keys [buildProfileFace] reads with [operator[]] are members of the
    profile; reading one that is not is undefined in C++. *)
Definition indexedKeysPresent (profile : json) : bool :=
  match value_string profile "kind" "" with
  | Ok kind =>
      if String.eqb kind "profile.rectangle" then
        contains profile "width" && contains profile "height"
      else if String.eqb kind "profile.circle" then contains profile "radius"
      else if String.eqb kind "profile.poly" then
        contains profile "sides" && contains profile "radius"
      else true
  | Err _ => true
  end.

(** * Properties *)

(** ** Order on doubles *)


Ltac sf_cases :=
  repeat match goal with
  | s : bool |- _ => destruct s
  end;
  simpl in *; try congruence;
  repeat match goal with
  | |- context [Z.compare ?a ?b] => destruct (Z.compare_spec a b)
  | |- context [Pos.compare_cont Eq ?a ?b] =>
      change (Pos.compare_cont Eq a b) with (Pos.compare a b);
      destruct (Pos.compare_spec a b)
  | H : context [Z.compare ?a ?b] |- _ => destruct (Z.compare_spec a b)
  | H : context [Pos.compare_cont Eq ?a ?b] |- _ =>
      change (Pos.compare_cont Eq a b) with (Pos.compare a b) in H;
      destruct (Pos.compare_spec a b)
  end;
  simpl in *; try congruence; try lia.

Section SpecOrder.

Implicit Types a b c : spec_float.

Lemma SFcompare_lt_trans a b c :
  SFcompare a b = Some Lt -> SFcompare b c = Some Lt ->
  SFcompare a c = Some Lt.
Proof. destruct a, b, c; sf_cases. Qed.


Lemma SFcompare_refl a : SFcompare a a <> None -> SFcompare a a = Some Eq.
Proof. destruct a; sf_cases. Qed.

Lemma SFcompare_not_lt a b :
  SFcompare a a = Some Eq -> SFcompare b b = Some Eq ->
  SFcompare a b <> Some Lt ->
  SFcompare b a = Some Lt \/ SFcompare b a = Some Eq.
Proof. destruct a, b; sf_cases; auto. Qed.


Lemma SFcompare_lt_ordered a b :
  SFcompare a b = Some Lt ->
  SFcompare a a = Some Eq /\ SFcompare b b = Some Eq.
Proof. destruct a, b; sf_cases; auto. Qed.

End SpecOrder.

Section FloatOrder.

Implicit Types x y z : float.

Lemma ltb_Lt x y :
  (x <? y)%float = true <-> SFcompare (Prim2SF x) (Prim2SF y) = Some Lt.
Proof.
  rewrite FloatAxioms.ltb_spec. unfold SFltb.
  destruct (SFcompare _ _) as [[]|]; split; congruence.
Qed.

Lemma leb_Le x y :
  (x <=? y)%float = true <->
  SFcompare (Prim2SF x) (Prim2SF y) = Some Lt \/
  SFcompare (Prim2SF x) (Prim2SF y) = Some Eq.
Proof.
  rewrite FloatAxioms.leb_spec. unfold SFleb.
  destruct (SFcompare _ _) as [[]|]; split; intros; auto; try congruence;
    destruct H; congruence.
Qed.

Lemma eqb_Eq x y :
  (x =? y)%float = true <-> SFcompare (Prim2SF x) (Prim2SF y) = Some Eq.
Proof.
  rewrite FloatAxioms.eqb_spec. unfold SFeqb.
  destruct (SFcompare _ _) as [[]|]; split; congruence.
Qed.

Lemma ltb_trans x y z :
  (x <? y)%float = true -> (y <? z)%float = true -> (x <? z)%float = true.
Proof. rewrite !ltb_Lt. apply SFcompare_lt_trans. Qed.


Lemma ltb_ordered x y :
  (x <? y)%float = true -> ordered x /\ ordered y.
Proof. unfold ordered. rewrite ltb_Lt, !eqb_Eq. apply SFcompare_lt_ordered. Qed.

(** Among doubles that are not NaN, [not (x < y)] is [y <= x]. *)
Lemma not_ltb_leb x y :
  ordered x -> ordered y -> (x <? y)%float = false -> (y <=? x)%float = true.
Proof.
  unfold ordered. rewrite !eqb_Eq, leb_Le. intros Hx Hy Hlt.
  apply SFcompare_not_lt; auto. intros H. apply ltb_Lt in H. congruence.
Qed.

Lemma leb_not_ltb x y :
  (x <=? y)%float = true -> (y <? x)%float = false.
Proof.
  rewrite leb_Le. intros H. apply not_true_is_false. rewrite ltb_Lt.
  destruct (Prim2SF x), (Prim2SF y); destruct H; sf_cases.
Qed.



Lemma leb_antisym x y :
  (x <=? y)%float = true -> (y <=? x)%float = true -> (x =? y)%float = true.
Proof.
  rewrite !leb_Le, eqb_Eq.
  destruct (Prim2SF x), (Prim2SF y); intros [H1|H1] [H2|H2]; sf_cases.
Qed.

Lemma leb_refl x : ordered x -> (x <=? x)%float = true.
Proof. unfold ordered. rewrite eqb_Eq, leb_Le. auto. Qed.

End FloatOrder.

Section FloatAbs.

Implicit Types x y : float.


Lemma opp_ordered x : ordered x -> ordered (- x)%float.
Proof.
  unfold ordered. rewrite !eqb_Eq, FloatAxioms.opp_spec.
  destruct (Prim2SF x); sf_cases.
Qed.










End FloatAbs.

(** ** Normal tokens *)


Lemma leb_ltb_trans x y z :
  (x <=? y)%float = true -> (y <? z)%float = true -> (x <? z)%float = true.
Proof.
  rewrite leb_Le, !ltb_Lt.
  destruct (Prim2SF x), (Prim2SF y), (Prim2SF z); intros [H1|H1] H2; sf_cases.
Qed.


Section Snapping.

Variable vec : gp_Vec.
Hypothesis Hx : ordered (vX vec).
Hypothesis Hy : ordered (vY vec).
Hypothesis Hz : ordered (vZ vec).

Local Abbreviation ax := (PrimFloat.abs (vX vec)).
Local Abbreviation ay := (PrimFloat.abs (vY vec)).
Local Abbreviation az := (PrimFloat.abs (vZ vec)).






End Snapping.

Example axisDirection_up : axisDirectionFromVector (Vec 0 0 1) = "+Z".
Proof. reflexivity. Qed.

Example axisDirection_left :
  axisDirectionFromVector (Vec (-0.96875) 0.25 0) = "-X".
Proof. reflexivity. Qed.

Example axisDirection_tilted :
  axisDirectionFromVector (Vec 0x1.3333333333333p-1 0x1.999999999999ap-1 0) = "".
Proof. reflexivity. Qed.

(** ** The normal predicate on the faces of a feature *)

Section NormalPredicate.

Context {TopoDS_Shape : Type} (kernel : Kernel TopoDS_Shape).
Variables (face : TopoDS_Shape) (faceHandle ownerHandle ownerKey featureId : string).
Variable tags : json.



End NormalPredicate.




(** ** Modifier tags *)









(** ** Merge *)

Lemma ownerKeyOf_ownerValue (sel : KernelSelection) :
  ownerKeyOf (sel_meta sel) =
  match ownerValue sel with
  | Some (JStr owner) => Some owner
  | _ => None
  end.
Proof.
  unfold ownerKeyOf, ownerValue, contains, at_key.
  destruct (sel_meta sel) as [| | | | |fields]; try reflexivity.
  destruct (assoc "ownerKey" fields) as [[]|]; reflexivity.
Qed.

Lemma owned_ownerKeys (next : list KernelSelection) (owner : string) :
  owned (omap (fun sel => ownerKeyOf (sel_meta sel)) next) owner =
  existsb (fun other =>
             match ownerValue other with
             | Some (JStr key) => String.eqb key owner
             | _ => false
             end) next.
Proof.
  unfold owned. induction next as [|other next IH]; [reflexivity|].
  cbn. rewrite ownerKeyOf_ownerValue.
  destruct (ownerValue other) as [[]|]; cbn; rewrite ?IH; reflexivity.
Qed.

Lemma merged_outputs_lookup (upstream next : gmap string KernelObject)
    (key : string) :
  map_fold (fun key obj acc => <[key := obj]> acc) upstream next !! key =
  match next !! key with
  | Some obj => Some obj
  | None => upstream !! key
  end.
Proof.
  revert key.
  apply (map_fold_weak_ind
           (fun (acc next : gmap string KernelObject) =>
              forall key, acc !! key =
                match next !! key with
                | Some obj => Some obj
                | None => upstream !! key
                end)).
  - intros key. now rewrite lookup_empty.
  - intros i x m r Hi IH key. destruct (decide (i = key)) as [->|Hne].
    + now rewrite !lookup_insert_eq.
    + rewrite !lookup_insert_ne by assumption. apply IH.
Qed.

(** C1 (as amended).  The merged outputs are the upstream ones with every
    key of [next] overwritten or inserted; the merged selections are the
    upstream selections that [next] does not shadow, in their order,
    followed by the selections of [next].  Only a string counts as an owner
    key: a selection whose ["ownerKey"] is absent or is not a string is
    kept, and it shadows nothing. *)
Theorem mergeResults_spec (upstream next : KernelResult) :
  (forall key,
     outputs (mergeResults upstream next) !! key =
     match outputs next !! key with
     | Some obj => Some obj
     | None => outputs upstream !! key
     end) /\
  selections (mergeResults upstream next) =
  (List.filter (fun sel => negb (shadowedBy (selections next) sel))
               (selections upstream)
   ++ selections next)%list.
Proof.
  split.
  - intros key. apply merged_outputs_lookup.
  - unfold mergeResults. cbn. f_equal. apply filter_ext. intros sel.
    unfold shadowedBy. rewrite ownerKeyOf_ownerValue.
    destruct (ownerValue sel) as [[]|]; try reflexivity.
    now rewrite owned_ownerKeys.
Qed.

(** C1 as stated fails: the upstream face has the owner key 7, a selection
    of [next] has the owner key 7 as well, and the face is kept. *)
Lemma merge_keeps_numbered_owner :
  ownerValue numberedFace = Some (JNum 7) /\
  ownerValue numberedSolid = Some (JNum 7) /\
  selections (mergeResults (mkResult ∅ [numberedFace]) (mkResult ∅ [numberedSolid]))
  = [numberedFace; numberedSolid].
Proof. split; [reflexivity|]. split; reflexivity. Qed.

(** ** The shape registry *)

Section RegistryFacts.

Context {TopoDS_Shape : Type}.
Implicit Types r : ShapeRegistry TopoDS_Shape.

Lemma handleOf_inj (m n : N) : handleOf m = handleOf n -> m = n.
Proof.
  unfold handleOf. cbn. intros H. injection H as H.
  now apply (inj pretty).
Qed.

Lemma registerShape_fresh r shape :
  issuedBelow r -> shapes_ r !! (registerShape r shape).1 = None.
Proof.
  intros Hinv. unfold registerShape. cbn [fst].
  destruct (shapes_ r !! handleOf (counter_ r)) eqn:E; [|reflexivity].
  destruct (Hinv (handleOf (counter_ r))) as (n & Hn & Heq); [now rewrite E|].
  apply handleOf_inj in Heq. lia.
Qed.

Lemma registerShape_issuedBelow r shape :
  issuedBelow r -> (counter_ r + 1 < size_max)%N ->
  issuedBelow (registerShape r shape).2 /\
  counter_ (registerShape r shape).2 = (counter_ r + 1)%N.
Proof.
  intros Hinv Hlt. unfold registerShape. cbn [snd counter_ shapes_].
  rewrite N.mod_small by assumption. split; [|reflexivity].
  intros handle. cbn [snd counter_ shapes_].
  destruct (decide (handleOf (counter_ r) = handle)) as [<-|Hne].
  - intros _. exists (counter_ r). split; [lia|reflexivity].
  - rewrite lookup_insert_ne by assumption. intros Hs.
    destruct (Hinv handle Hs) as (n & Hn & ->). exists n. split; [lia|reflexivity].
Qed.

Lemma registerAll_inv (shapes : list TopoDS_Shape) :
  forall r hs r',
    registerAll r shapes = (hs, r') ->
    issuedBelow r ->
    (counter_ r + N.of_nat (length shapes) <= size_max)%N ->
    NoDup hs /\ length hs = length shapes /\
    (forall h, In h hs -> shapes_ r !! h = None) /\
    (forall i h o, hs !! i = Some h -> shapes !! i = Some o ->
                   shapes_ r' !! h = Some o) /\
    (forall h, ~ In h hs -> shapes_ r' !! h = shapes_ r !! h).
Proof.
  induction shapes as [|shape rest IH]; intros r hs r' Hreg Hinv Hbound.
  { injection Hreg as <- <-. repeat split; auto using NoDup_nil_2.
    - intros h [].
    - intros i h o H. destruct i; discriminate. }
  cbn [registerAll] in Hreg.
  destruct (registerShape r shape) as [h0 r1] eqn:E1.
  destruct (registerAll r1 rest) as [hs' r2] eqn:E2.
  injection Hreg as <- <-.
  assert (Hh0 : h0 = handleOf (counter_ r)) by (injection E1 as <- _; reflexivity).
  assert (Hfresh : shapes_ r !! h0 = None).
  { pose proof (registerShape_fresh r shape Hinv) as F. now rewrite E1 in F. }
  assert (Hr1 : forall h, shapes_ r1 !! h =
                          if decide (h0 = h) then Some shape else shapes_ r !! h).
  { intros h. injection E1 as <- <-. cbn. apply lookup_insert. }
  destruct rest as [|shape' rest'].
  { injection E2 as <- <-. repeat split.
    - apply NoDup_singleton.
    - intros h [<-|[]]. assumption.
    - intros [|i] h o Hh Ho; [|destruct i; discriminate].
      injection Hh as <-. injection Ho as <-. rewrite Hr1. now rewrite decide_True.
    - intros h Hn. rewrite Hr1. rewrite decide_False; [reflexivity|].
      intros ->. apply Hn. now left. }
  assert (Hlt : (counter_ r + 1 < size_max)%N).
  { cbn [length] in Hbound. lia. }
  destruct (registerShape_issuedBelow r shape Hinv Hlt) as [Hinv1 Hc1].
  rewrite E1 in Hinv1, Hc1. cbn [snd] in Hinv1, Hc1.
  destruct (IH r1 hs' r2 E2 Hinv1) as (Hnd & Hlen & Hnone & Hget & Hrest).
  { rewrite Hc1. cbn [length] in *. lia. }
  assert (Hnotin : ~ In h0 hs').
  { intros Hin. specialize (Hnone h0 Hin). rewrite Hr1 in Hnone.
    now rewrite decide_True in Hnone. }
  repeat split.
  - apply NoDup_cons_2; [|assumption]. now rewrite list_elem_of_In.
  - cbn [length]. now rewrite Hlen.
  - intros h [<-|Hin]; [assumption|].
    specialize (Hnone h Hin). rewrite Hr1 in Hnone.
    destruct (decide (h0 = h)); [discriminate|assumption].
  - intros [|i] h o Hh Ho.
    + injection Hh as <-. injection Ho as <-.
      rewrite (Hrest h0 Hnotin), Hr1. now rewrite decide_True.
    + apply (Hget i h o Hh Ho).
  - intros h Hn. rewrite Hrest by (intros Hin; apply Hn; now right).
    rewrite Hr1. rewrite decide_False; [reflexivity|].
    intros ->. apply Hn. now left.
Qed.

End RegistryFacts.

(** C8.  In a session that registers fewer than [2^64] shapes, every
    registration returns a handle no earlier registration returned; every
    handle returned resolves, after all later registrations, to the shape
    it was returned for; and a handle the registry never returned fails to
    resolve with the unknown-handle error. *)
Theorem registry_contract {TopoDS_Shape : Type} (shapes : list TopoDS_Shape) :
  (N.of_nat (length shapes) <= size_max)%N ->
  let hs := (registerAll emptyRegistry shapes).1 in
  let r := (registerAll emptyRegistry shapes).2 in
  NoDup hs /\ length hs = length shapes /\
  (forall i h o, hs !! i = Some h -> shapes !! i = Some o -> get r h = Ok o) /\
  (forall h, ~ In h hs -> get r h = throw (UnknownHandle h)).
Proof.
  intros Hbound hs r. subst hs r.
  destruct (registerAll emptyRegistry shapes) as [hs r] eqn:E. cbn [fst snd].
  destruct (registerAll_inv shapes emptyRegistry hs r E)
    as (Hnd & Hlen & _ & Hget & Hrest).
  - intros handle [x Hx]. cbn in Hx. now rewrite lookup_empty in Hx.
  - cbn. lia.
  - repeat split; auto.
    + intros i h o Hh Ho. unfold get. now rewrite (Hget i h o Hh Ho).
    + intros h Hn. unfold get. rewrite (Hrest h Hn). cbn.
      now rewrite lookup_empty.
Qed.

(** Three shapes registered in a fresh session. *)
Lemma registry_contract_witness :
  (N.of_nat (length [10; 11; 12]%nat) <= size_max)%N /\
  let hs := (registerAll emptyRegistry [10; 11; 12]%nat).1 in
  let r := (registerAll emptyRegistry [10; 11; 12]%nat).2 in
  NoDup hs /\ length hs = length [10; 11; 12]%nat /\
  (forall i h o, hs !! i = Some h -> [10; 11; 12]%nat !! i = Some o ->
                 get r h = Ok o) /\
  (forall h, ~ In h hs -> get r h = throw (UnknownHandle h)).
Proof.
  split; [vm_compute; discriminate|].
  apply (registry_contract [10; 11; 12]%nat). vm_compute. discriminate.
Defined.

(** ** The recursion of [resolveSelector] *)

Lemma list_max_map_ge {A : Type} (f : A -> nat) (l : list A) (x : A) :
  In x l -> f x <= list_max (map f l).
Proof.
  unfold list_max. induction l as [|y l IH]; [intros []|].
  intros [->|Hin]; cbn; [lia|]. specialize (IH Hin). lia.
Qed.

Lemma depth_assoc (key : string) (fields : list (string * json)) (v : json) :
  assoc key fields = Some v -> depth v < depth (JObj fields).
Proof.
  intros H.
  assert (Hin : In (key, v) fields \/ exists k, In (k, v) fields).
  { right. induction fields as [|[k w] fields IH]; [discriminate|].
    cbn in H. destruct (String.eqb k key).
    - injection H as ->. exists k. now left.
    - destruct (IH H) as [k' Hk']. exists k'. now right. }
  destruct Hin as [Hin|[k Hin]];
    apply (list_max_map_ge (fun kv : string * json => let (_, v) := kv in depth v))
      in Hin; cbn in *; lia.
Qed.

Lemma depth_at_key (rule : json) (key : string) :
  match rule with JObj _ => depth (at_key rule key) < depth rule | _ => True end.
Proof.
  destruct rule as [| | | | |fields]; try exact I.
  unfold at_key. destruct (assoc key fields) eqn:E.
  - now apply depth_assoc in E.
  - cbn. lia.
Qed.

Lemma depth_elements (j x : json) :
  In x (elements j) -> depth x < depth j \/ depth x = 0.
Proof.
  destruct j as [| | | |items|fields]; cbn.
  - intros [].
  - intros [<-|[]]. now right.
  - intros [<-|[]]. now right.
  - intros [<-|[]]. now right.
  - intros Hin. left. apply (list_max_map_ge depth) in Hin. lia.
  - intros Hin. left. apply in_map_iff in Hin as ([k v] & <- & Hin).
    apply (list_max_map_ge (fun kv : string * json => let (_, v) := kv in depth v))
      in Hin. cbn in *. lia.
Qed.

Section ResolverExtensionality.

Variables resolve1 resolve2 : json -> KernelResult -> res KernelSelection.
Variable current : KernelResult.

Lemma rankStage_ext (rule : json) (candidates : list KernelSelection) :
  (forall fields, rule = JObj fields ->
     resolve1 (at_key rule "target") current
     = resolve2 (at_key rule "target") current) ->
  rankStage resolve1 rule current candidates
  = rankStage resolve2 rule current candidates.
Proof.
  intros H. destruct rule as [| | | | |fields]; try reflexivity.
  unfold rankStage. now rewrite (H fields eq_refl).
Qed.

Lemma rankPipeline_ext (rules : list json) :
  (forall rule fields, In rule rules -> rule = JObj fields ->
     resolve1 (at_key rule "target") current
     = resolve2 (at_key rule "target") current) ->
  forall candidates,
    rankPipeline resolve1 rules current candidates
    = rankPipeline resolve2 rules current candidates.
Proof.
  induction rules as [|rule rules IH]; intros H candidates; [reflexivity|].
  cbn [rankPipeline]. destruct (length candidates <=? 1)%nat; [reflexivity|].
  rewrite (rankStage_ext rule candidates).
  - destruct (rankStage resolve2 rule current candidates); [|reflexivity].
    cbn. apply IH. intros r f Hin. apply H. now right.
  - intros fields. apply H. now left.
Qed.

Lemma resolveSelectorBody_ext (selector : json) :
  (forall target, depth target < depth selector ->
     resolve1 target current = resolve2 target current) ->
  resolveSelectorBody resolve1 selector current
  = resolveSelectorBody resolve2 selector current.
Proof.
  intros H. destruct selector as [| | | | |fields]; try reflexivity.
  unfold resolveSelectorBody.
  destruct (value_string (JObj fields) "kind" "") as [kind|]; [|reflexivity].
  cbn [bind]. destruct (String.eqb kind "selector.named"); [reflexivity|].
  destruct (collectCandidates kind (JObj fields) (selections current))
    as [[|c cs]|]; try reflexivity.
  cbn [bind].
  assert (Hrules : forall rankRules,
             value_json (JObj fields) "rank" (JArr []) = Ok rankRules ->
             rankRules = JArr [] \/ depth rankRules < depth (JObj fields)).
  { intros rankRules. unfold value_json, value_with.
    destruct (assoc "rank" fields) eqn:E; intros [= <-]; [right|now left].
    now apply depth_assoc in E. }
  destruct (value_json (JObj fields) "rank" (JArr [])) as [rankRules|];
    [|reflexivity].
  cbn [bind]. rewrite (rankPipeline_ext (elements rankRules)); [reflexivity|].
  intros rule rfields Hin ->. apply H.
  destruct (Hrules rankRules eq_refl) as [->|Hlt]; [destruct Hin|].
  pose proof (depth_at_key (JObj rfields) "target") as Ht.
  cbv beta iota in Ht.
  destruct (depth_elements _ _ Hin) as [Hd|Hd]; lia.
Qed.

End ResolverExtensionality.

(** Unrolling beyond the depth of the selector changes nothing. *)
Lemma resolveSelectorUpTo_stable (current : KernelResult) (n : nat) :
  forall selector m,
    depth selector <= n -> depth selector <= m ->
    resolveSelectorUpTo n selector current
    = resolveSelectorUpTo m selector current.
Proof.
  assert (shallow : forall selector k,
             depth selector = 0 ->
             resolveSelectorUpTo k selector current = throw (type_error 306)).
  { intros selector [|k] Hd; [reflexivity|].
    destruct selector; try reflexivity; cbn in Hd; lia. }
  induction n as [|n IH]; intros selector m Hn Hm.
  - rewrite !shallow by lia. reflexivity.
  - destruct m as [|m].
    + rewrite !shallow by lia. reflexivity.
    + cbn [resolveSelectorUpTo]. apply resolveSelectorBody_ext.
      intros target Ht. apply IH; lia.
Qed.

(** [resolveSelector] satisfies the equation of the C++ function: its body
    with itself for the recursive call. *)
Lemma resolveSelector_unfold (selector : json) (current : KernelResult) :
  resolveSelector selector current
  = resolveSelectorBody resolveSelector selector current.
Proof.
  unfold resolveSelector at 1. cbn [resolveSelectorUpTo].
  apply resolveSelectorBody_ext. intros target Ht.
  unfold resolveSelector. apply resolveSelectorUpTo_stable; lia.
Qed.

(** ** Selector resolution on the box *)

Example boxModel_selections :
  selections boxModel = [boxSolid; topFace; bottomFace; sideFace; boxEdge].
Proof. vm_compute. reflexivity. Qed.

Example resolve_highest_face :
  resolveSelector selHighestFace boxModel = Ok topFace.
Proof. vm_compute. reflexivity. Qed.

Example resolve_largest_face :
  resolveSelector selLargestFace boxModel = Err AmbiguousSelection.
Proof. vm_compute. reflexivity. Qed.

Example resolve_closest_to_body :
  resolveSelector (selClosestTo "body:main") boxModel = Ok bottomFace.
Proof. vm_compute. reflexivity. Qed.

Example resolve_closest_to_missing :
  resolveSelector (selClosestTo "body:gone") boxModel
  = Err (MissingNamedOutput "body:gone").
Proof. vm_compute. reflexivity. Qed.

(** ** Outcomes of a class and predicate selector *)

(** C3.  For a selector that is not a named lookup: with no candidate
    after the kind filter and the predicates, resolution fails with
    [NoMatch]; otherwise, when the ranking pipeline leaves exactly one
    candidate, that candidate is returned, and when it leaves more than
    one, resolution fails with [AmbiguousSelection]. *)
Theorem resolve_outcome (selector : json) (current : KernelResult)
    (kind : string) (candidates : list KernelSelection) :
  value_string selector "kind" "" = Ok kind ->
  kind <> "selector.named" ->
  collectCandidates kind selector (selections current) = Ok candidates ->
  (candidates = [] -> resolveSelector selector current = Err NoMatch) /\
  (forall rankRules ranked,
     candidates <> [] ->
     value_json selector "rank" (JArr []) = Ok rankRules ->
     rankPipeline resolveSelector (elements rankRules) current candidates
     = Ok ranked ->
     (forall only, ranked = [only] ->
        resolveSelector selector current = Ok only) /\
     (1 < length ranked ->
        resolveSelector selector current = Err AmbiguousSelection)).
Proof.
  intros Hkind Hnamed Hcands.
  rewrite resolveSelector_unfold. unfold resolveSelectorBody.
  rewrite Hkind. cbn [bind].
  apply String.eqb_neq in Hnamed. rewrite Hnamed, Hcands. cbn [bind].
  split.
  - now intros ->.
  - intros rankRules ranked Hne Hrules Hranked.
    destruct candidates as [|c cs]; [congruence|].
    rewrite Hrules. cbn [bind]. rewrite Hranked. cbn [bind]. split.
    + now intros only ->.
    + destruct ranked as [|a [|b rest]]; cbn; intros; try lia; reflexivity.
Qed.

(** The planar faces of the box ranked by [centerZ]. *)
Lemma resolve_outcome_witness :
  value_string selHighestFace "kind" "" = Ok "selector.face" /\
  "selector.face" <> "selector.named" /\
  collectCandidates "selector.face" selHighestFace (selections boxModel)
  = Ok [topFace; bottomFace; sideFace] /\
  rankPipeline resolveSelector
    (elements (JArr [JObj [("kind", JStr "rank.maxZ")]])) boxModel
    [topFace; bottomFace; sideFace] = Ok [topFace] /\
  resolveSelector selHighestFace boxModel = Ok topFace.
Proof.
  assert (Hk : value_string selHighestFace "kind" "" = Ok "selector.face")
    by reflexivity.
  assert (Hc : collectCandidates "selector.face" selHighestFace
                 (selections boxModel) = Ok [topFace; bottomFace; sideFace])
    by (vm_compute; reflexivity).
  assert (Hr : rankPipeline resolveSelector
                 (elements (JArr [JObj [("kind", JStr "rank.maxZ")]])) boxModel
                 [topFace; bottomFace; sideFace] = Ok [topFace])
    by (vm_compute; reflexivity).
  split; [exact Hk|]. split; [discriminate|]. split; [exact Hc|].
  split; [exact Hr|].
  refine (proj1 (proj2 (resolve_outcome selHighestFace boxModel "selector.face"
                          [topFace; bottomFace; sideFace] Hk _ Hc)
                   (JArr [JObj [("kind", JStr "rank.maxZ")]]) [topFace]
                   _ eq_refl Hr) topFace eq_refl); discriminate.
Defined.

(** ** Selector and rule kinds the resolver does not know *)

Lemma kindAdmits_other (kind : string) (sel : KernelSelection) :
  kind <> "selector.face" -> kind <> "selector.edge" ->
  kind <> "selector.solid" -> kindAdmits kind sel = true.
Proof.
  intros Hf He Hs. unfold kindAdmits.
  apply String.eqb_neq in Hf, He, Hs. now rewrite Hf, He, Hs.
Qed.

(** C9.  Under a selector kind other than [selector.named],
    [selector.face], [selector.edge] and [selector.solid] no selection is
    passed over for its kind: the candidates are the selections of the
    model, of every kind, that pass the predicate list. *)
Theorem unknown_selector_kind (selector : json) (current : KernelResult)
    (kind : string) :
  value_string selector "kind" "" = Ok kind ->
  kind <> "selector.named" -> kind <> "selector.face" ->
  kind <> "selector.edge" -> kind <> "selector.solid" ->
  (forall sel, kindAdmits kind sel = true) /\
  exists preds,
    value_json selector "predicates" (JArr []) = Ok preds /\
    collectCandidates kind selector (selections current)
    = keepMatching preds (selections current) /\
    resolveSelector selector current =
    (let* candidates := keepMatching preds (selections current) in
     match candidates with
     | [] => Err NoMatch
     | _ =>
         let* rankRules := value_json selector "rank" (JArr []) in
         let* ranked :=
           rankPipeline resolveSelector (elements rankRules) current candidates in
         match ranked with
         | [only] => Ok only
         | _ => Err AmbiguousSelection
         end
     end).
Proof.
  intros Hkind Hn Hf He Hs.
  split; [intros sel; now apply kindAdmits_other|].
  destruct selector as [| | | | |fields]; try discriminate.
  exists (default (JArr []) (assoc "predicates" fields)).
  assert (Hp : value_json (JObj fields) "predicates" (JArr [])
               = Ok (default (JArr []) (assoc "predicates" fields))).
  { unfold value_json, value_with. now destruct (assoc "predicates" fields). }
  assert (Hc : forall sels,
             collectCandidates kind (JObj fields) sels
             = keepMatching (default (JArr []) (assoc "predicates" fields)) sels).
  { induction sels as [|sel sels IH]; [reflexivity|].
    cbn [collectCandidates keepMatching].
    rewrite kindAdmits_other, Hp, IH by assumption. reflexivity. }
  split; [exact Hp|]. split; [apply Hc|].
  rewrite resolveSelector_unfold. unfold resolveSelectorBody.
  rewrite Hkind. cbn [bind]. apply String.eqb_neq in Hn. rewrite Hn.
  now rewrite Hc.
Qed.

(** Everything [F1] made, under the selector kind [selector.any]. *)
Lemma unknown_selector_kind_witness :
  value_string selAnyF1 "kind" "" = Ok "selector.any" /\
  keepMatching
    (JArr [JObj [("kind", JStr "pred.createdBy"); ("featureId", JStr "F1")]])
    (selections boxModel)
  = Ok [boxSolid; topFace; bottomFace; sideFace; boxEdge] /\
  (forall sel, kindAdmits "selector.any" sel = true) /\
  exists preds,
    value_json selAnyF1 "predicates" (JArr []) = Ok preds /\
    collectCandidates "selector.any" selAnyF1 (selections boxModel)
    = keepMatching preds (selections boxModel) /\
    resolveSelector selAnyF1 boxModel =
    (let* candidates := keepMatching preds (selections boxModel) in
     match candidates with
     | [] => Err NoMatch
     | _ =>
         let* rankRules := value_json selAnyF1 "rank" (JArr []) in
         let* ranked :=
           rankPipeline resolveSelector (elements rankRules) boxModel candidates in
         match ranked with
         | [only] => Ok only
         | _ => Err AmbiguousSelection
         end
     end).
Proof.
  split; [reflexivity|]. split; [vm_compute; reflexivity|].
  apply (unknown_selector_kind selAnyF1 boxModel "selector.any");
    [reflexivity | discriminate | discriminate | discriminate | discriminate].
Defined.

(** C10.  A rank rule whose kind is none of [rank.maxArea], [rank.minZ],
    [rank.maxZ] and [rank.closestTo] returns the candidates it was given,
    whatever resolver it is run with, and the pipeline goes on to the
    next rule with them. *)
Theorem unknown_rank_kind
    (resolve : json -> KernelResult -> res KernelSelection)
    (rule : json) (rest : list json) (current : KernelResult)
    (candidates : list KernelSelection) (ruleKind : string) :
  value_string rule "kind" "" = Ok ruleKind ->
  ruleKind <> "rank.maxArea" -> ruleKind <> "rank.minZ" ->
  ruleKind <> "rank.maxZ" -> ruleKind <> "rank.closestTo" ->
  rankStage resolve rule current candidates = Ok candidates /\
  rankPipeline resolve (rule :: rest) current candidates
  = rankPipeline resolve rest current candidates.
Proof.
  intros Hkind Ha Hn Hx Hc.
  assert (Hstage : rankStage resolve rule current candidates = Ok candidates).
  { unfold rankStage. rewrite Hkind. cbn [bind].
    apply String.eqb_neq in Ha, Hn, Hx, Hc. now rewrite Ha, Hn, Hx, Hc. }
  split; [exact Hstage|].
  cbn [rankPipeline]. rewrite Hstage. cbn [bind].
  destruct (length candidates <=? 1)%nat eqn:E; [|reflexivity].
  destruct rest; cbn [rankPipeline]; now rewrite ?E.
Qed.

(** The rule kind [rank.largest] on the planar faces of the box. *)
Lemma unknown_rank_kind_witness :
  value_string (JObj [("kind", JStr "rank.largest")]) "kind" ""
  = Ok "rank.largest" /\
  rankStage resolveSelector (JObj [("kind", JStr "rank.largest")]) boxModel
    [topFace; bottomFace; sideFace]
  = Ok [topFace; bottomFace; sideFace] /\
  rankPipeline resolveSelector
    (JObj [("kind", JStr "rank.largest")] :: [JObj [("kind", JStr "rank.maxZ")]])
    boxModel [topFace; bottomFace; sideFace]
  = rankPipeline resolveSelector [JObj [("kind", JStr "rank.maxZ")]] boxModel
      [topFace; bottomFace; sideFace].
Proof.
  split; [reflexivity|].
  apply (unknown_rank_kind resolveSelector (JObj [("kind", JStr "rank.largest")])
           [JObj [("kind", JStr "rank.maxZ")]] boxModel
           [topFace; bottomFace; sideFace] "rank.largest");
    [reflexivity | discriminate | discriminate | discriminate | discriminate].
Defined.

(** ** The closest-to stage *)

Lemma ltb_leb_trans x y z :
  (x <? y)%float = true -> (y <=? z)%float = true -> (x <? z)%float = true.
Proof.
  rewrite leb_Le, !ltb_Lt.
  destruct (Prim2SF x), (Prim2SF y), (Prim2SF z); intros H1 [H2|H2]; sf_cases.
Qed.

Lemma ordered_infinity : ordered infinity.
Proof. reflexivity. Qed.

Lemma leb_infinity x : ordered x -> (x <=? infinity)%float = true.
Proof.
  unfold ordered. rewrite eqb_Eq, leb_Le.
  change (Prim2SF infinity) with (S754_infinity false).
  destruct (Prim2SF x); sf_cases; auto.
Qed.


Lemma eqb_leb x y : (x =? y)%float = true -> (y <=? x)%float = true.
Proof.
  rewrite eqb_Eq, leb_Le. destruct (Prim2SF x), (Prim2SF y); sf_cases; auto.
Qed.

Section Scores.

Variable score : KernelSelection -> res float.

Lemma bestScore_scores pick candidates ds :
  Forall2 (fun c d => score c = Ok d) candidates ds ->
  forall init,
    bestScore score pick init candidates = Ok (fold_left pick ds init).
Proof.
  induction 1 as [|c d cs ds Hc _ IH]; intros init; [reflexivity|].
  cbn [bestScore fold_left]. rewrite Hc. cbn [bind]. apply IH.
Qed.

Lemma keepBest_scores best candidates ds :
  Forall2 (fun c d => score c = Ok d) candidates ds ->
  keepBest score best candidates
  = Ok (map fst (List.filter (fun cd => (snd cd =? best)%float)
                             (combine candidates ds))).
Proof.
  induction 1 as [|c d cs ds Hc _ IH]; [reflexivity|].
  cbn [keepBest combine List.filter snd]. rewrite Hc, IH. cbn [bind].
  now destruct (d =? best)%float.
Qed.

End Scores.

(** The running minimum from an [init] that is a number: a number, [init]
    or one of the scores, not above [init], and not above any score. *)
Lemma fold_min_spec (ds : list float) :
  forall init, ordered init ->
    let best := fold_left std_min ds init in
    ordered best /\ (best = init \/ In best ds) /\
    (init <? best)%float = false /\
    (forall d, In d ds -> (d <? best)%float = false).
Proof.
  induction ds as [|x ds IH]; intros init Hinit; cbn [fold_left].
  { repeat split; auto.
    - apply leb_not_ltb. now apply leb_refl.
    - intros d []. }
  assert (Hi : ordered (std_min init x)).
  { unfold std_min. destruct (x <? init)%float eqn:E; [|assumption].
    now apply ltb_ordered in E. }
  destruct (IH _ Hi) as (Hb & Hmem & Hle & Hlow).
  set (best := fold_left std_min ds (std_min init x)) in *.
  assert (Hbi : (best <=? std_min init x)%float = true)
    by now apply not_ltb_leb.
  unfold std_min in Hmem, Hle, Hbi. split; [assumption|].
  destruct (x <? init)%float eqn:E.
  - repeat split.
    + destruct Hmem as [->|Hin]; right; [now left|now right].
    + apply not_true_is_false. intros Hc.
      rewrite (ltb_trans _ _ _ E Hc) in Hle. discriminate.
    + intros d [<-|Hin]; [assumption|now apply Hlow].
  - repeat split.
    + destruct Hmem as [->|Hin]; [now left|right; now right].
    + assumption.
    + intros d [<-|Hin]; [|now apply Hlow].
      apply not_true_is_false. intros Hc.
      rewrite (ltb_leb_trans _ _ _ Hc Hbi) in E. discriminate.
Qed.








(** ** Narrowing by a ranking stage *)

Lemma keepBest_length (score : KernelSelection -> res float) (best : float)
    (candidates kept : list KernelSelection) :
  keepBest score best candidates = Ok kept -> length kept <= length candidates.
Proof.
  revert kept. induction candidates as [|c cs IH]; intros kept.
  { intros [= <-]. reflexivity. }
  cbn [keepBest]. destruct (score c) as [s|]; [|discriminate]. cbn [bind].
  destruct (keepBest score best cs) as [filtered|]; [|discriminate].
  cbn [bind]. specialize (IH filtered eq_refl).
  destruct (s =? best)%float; intros [= <-]; cbn [length]; lia.
Qed.

Lemma rankBy_length (score : KernelSelection -> res float)
    (pick : float -> float -> float) (init : float)
    (candidates kept : list KernelSelection) :
  rankBy score pick init candidates = Ok kept ->
  length kept <= length candidates.
Proof.
  unfold rankBy. destruct (bestScore score pick init candidates); [|discriminate].
  cbn [bind]. apply keepBest_length.
Qed.

(** No stage returns more candidates than it was given. *)
Lemma rankStage_length
    (resolve : json -> KernelResult -> res KernelSelection) (rule : json)
    (current : KernelResult) (candidates narrowed : list KernelSelection) :
  rankStage resolve rule current candidates = Ok narrowed ->
  length narrowed <= length candidates.
Proof.
  unfold rankStage.
  destruct (value_string rule "kind" "") as [ruleKind|]; [|discriminate].
  cbn [bind].
  repeat match goal with
  | |- context [if ?b then _ else _] => destruct b
  end; try apply rankBy_length.
  - destruct (resolve (at_key rule "target") current) as [targetSel|];
      [|discriminate].
    cbn [bind].
    destruct (targetCenter targetSel) as [[[tx ty] tz]|]; [|discriminate].
    cbn [bind]. apply rankBy_length.
  - intros [= <-]. reflexivity.
Qed.

(** The running maximum from an [init] that is a number: a number, [init]
    or one of the scores, not below [init], and not below any score. *)
Lemma fold_max_spec (ds : list float) :
  forall init, ordered init ->
    let best := fold_left std_max ds init in
    ordered best /\ (best = init \/ In best ds) /\
    (best <? init)%float = false /\
    (forall d, In d ds -> (best <? d)%float = false).
Proof.
  induction ds as [|x ds IH]; intros init Hinit; cbn [fold_left].
  { repeat split; auto.
    - apply leb_not_ltb. now apply leb_refl.
    - intros d []. }
  assert (Hi : ordered (std_max init x)).
  { unfold std_max. destruct (init <? x)%float eqn:E; [|assumption].
    now apply ltb_ordered in E. }
  destruct (IH _ Hi) as (Hb & Hmem & Hle & Hlow).
  set (best := fold_left std_max ds (std_max init x)) in *.
  assert (Hbi : (std_max init x <=? best)%float = true)
    by now apply not_ltb_leb.
  unfold std_max in Hmem, Hle, Hbi. split; [assumption|].
  destruct (init <? x)%float eqn:E.
  - repeat split.
    + destruct Hmem as [->|Hin]; right; [now left|now right].
    + apply not_true_is_false. intros Hc.
      rewrite (ltb_trans _ _ _ Hc E) in Hle. discriminate.
    + intros d [<-|Hin]; [assumption|now apply Hlow].
  - repeat split.
    + destruct Hmem as [->|Hin]; [now left|right; now right].
    + assumption.
    + intros d [<-|Hin]; [|now apply Hlow].
      apply not_true_is_false. intros Hc.
      rewrite (leb_ltb_trans _ _ _ Hbi Hc) in E. discriminate.
Qed.

Lemma keepBest_attained (score : KernelSelection -> res float) (best : float)
    (candidates : list KernelSelection) (ds : list float) :
  Forall2 (fun c d => score c = Ok d) candidates ds ->
  (exists d, In d ds /\ (d =? best)%float = true) ->
  exists kept, keepBest score best candidates = Ok kept /\ kept <> [].
Proof.
  intros Hs (d & Hin & Heq).
  rewrite (keepBest_scores score best candidates ds Hs). eexists. split; [reflexivity|].
  induction Hs as [|c d' cs ds' Hc Hs IH]; [destruct Hin|].
  cbn [combine List.filter snd]. destruct Hin as [->|Hin].
  - rewrite Heq. discriminate.
  - destruct (d' =? best)%float; [discriminate|]. now apply IH.
Qed.

(** A stage that takes the minimum from [infinity] keeps a candidate when
    the scores are numbers. *)
Lemma rankBy_min_keeps (score : KernelSelection -> res float)
    (candidates : list KernelSelection) (ds : list float) :
  Forall2 (fun c d => score c = Ok d) candidates ds ->
  Forall ordered ds -> candidates <> [] ->
  exists kept,
    rankBy score std_min infinity candidates = Ok kept /\ kept <> [].
Proof.
  intros Hs Hord Hne. unfold rankBy.
  rewrite (bestScore_scores score std_min candidates ds Hs). cbn [bind].
  apply (keepBest_attained score _ candidates ds Hs).
  destruct (fold_min_spec ds infinity ordered_infinity) as (Hb & Hmem & _ & Hlow).
  destruct Hmem as [Heq|Hin].
  - destruct Hs as [|c d cs ds' Hc Hs]; [congruence|].
    exists d. split; [now left|]. rewrite Heq in *.
    apply Forall_cons_iff in Hord as [Hd _].
    apply leb_antisym; [now apply leb_infinity|].
    apply not_ltb_leb; auto using ordered_infinity.
    apply Hlow. now left.
  - eexists. split; [exact Hin|exact Hb].
Qed.

(** A stage that takes the maximum from [init] keeps a candidate when some
    score is a number not below [init]. *)
Lemma rankBy_max_keeps (score : KernelSelection -> res float) (init : float)
    (candidates : list KernelSelection) (ds : list float) :
  Forall2 (fun c d => score c = Ok d) candidates ds ->
  ordered init ->
  (exists d, In d ds /\ (init <=? d)%float = true) ->
  exists kept,
    rankBy score std_max init candidates = Ok kept /\ kept <> [].
Proof.
  intros Hs Hinit (d & Hin & Hge). unfold rankBy.
  rewrite (bestScore_scores score std_max candidates ds Hs). cbn [bind].
  apply (keepBest_attained score _ candidates ds Hs).
  destruct (fold_max_spec ds init Hinit) as (Hb & Hmem & _ & Hlow).
  destruct Hmem as [Heq|Hbest].
  - exists d. split; [assumption|]. rewrite Heq in *.
    apply leb_antisym; [|assumption].
    apply not_ltb_leb; auto.
    apply leb_Le in Hge. unfold ordered. rewrite eqb_Eq.
    destruct (Prim2SF init), (Prim2SF d); destruct Hge; sf_cases.
  - eexists. split; [exact Hbest|exact Hb].
Qed.

(** C2 fails on [rank.maxArea]: its best score starts at -1, so with the
    areas -5 and -2 no candidate equals the best score and the stage
    returns no candidate at all, without failing; resolution then reports
    an ambiguity although one face has the greatest area. *)
Theorem maxArea_stage_empties :
  length [sunkFace (-5); sunkFace (-2)] = 2%nat /\
  rankStage resolveSelector ruleMaxArea sunkModel [sunkFace (-5); sunkFace (-2)]
  = Ok [] /\
  resolveSelector selLargestSunk sunkModel = Err AmbiguousSelection.
Proof. split; [reflexivity|]. split; vm_compute; reflexivity. Qed.

(** ** Applying a feature *)

Example execFeature_extrude :
  execFeature boxKernel ∅ (Some extrudeRequest)
  = (boxSessions,
     Replied (JObj [("result", serializeKernelResult boxModel)])).
Proof. vm_compute. reflexivity. Qed.

Section Atomicity.

Context {TopoDS_Shape : Type} (kernel : Kernel TopoDS_Shape).

Lemma sessionGet_state (sessions : gmap string (Session TopoDS_Shape))
    (sessionId other : string) :
  sessionState (sessionGet sessions sessionId).2 other
  = sessionState sessions other.
Proof.
  unfold sessionGet, sessionState, SessionManager.
  destruct (sessions !! sessionId) eqn:E; [reflexivity|]. cbn [snd].
  destruct (decide (sessionId = other)) as [<-|Hne].
  - now rewrite lookup_insert_eq, E.
  - now rewrite lookup_insert_ne.
Qed.

Lemma sessionGet_fst (sessions : gmap string (Session TopoDS_Shape))
    (sessionId : string) :
  (sessionGet sessions sessionId).1 = sessionState sessions sessionId.
Proof.
  unfold sessionGet, sessionState, SessionManager.
  now destruct (sessions !! sessionId).
Qed.

End Atomicity.

(** *** A kernel that never raises *)

Section NeverRaising.

Context {TopoDS_Shape : Type} (kernel : Kernel TopoDS_Shape).

Lemma shapeCenter_neverRaising (shape : TopoDS_Shape) :
  Raising.shapeCenter (neverRaising kernel) shape
  = Raising.Done (shapeCenter kernel shape).
Proof.
  unfold Raising.shapeCenter, shapeCenter. cbn.
  now destruct (boundingBox kernel shape).
Qed.

Lemma faceSelection_neverRaising (face : TopoDS_Shape)
    (faceHandle ownerHandle ownerKey featureId : string) (tags : json) :
  Raising.faceSelection (neverRaising kernel) face faceHandle ownerHandle
    ownerKey featureId tags
  = Raising.Done
      (faceSelection kernel face faceHandle ownerHandle ownerKey featureId tags).
Proof.
  unfold Raising.faceSelection, faceSelection.
  rewrite shapeCenter_neverRaising. cbn.
  destruct (surfaceProperties kernel face) as [[mass centre]|]; cbn;
    now destruct (probePlane kernel face).
Qed.

Lemma collectFaces_neverRaising (fs : list TopoDS_Shape)
    (ownerHandle ownerKey featureId : string) (tags : json) :
  forall registry,
    Raising.collectFaces (neverRaising kernel) fs ownerHandle ownerKey featureId
      tags registry
    = ((collectFaces kernel fs registry ownerHandle ownerKey featureId tags).2,
       Raising.Done
         (collectFaces kernel fs registry ownerHandle ownerKey featureId tags).1).
Proof.
  induction fs as [|face rest IH]; intros registry; [reflexivity|].
  cbn [Raising.collectFaces collectFaces].
  unfold Raising.then_ at 1, Raising.register.
  destruct (registerShape registry face) as [faceHandle r1].
  unfold Raising.then_ at 1, Raising.pure.
  rewrite faceSelection_neverRaising.
  unfold Raising.then_, Raising.ret. rewrite IH.
  now destruct (collectFaces kernel rest r1 ownerHandle ownerKey featureId tags).
Qed.

Lemma collectEdges_neverRaising (es : list TopoDS_Shape)
    (ownerHandle ownerKey featureId : string) (tags : json) :
  forall registry,
    Raising.collectEdges (neverRaising kernel) es ownerHandle ownerKey featureId
      tags registry
    = ((collectEdges kernel es registry ownerHandle ownerKey featureId tags).2,
       Raising.Done
         (collectEdges kernel es registry ownerHandle ownerKey featureId tags).1).
Proof.
  induction es as [|edge rest IH]; intros registry; [reflexivity|].
  cbn [Raising.collectEdges collectEdges].
  unfold Raising.then_ at 1, Raising.register.
  destruct (registerShape registry edge) as [edgeHandle r1].
  unfold Raising.then_ at 1, Raising.pure.
  rewrite shapeCenter_neverRaising.
  unfold Raising.then_, Raising.ret. rewrite IH.
  now destruct (collectEdges kernel rest r1 ownerHandle ownerKey featureId tags).
Qed.

Lemma collectSelections_neverRaising (shape : TopoDS_Shape)
    (featureId ownerKey : string) (tags : json)
    (registry : ShapeRegistry TopoDS_Shape) :
  Raising.collectSelections (neverRaising kernel) shape featureId ownerKey tags
    registry
  = ((collectSelections kernel shape registry featureId ownerKey tags).2,
     Raising.Done
       (collectSelections kernel shape registry featureId ownerKey tags).1).
Proof.
  unfold Raising.collectSelections, collectSelections.
  unfold Raising.then_ at 1, Raising.register.
  destruct (registerShape registry shape) as [ownerHandle r1].
  unfold Raising.then_ at 1, Raising.pure.
  rewrite shapeCenter_neverRaising.
  unfold Raising.then_ at 1. rewrite collectFaces_neverRaising.
  change (Raising.faces (neverRaising kernel) shape) with (faces kernel shape).
  destruct (collectFaces kernel (faces kernel shape) r1 ownerHandle ownerKey
              featureId tags) as [faceSels r2].
  cbn [fst snd].
  unfold Raising.then_, Raising.ret. rewrite collectEdges_neverRaising.
  change (Raising.edges (neverRaising kernel) shape) with (edges kernel shape).
  now destruct (collectEdges kernel (edges kernel shape) r2 ownerHandle ownerKey
                  featureId tags).
Qed.

Ltac same_read :=
  match goal with
  | |- context [Raising.of_res ?r] =>
      destruct r; cbn [Raising.bind Raising.of_res bind]; [|reflexivity]
  end.

Lemma buildProfileFace_neverRaising (profile : json) :
  Raising.buildProfileFace (neverRaising kernel) profile
  = Raising.of_res (buildProfileFace kernel profile).
Proof.
  unfold Raising.buildProfileFace, buildProfileFace.
  same_read.
  repeat match goal with
  | |- context [if String.eqb ?a ?b then _ else _] => destruct (String.eqb a b)
  end; repeat same_read; try reflexivity.
  unfold Raising.makePolygonFace, makePolygonFace.
  now destruct (_ <? 3)%Z.
Qed.

Lemma buildSolid_neverRaising (feature : json) :
  Raising.buildSolid (neverRaising kernel) feature
  = Raising.of_res (buildSolid kernel feature).
Proof.
  unfold Raising.buildSolid, buildSolid.
  do 3 same_read.
  destruct (negb _); [reflexivity|].
  do 2 same_read.
  destruct (String.eqb _ "profile.ref"); [reflexivity|].
  rewrite buildProfileFace_neverRaising.
  destruct (buildProfileFace kernel _);
    cbn [Raising.bind Raising.of_res bind]; [|reflexivity].
  same_read. cbn [parseScalar Raising.of_res Raising.bind bind].
  do 2 same_read. reflexivity.
Qed.

(** On a kernel that never raises the handler is the handler of the
    kernel without exceptions. *)
Lemma execFeature_neverRaising
    (sessions : gmap string (Session TopoDS_Shape)) (body : option json) :
  Raising.execFeature (neverRaising kernel) sessions body
  = ((execFeature kernel sessions body).1,
     outcomeOf (execFeature kernel sessions body).2).
Proof.
  unfold Raising.execFeature, execFeature. destruct body as [payload|];
    [|reflexivity].
  unfold Raising.execFeatureTry, execFeatureTry.
  destruct (value_string payload "sessionId" "default") as [sid|];
    [|reflexivity].
  destruct (sessionGet sessions sid) as [session sessions1].
  do 3 same_read.
  rewrite buildSolid_neverRaising.
  destruct (buildSolid kernel _);
    cbn [Raising.bind Raising.of_res bind]; [|reflexivity].
  do 3 same_read.
  rewrite collectSelections_neverRaising.
  now destruct (collectSelections kernel _ _ _ _ _).
Qed.

End NeverRaising.

(** *** What a failed request leaves *)

Section Failure.

Context {TopoDS_Shape : Type} (kernel : Raising.Kernel TopoDS_Shape).







End Failure.




(** * Further properties of the code *)

(** ** Serialising and parsing a result model *)

Lemma parseSelections_serialized (sels : list KernelSelection) :
  parseSelections
    (map (fun sel =>
            JObj [("id", JStr (sel_id sel)); ("kind", JStr (sel_kind sel));
                  ("meta", sel_meta sel)]) sels)
  = Ok sels.
Proof.
  induction sels as [|[id kind meta] sels IH]; [reflexivity|].
  cbn [map parseSelections]. cbn -[parseSelections map]. rewrite IH. reflexivity.
Qed.

Lemma parseOutputs_serialized (entries : list (string * KernelObject)) :
  forall acc,
    parseOutputs
      (map (fun entry : string * KernelObject =>
              JObj [("key", JStr (fst entry));
                    ("object", JObj [("id", JStr (obj_id (snd entry)));
                                     ("kind", JStr (obj_kind (snd entry)));
                                     ("meta", obj_meta (snd entry))])])
           entries) acc
    = Ok (foldl (fun acc entry => <[fst entry := snd entry]> acc) acc entries).
Proof.
  induction entries as [|[key [id kind meta]] entries IH]; intros acc;
    [reflexivity|].
  cbn [map parseOutputs]. cbn -[parseOutputs map insert]. apply IH.
Qed.

Lemma foldl_insert_lookup (entries : list (string * KernelObject)) :
  NoDup entries.*1 ->
  forall (acc : gmap string KernelObject) key,
    foldl (fun acc entry => <[fst entry := snd entry]> acc) acc entries !! key
    = match (list_to_map entries : gmap string KernelObject) !! key with
      | Some obj => Some obj
      | None => acc !! key
      end.
Proof.
  induction entries as [|[k v] entries IH]; intros Hnd acc key; [reflexivity|].
  apply NoDup_cons in Hnd as [Hk Hnd]. cbn [foldl fst snd].
  rewrite (IH Hnd). cbn [list_to_map foldr fst snd].
  destruct (decide (k = key)) as [<-|Hne].
  - rewrite (not_elem_of_list_to_map_1 entries k Hk).
    now rewrite !lookup_insert_eq.
  - now rewrite !lookup_insert_ne.
Qed.

(** Parsing what [serializeKernelResult] wrote gives the result model
    back. *)
Theorem parse_serialize_roundtrip (result : KernelResult) :
  parseKernelResult (serializeKernelResult result) = Ok result.
Proof.
  destruct result as [outs sels].
  unfold serializeKernelResult, parseKernelResult.
  cbn [outputs selections].
  cbn -[parseOutputs parseSelections map map_to_list].
  rewrite parseOutputs_serialized. cbn [bind].
  rewrite parseSelections_serialized. cbn [bind]. do 2 f_equal.
  apply map_eq. intros key.
  rewrite foldl_insert_lookup by apply NoDup_fst_map_to_list.
  rewrite list_to_map_to_list, lookup_empty. now destruct (outs !! key).
Qed.

(** ** Axis tokens and axis vectors *)

(** Reading an axis string and snapping the vector back: every string
    gives a canonical token, a canonical token gives itself, and any other
    string gives [+Z]. *)
Theorem axis_string_roundtrip (dir : string) :
  In (axisDirectionFromVector (axisVectorFromString dir)) canonicalTokens /\
  (In dir canonicalTokens ->
     axisDirectionFromVector (axisVectorFromString dir) = dir) /\
  (~ In dir canonicalTokens ->
     axisDirectionFromVector (axisVectorFromString dir) = "+Z").
Proof.
  assert (known : forall token,
             In token canonicalTokens ->
             In (axisDirectionFromVector (axisVectorFromString token))
                canonicalTokens /\
             axisDirectionFromVector (axisVectorFromString token) = token).
  { intros token Hin. cbn in Hin.
    destruct Hin as [<-|[<-|[<-|[<-|[<-|[<-|[]]]]]]];
      (split; [vm_compute; auto 10|reflexivity]). }
  destruct (in_dec String.string_dec dir canonicalTokens) as [Hin|Hout].
  - destruct (known dir Hin) as [Hc Heq].
    split; [exact Hc|]. split; [now intros _ | now intros Hn].
  - assert (Hz : axisVectorFromString dir = Vec 0 0 1).
    { unfold axisVectorFromString.
      repeat match goal with
      | |- context [String.eqb dir ?t] =>
          destruct (String.eqb_spec dir t) as [->|?];
          [exfalso; apply Hout; cbn; auto 10|]
      end.
      reflexivity. }
    rewrite Hz. split; [vm_compute; auto 10|].
    split; [now intros Hin | reflexivity].
Qed.

(** ** Upper-casing *)

Lemma upperChar_idem (ch : Ascii.ascii) : upperChar (upperChar ch) = upperChar ch.
Proof. destruct ch as [[] [] [] [] [] [] [] []]; reflexivity. Qed.

Lemma upperChar_not_lower (ch : Ascii.ascii) :
  let n := Ascii.N_of_ascii (upperChar ch) in
  ((97 <=? n) && (n <=? 122))%N = false.
Proof. destruct ch as [[] [] [] [] [] [] [] []]; reflexivity. Qed.

(** [toUpperCopy] keeps the length, leaves no byte between ['a'] and ['z']
    and changes nothing when applied again. *)
Theorem toUpperCopy_spec (value : string) :
  String.length (toUpperCopy value) = String.length value /\
  toUpperCopy (toUpperCopy value) = toUpperCopy value /\
  Forall (fun ch => let n := Ascii.N_of_ascii ch in
                    ((97 <=? n) && (n <=? 122))%N = false)
         (String.list_ascii_of_string (toUpperCopy value)).
Proof.
  induction value as [|ch rest (Hlen & Hidem & Hall)]; [repeat split; constructor|].
  cbn [toUpperCopy String.length String.list_ascii_of_string]. repeat split.
  - now rewrite Hlen.
  - now rewrite upperChar_idem, Hidem.
  - constructor; [apply upperChar_not_lower|assumption].
Qed.

(** ** The algebra of [mergeResults] *)

Lemma merged_selections (upstream next : KernelResult) :
  selections (mergeResults upstream next)
  = (List.filter (fun sel => negb (shadowedBy (selections next) sel))
                 (selections upstream)
     ++ selections next)%list.
Proof.
  unfold mergeResults. cbn [selections]. f_equal. apply filter_ext. intros sel.
  unfold shadowedBy. rewrite ownerKeyOf_ownerValue.
  destruct (ownerValue sel) as [[]|]; try reflexivity.
  now rewrite owned_ownerKeys.
Qed.

Lemma merged_outputs (upstream next : KernelResult) (key : string) :
  outputs (mergeResults upstream next) !! key
  = match outputs next !! key with
    | Some obj => Some obj
    | None => outputs upstream !! key
    end.
Proof. apply merged_outputs_lookup. Qed.

Lemma KernelResult_eq (r1 r2 : KernelResult) :
  (forall key, outputs r1 !! key = outputs r2 !! key) ->
  selections r1 = selections r2 -> r1 = r2.
Proof.
  destruct r1 as [o1 s1], r2 as [o2 s2]. cbn. intros Ho ->. f_equal.
  now apply map_eq.
Qed.

Lemma shadowedBy_app (l1 l2 : list KernelSelection) (sel : KernelSelection) :
  shadowedBy (l1 ++ l2) sel = shadowedBy l1 sel || shadowedBy l2 sel.
Proof.
  unfold shadowedBy. destruct (ownerValue sel) as [[]|]; try reflexivity.
  apply existsb_app.
Qed.

Lemma shadowedBy_nil (sel : KernelSelection) : shadowedBy [] sel = false.
Proof. unfold shadowedBy. now destruct (ownerValue sel) as [[]|]. Qed.

(** Two selections with the same string owner key are shadowed by the same
    models. *)
Lemma shadowedBy_same_owner (l : list KernelSelection)
    (sel other : KernelSelection) (owner : string) :
  ownerValue sel = Some (JStr owner) -> ownerValue other = Some (JStr owner) ->
  shadowedBy l sel = shadowedBy l other.
Proof. intros H1 H2. unfold shadowedBy. now rewrite H1, H2. Qed.

(** Leaving out of [b] what [c] shadows changes what [b] shadows only for
    selections that [c] shadows too. *)
Lemma shadowedBy_filter (b c : list KernelSelection) (sel : KernelSelection) :
  shadowedBy c sel = false ->
  shadowedBy (List.filter (fun s => negb (shadowedBy c s)) b) sel
  = shadowedBy b sel.
Proof.
  intros Hc. unfold shadowedBy at 1 3.
  destruct (ownerValue sel) as [[| | |owner| |]|] eqn:Hsel; try reflexivity.
  induction b as [|s b IH]; [reflexivity|].
  cbn [List.filter existsb].
  destruct (shadowedBy c s) eqn:Hs; cbn [negb existsb]; rewrite IH; [|reflexivity].
  destruct (ownerValue s) as [[| | |key| |]|] eqn:Hkey; try reflexivity.
  destruct (String.eqb_spec key owner) as [->|Hne]; [|reflexivity].
  rewrite (shadowedBy_same_owner c sel s owner Hsel Hkey) in Hc. congruence.
Qed.

Lemma filter_twice {A : Type} (P Q : A -> bool) (l : list A) :
  List.filter P (List.filter Q l) = List.filter (fun x => Q x && P x) l.
Proof.
  induction l as [|x l IH]; [reflexivity|]. cbn [List.filter].
  destruct (Q x); cbn [List.filter andb]; [destruct (P x)|]; now rewrite IH.
Qed.

(** Merging is associative: a chain of feature results can be merged from
    either end. *)
Theorem mergeResults_assoc (a b c : KernelResult) :
  mergeResults (mergeResults a b) c = mergeResults a (mergeResults b c).
Proof.
  apply KernelResult_eq.
  - intros key. rewrite !merged_outputs. now destruct (outputs c !! key).
  - rewrite !merged_selections, List.filter_app, filter_twice, <- app_assoc.
    f_equal. apply filter_ext. intros sel.
    rewrite shadowedBy_app. destruct (shadowedBy (selections c) sel) eqn:Hc.
    + now rewrite orb_true_r, andb_false_r.
    + now rewrite (shadowedBy_filter _ _ _ Hc), orb_false_r, andb_true_r.
Qed.

(** The empty result model is neutral on both sides of a merge. *)
Theorem mergeResults_empty (r : KernelResult) :
  mergeResults r emptyResult = r /\ mergeResults emptyResult r = r.
Proof.
  split; apply KernelResult_eq.
  - intros key. rewrite merged_outputs. cbn. now rewrite lookup_empty.
  - rewrite merged_selections. cbn [selections emptyResult].
    rewrite app_nil_r. induction (selections r) as [|s l IH]; [reflexivity|].
    cbn [List.filter]. rewrite shadowedBy_nil. cbn. now rewrite IH.
  - intros key. rewrite merged_outputs. cbn. rewrite lookup_empty.
    now destruct (outputs r !! key).
  - rewrite merged_selections. reflexivity.
Qed.

(** Merging the same feature result a second time changes nothing, when
    every selection of that result carries a string owner key. *)
Theorem mergeResults_again (upstream next : KernelResult) :
  Forall (fun sel => exists owner, ownerValue sel = Some (JStr owner))
         (selections next) ->
  mergeResults (mergeResults upstream next) next = mergeResults upstream next.
Proof.
  intros Hown. apply KernelResult_eq.
  - intros key. rewrite !merged_outputs. now destruct (outputs next !! key).
  - rewrite !merged_selections, List.filter_app, filter_twice.
    assert (Hnone : List.filter
                      (fun sel => negb (shadowedBy (selections next) sel))
                      (selections next) = []).
    { assert (Hall : forall l, (forall s, In s l -> In s (selections next)) ->
                List.filter
                  (fun sel => negb (shadowedBy (selections next) sel)) l = []).
      { induction l as [|s l IH]; intros Hsub; [reflexivity|].
        cbn [List.filter].
        assert (Hs : shadowedBy (selections next) s = true).
        { assert (Hin : In s (selections next)) by (apply Hsub; now left).
          rewrite Forall_forall in Hown.
          destruct (Hown s) as [owner Ho]; [now apply list_elem_of_In|].
          unfold shadowedBy. rewrite Ho. apply existsb_exists.
          exists s. split; [assumption|]. rewrite Ho. apply String.eqb_refl. }
        rewrite Hs. cbn. apply IH. intros s' Hs'. apply Hsub. now right. }
      apply Hall. auto. }
    rewrite Hnone, app_nil_r. f_equal. apply filter_ext. intros sel.
    now destruct (shadowedBy (selections next) sel).
Qed.

Lemma mergeResults_again_witness :
  Forall (fun sel => exists owner, ownerValue sel = Some (JStr owner))
         (selections boxModel) /\
  mergeResults (mergeResults sunkModel boxModel) boxModel
  = mergeResults sunkModel boxModel.
Proof.
  assert (H : Forall (fun sel => exists owner, ownerValue sel = Some (JStr owner))
                     (selections boxModel)).
  { rewrite boxModel_selections.
    repeat constructor; exists "body:main"; reflexivity. }
  split; [exact H|]. exact (mergeResults_again sunkModel boxModel H).
Defined.

(** ** What [collectSelections] registers *)

Section Collected.

Context {TopoDS_Shape : Type} (kernel : Kernel TopoDS_Shape).
Variables (ownerHandle ownerKey featureId : string) (tags : json).

Lemma faceSelection_meta (face : TopoDS_Shape) (faceHandle : string) :
  let sel := faceSelection kernel face faceHandle ownerHandle ownerKey
                           featureId tags in
  handleOfSelection sel = Ok faceHandle /\
  ownerKeyOf (sel_meta sel) = Some ownerKey /\ sel_kind sel = "face".
Proof.
  unfold faceSelection, handleOfSelection.
  destruct (surfaceProperties kernel face) as [[mass centre]|];
    destruct (probePlane kernel face) as [| |vec];
    try generalize (axisDirectionFromVector vec); intros;
    unfold makeFaceMeta; cbn;
    try (destruct (String.eqb_spec s "") as [->|Hne]; cbn);
    destruct (is_null tags); repeat split; reflexivity.
Qed.

Lemma edgeSelection_meta (edge : TopoDS_Shape) (edgeHandle : string) :
  let sel := mkSelection "edge" "edge"
               (makeEdgeMeta edgeHandle ownerHandle ownerKey featureId
                             (shapeCenter kernel edge) tags) in
  handleOfSelection sel = Ok edgeHandle /\
  ownerKeyOf (sel_meta sel) = Some ownerKey.
Proof.
  unfold handleOfSelection, makeEdgeMeta. cbn.
  destruct (is_null tags); split; reflexivity.
Qed.

Lemma solidSelection_meta (shape : TopoDS_Shape) (handle : string) :
  let sel := mkSelection "solid" "solid"
               (makeSolidMeta handle ownerKey featureId
                              (shapeCenter kernel shape) tags) in
  handleOfSelection sel = Ok handle /\
  ownerKeyOf (sel_meta sel) = Some ownerKey.
Proof.
  unfold handleOfSelection, makeSolidMeta. cbn.
  destruct (is_null tags); split; reflexivity.
Qed.

(** The face loop registers the faces as [registerAll] does and gives
    each selection the handle of its face. *)
Lemma collectFaces_registerAll (fs : list TopoDS_Shape) :
  forall registry,
    (collectFaces kernel fs registry ownerHandle ownerKey featureId tags).2
    = (registerAll registry fs).2 /\
    Forall2 (fun sel h => handleOfSelection sel = Ok h
                          /\ ownerKeyOf (sel_meta sel) = Some ownerKey)
      (collectFaces kernel fs registry ownerHandle ownerKey featureId tags).1
      (registerAll registry fs).1.
Proof.
  induction fs as [|face fs IH]; intros registry; [split; [reflexivity|constructor]|].
  cbn [collectFaces registerAll].
  destruct (registerShape registry face) as [h r1].
  destruct (IH r1) as [Hr Hs].
  destruct (collectFaces kernel fs r1 ownerHandle ownerKey featureId tags).
  destruct (registerAll r1 fs).
  cbn [fst snd] in *. split; [assumption|]. constructor; [|assumption].
  pose proof (faceSelection_meta face h) as (H1 & H2 & _). now split.
Qed.

Lemma collectEdges_registerAll (es : list TopoDS_Shape) :
  forall registry,
    (collectEdges kernel es registry ownerHandle ownerKey featureId tags).2
    = (registerAll registry es).2 /\
    Forall2 (fun sel h => handleOfSelection sel = Ok h
                          /\ ownerKeyOf (sel_meta sel) = Some ownerKey)
      (collectEdges kernel es registry ownerHandle ownerKey featureId tags).1
      (registerAll registry es).1.
Proof.
  induction es as [|edge es IH]; intros registry; [split; [reflexivity|constructor]|].
  cbn [collectEdges registerAll].
  destruct (registerShape registry edge) as [h r1].
  destruct (IH r1) as [Hr Hs].
  destruct (collectEdges kernel es r1 ownerHandle ownerKey featureId tags).
  destruct (registerAll r1 es).
  cbn [fst snd] in *. split; [assumption|]. constructor; [|assumption].
  apply edgeSelection_meta.
Qed.

End Collected.

Lemma registerAll_app {TopoDS_Shape : Type} (l1 l2 : list TopoDS_Shape) :
  forall r : ShapeRegistry TopoDS_Shape,
    registerAll r (l1 ++ l2)
    = (((registerAll r l1).1 ++ (registerAll (registerAll r l1).2 l2).1)%list,
       (registerAll (registerAll r l1).2 l2).2).
Proof.
  induction l1 as [|x l1 IH]; intros r.
  { cbn. now destruct (registerAll r l2). }
  cbn [app registerAll]. destruct (registerShape r x) as [h r1].
  rewrite IH. destruct (registerAll r1 l1) as [hs1 r2]. cbn [fst snd].
  now destruct (registerAll r2 l2).
Qed.

(** [collectSelections] registers the solid, its faces and its edges, in
    that order, and gives the selection of each the handle its shape was
    registered under. *)
Lemma collectSelections_registerAll {TopoDS_Shape : Type}
    (kernel : Kernel TopoDS_Shape) (shape : TopoDS_Shape)
    (registry : ShapeRegistry TopoDS_Shape) (featureId ownerKey : string)
    (tags : json) :
  let built := collectSelections kernel shape registry featureId ownerKey tags in
  let registered := registerAll registry (registeredShapes kernel shape) in
  built.2 = registered.2 /\
  Forall2 (fun sel h => handleOfSelection sel = Ok h
                        /\ ownerKeyOf (sel_meta sel) = Some ownerKey)
          (selections built.1) registered.1 /\
  outputs built.1
  = {[ ownerKey := mkObject (featureId ++ ":" ++ ownerKey) "solid"
                     (JObj [("handle", JStr (handleOf (counter_ registry)));
                            ("role", JStr "body")]) ]}.
Proof.
  unfold collectSelections, registeredShapes. cbn [registerAll].
  destruct (registerShape registry shape) as [h0 r1] eqn:E0.
  assert (Hh0 : h0 = handleOf (counter_ registry))
    by (injection E0 as <- _; reflexivity).
  rewrite registerAll_app.
  destruct (collectFaces_registerAll kernel h0 ownerKey featureId tags
              (faces kernel shape) r1) as [Hfr Hfs].
  destruct (collectFaces kernel (faces kernel shape) r1 h0 ownerKey featureId tags)
    as [faceSels r2].
  cbn [fst snd] in Hfr, Hfs. rewrite <- Hfr.
  destruct (collectEdges_registerAll kernel h0 ownerKey featureId tags
              (edges kernel shape) r2) as [Her Hes].
  destruct (collectEdges kernel (edges kernel shape) r2 h0 ownerKey featureId tags)
    as [edgeSels r3].
  cbn [fst snd] in Her, Hes.
  destruct (registerAll r1 (faces kernel shape)) as [hs1 r2'].
  cbn [fst snd] in *.
  destruct (registerAll r2 (edges kernel shape)) as [hs2 r3'].
  cbn [fst snd selections outputs] in *. subst h0.
  split; [assumption|]. split; [|reflexivity].
  constructor; [apply solidSelection_meta|].
  now apply Forall2_app.
Qed.

(** Every selection [collectSelections] builds carries a handle of its
    own that resolves, in the registry it leaves, to the shape the
    selection describes; no such handle resolved before, and every handle
    that did still resolves to the same shape. *)
Theorem collected_handles_resolve {TopoDS_Shape : Type}
    (kernel : Kernel TopoDS_Shape) (shape : TopoDS_Shape)
    (registry : ShapeRegistry TopoDS_Shape) (featureId ownerKey : string)
    (tags : json) :
  issuedBelow registry ->
  (counter_ registry + N.of_nat (length (registeredShapes kernel shape))
   <= size_max)%N ->
  let built := collectSelections kernel shape registry featureId ownerKey tags in
  exists hs,
    NoDup hs /\
    Forall2 (fun sel h => handleOfSelection sel = Ok h) (selections built.1) hs /\
    Forall2 (fun h s => get built.2 h = Ok s) hs (registeredShapes kernel shape) /\
    (forall h, In h hs -> get registry h = throw (UnknownHandle h)) /\
    (forall h s, get registry h = Ok s -> get built.2 h = Ok s).
Proof.
  intros Hinv Hbound built.
  destruct (collectSelections_registerAll kernel shape registry featureId
              ownerKey tags) as (Hr & Hs & _).
  fold built in Hr, Hs.
  destruct (registerAll registry (registeredShapes kernel shape)) as [hs r'] eqn:E.
  cbn [fst snd] in Hr, Hs.
  destruct (registerAll_inv _ _ _ _ E Hinv Hbound)
    as (Hnd & Hlen & Hfresh & Hget & Hrest).
  exists hs. rewrite Hr. repeat split.
  - assumption.
  - eapply Forall2_impl; [exact Hs|]. now intros sel h [H _].
  - apply Forall2_same_length_lookup_2; [assumption|].
    intros i h s Hh Hs'. unfold get. now rewrite (Hget i h s Hh Hs').
  - intros h Hin. unfold get. now rewrite (Hfresh h Hin).
  - intros h s. unfold get.
    destruct (shapes_ registry !! h) as [s0|] eqn:Eh; [|discriminate].
    intros [= <-]. rewrite Hrest, Eh; [reflexivity|].
    intros Hin. rewrite (Hfresh h Hin) in Eh. discriminate.
Qed.

(** The box extruded in a fresh session. *)
Lemma collected_handles_resolve_witness :
  issuedBelow (@emptyRegistry nat) /\
  (counter_ (@emptyRegistry nat)
   + N.of_nat (length (registeredShapes boxKernel 10%nat)) <= size_max)%N /\
  exists hs,
    NoDup hs /\
    Forall2 (fun sel h => handleOfSelection sel = Ok h) (selections boxModel) hs /\
    Forall2 (fun h s => get boxRegistry h = Ok s) hs
            (registeredShapes boxKernel 10%nat) /\
    (forall h, In h hs -> get (@emptyRegistry nat) h = throw (UnknownHandle h)) /\
    (forall h s, get (@emptyRegistry nat) h = Ok s -> get boxRegistry h = Ok s).
Proof.
  assert (Hinv : issuedBelow (@emptyRegistry nat)).
  { intros h [x Hx]. cbn in Hx. now rewrite lookup_empty in Hx. }
  assert (Hb : (counter_ (@emptyRegistry nat)
                + N.of_nat (length (registeredShapes boxKernel 10%nat))
                <= size_max)%N) by (vm_compute; discriminate).
  split; [exact Hinv|]. split; [exact Hb|].
  exact (collected_handles_resolve boxKernel 10%nat emptyRegistry "F1"
           "body:main" JNull Hinv Hb).
Defined.

(** ** What a merge with a built feature leaves *)

Section Superseding.

Context {TopoDS_Shape : Type} (kernel : Kernel TopoDS_Shape).
Variables (shape : TopoDS_Shape) (registry : ShapeRegistry TopoDS_Shape).
Variables (featureId ownerKey : string) (tags : json).

Lemma collected_owned :
  Forall (fun sel => ownerKeyOf (sel_meta sel) = Some ownerKey)
    (selections
       (collectSelections kernel shape registry featureId ownerKey tags).1).
Proof.
  destruct (collectSelections_registerAll kernel shape registry featureId
              ownerKey tags) as (_ & Hs & _).
  induction Hs as [|sel h sels hs [_ Ho] _ IH]; constructor; assumption.
Qed.

Lemma collected_nonempty :
  exists sel sels,
    selections
      (collectSelections kernel shape registry featureId ownerKey tags).1
    = sel :: sels.
Proof.
  unfold collectSelections.
  destruct (registerShape registry shape) as [h0 r1].
  destruct (collectFaces kernel (faces kernel shape) r1 h0 ownerKey featureId tags).
  destruct (collectEdges kernel (edges kernel shape) s h0 ownerKey featureId tags).
  cbn. eauto.
Qed.

Lemma ownedBy_shadowed (next : list KernelSelection) (sel : KernelSelection) :
  Forall (fun s => ownerKeyOf (sel_meta s) = Some ownerKey) next ->
  next <> [] ->
  shadowedBy next sel = ownedBy ownerKey sel.
Proof.
  intros Hall Hne. unfold shadowedBy, ownedBy. rewrite ownerKeyOf_ownerValue.
  destruct (ownerValue sel) as [[| | |owner| |]|]; try reflexivity.
  destruct next as [|s next]; [congruence|].
  assert (Hs : forall s', In s' (s :: next) ->
                 match ownerValue s' with
                 | Some (JStr key) => String.eqb key owner
                 | _ => false
                 end = String.eqb owner ownerKey).
  { intros s' Hin. rewrite Forall_forall in Hall.
    specialize (Hall s' (proj2 (list_elem_of_In _ _) Hin)).
    rewrite ownerKeyOf_ownerValue in Hall.
    destruct (ownerValue s') as [[| | |key| |]|]; try discriminate.
    injection Hall as ->. apply String.eqb_sym. }
  destruct (String.eqb owner ownerKey) eqn:E.
  - apply existsb_exists. exists s. split; [now left|]. apply Hs. now left.
  - apply not_true_is_false. intros H. apply existsb_exists in H as (s' & Hin & H).
    rewrite (Hs s' Hin) in H. discriminate.
Qed.

(** After the merge of any upstream model with what [collectSelections]
    built under [ownerKey], the selections owned by [ownerKey] are exactly
    the built ones, in order, and [ownerKey] names the built output: the
    earlier elements of a body that is built again are gone. *)
Theorem merge_supersedes (upstream : KernelResult) :
  let built := (collectSelections kernel shape registry featureId ownerKey tags).1 in
  List.filter (ownedBy ownerKey) (selections (mergeResults upstream built))
  = selections built /\
  List.filter (fun sel => negb (ownedBy ownerKey sel))
              (selections (mergeResults upstream built))
  = List.filter (fun sel => negb (ownedBy ownerKey sel)) (selections upstream) /\
  outputs (mergeResults upstream built) !! ownerKey = outputs built !! ownerKey.
Proof.
  intros built. pose proof collected_owned as Hown. fold built in Hown.
  destruct collected_nonempty as (s0 & rest & Hne). fold built in Hne.
  assert (Hsh : forall sel, shadowedBy (selections built) sel = ownedBy ownerKey sel).
  { intros sel. apply ownedBy_shadowed; [assumption|]. rewrite Hne. discriminate. }
  assert (Hall : forall l, Forall (fun sel => ownerKeyOf (sel_meta sel) = Some ownerKey) l ->
             List.filter (ownedBy ownerKey) l = l /\
             List.filter (fun sel => negb (ownedBy ownerKey sel)) l = []).
  { induction 1 as [|s l Hs _ [IH1 IH2]]; [split; reflexivity|].
    assert (Ht : ownedBy ownerKey s = true)
      by (unfold ownedBy; rewrite Hs; apply String.eqb_refl).
    cbn [List.filter]. rewrite Ht. cbn [negb]. now rewrite IH1, IH2. }
  destruct (Hall _ Hown) as [Hkeep Hdrop].
  rewrite merged_selections, !List.filter_app, Hkeep, Hdrop, app_nil_r.
  rewrite !filter_twice. repeat split.
  - replace (List.filter _ (selections upstream)) with (@nil KernelSelection);
      [reflexivity|].
    symmetry. induction (selections upstream) as [|s l IH]; [reflexivity|].
    cbn [List.filter]. rewrite Hsh. now destruct (ownedBy ownerKey s).
  - apply filter_ext. intros sel. rewrite Hsh. now destruct (ownedBy ownerKey sel).
  - rewrite merged_outputs.
    destruct (collectSelections_registerAll kernel shape registry featureId
                ownerKey tags) as (_ & _ & Ho).
    fold built in Ho. rewrite Ho. now rewrite lookup_singleton_eq.
Qed.

End Superseding.

(** ** What the feature handler reads of a session *)

Section HandlerState.

Context {TopoDS_Shape : Type} (kernel : Kernel TopoDS_Shape).


End HandlerState.



(** ** What resolution can return *)

Lemma keepBest_sublist (score : KernelSelection -> res float) (best : float)
    (candidates kept : list KernelSelection) :
  keepBest score best candidates = Ok kept -> kept `sublist_of` candidates.
Proof.
  revert kept. induction candidates as [|c cs IH]; intros kept.
  { intros [= <-]. constructor. }
  cbn [keepBest]. destruct (score c) as [s|]; [|discriminate]. cbn [bind].
  destruct (keepBest score best cs) as [filtered|]; [|discriminate].
  cbn [bind]. specialize (IH filtered eq_refl).
  destruct (s =? best)%float; intros [= <-]; now constructor.
Qed.

Lemma rankBy_sublist (score : KernelSelection -> res float)
    (pick : float -> float -> float) (init : float)
    (candidates kept : list KernelSelection) :
  rankBy score pick init candidates = Ok kept -> kept `sublist_of` candidates.
Proof.
  unfold rankBy. destruct (bestScore score pick init candidates); [|discriminate].
  cbn [bind]. apply keepBest_sublist.
Qed.

Lemma rankStage_sublist
    (resolve : json -> KernelResult -> res KernelSelection) (rule : json)
    (current : KernelResult) (candidates narrowed : list KernelSelection) :
  rankStage resolve rule current candidates = Ok narrowed ->
  narrowed `sublist_of` candidates.
Proof.
  unfold rankStage.
  destruct (value_string rule "kind" "") as [ruleKind|]; [|discriminate].
  cbn [bind].
  repeat match goal with
  | |- context [if ?b then _ else _] => destruct b
  end; try apply rankBy_sublist.
  - destruct (resolve (at_key rule "target") current) as [targetSel|];
      [|discriminate].
    cbn [bind].
    destruct (targetCenter targetSel) as [[[tx ty] tz]|]; [|discriminate].
    cbn [bind]. apply rankBy_sublist.
  - now intros [= <-].
Qed.

Lemma rankPipeline_narrows
    (resolve : json -> KernelResult -> res KernelSelection)
    (rules : list json) (current : KernelResult) :
  forall candidates ranked : list KernelSelection,
    rankPipeline resolve rules current candidates = Ok ranked ->
    ranked `sublist_of` candidates.
Proof.
  induction rules as [|rule rules IH]; intros candidates ranked.
  { now intros [= <-]. }
  cbn [rankPipeline]. destruct (length candidates <=? 1)%nat.
  { now intros [= <-]. }
  destruct (rankStage resolve rule current candidates) as [narrowed|] eqn:E;
    [|discriminate].
  cbn [bind]. intros H. etransitivity; [exact (IH _ _ H)|].
  exact (rankStage_sublist _ _ _ _ _ E).
Qed.

(** The ranking pipeline returns a subsequence of the candidates it was
    given: it invents no candidate and keeps the order of those it
    leaves. *)
Theorem rankPipeline_sublist
    (resolve : json -> KernelResult -> res KernelSelection)
    (rules : list json) (current : KernelResult)
    (candidates ranked : list KernelSelection) :
  rankPipeline resolve rules current candidates = Ok ranked ->
  ranked `sublist_of` candidates.
Proof.
  apply rankPipeline_narrows.
Qed.

(** The planar faces of the box through [rank.maxArea] then [rank.maxZ]. *)
Lemma rankPipeline_sublist_witness :
  rankPipeline resolveSelector
    [ruleMaxArea; JObj [("kind", JStr "rank.maxZ")]] boxModel
    [topFace; bottomFace; sideFace] = Ok [topFace] /\
  [topFace] `sublist_of` [topFace; bottomFace; sideFace].
Proof.
  assert (H : rankPipeline resolveSelector
                [ruleMaxArea; JObj [("kind", JStr "rank.maxZ")]] boxModel
                [topFace; bottomFace; sideFace] = Ok [topFace])
    by (vm_compute; reflexivity).
  split; [exact H|].
  exact (rankPipeline_sublist resolveSelector _ boxModel _ _ H).
Defined.

Lemma collectCandidates_sound (kind : string) (selector : json)
    (sels candidates : list KernelSelection) :
  collectCandidates kind selector sels = Ok candidates ->
  candidates `sublist_of` sels /\
  forall c, In c candidates ->
    kindAdmits kind c = true /\
    exists preds,
      value_json selector "predicates" (JArr []) = Ok preds /\
      matchesAll (elements preds) c = Ok true.
Proof.
  revert candidates. induction sels as [|sel sels IH]; intros candidates.
  { intros [= <-]. split; [constructor|intros c []]. }
  cbn [collectCandidates]. destruct (kindAdmits kind sel) eqn:Hk.
  - destruct (value_json selector "predicates" (JArr [])) as [preds|] eqn:Hp;
      [|discriminate].
    cbn [bind]. destruct (matchesAll (elements preds) sel) as [m|] eqn:Hm;
      [|discriminate].
    cbn [bind]. destruct (collectCandidates kind selector sels) as [tail|];
      [|discriminate].
    cbn [bind]. destruct (IH tail eq_refl) as [Hsub Hall].
    destruct m; intros [= <-].
    + split; [now constructor|]. intros c [<-|Hin]; [|now apply Hall].
      split; [assumption|]. now exists preds.
    + split; [now constructor|assumption].
  - intros H. destruct (IH candidates H) as [Hsub Hall].
    split; [now constructor|assumption].
Qed.

(** What a class and predicate selector resolves to is one of the
    selections of the model, of a kind the selector admits, and passes
    every predicate of the selector. *)
Theorem resolved_is_a_candidate (selector : json) (current : KernelResult)
    (kind : string) (sel : KernelSelection) :
  value_string selector "kind" "" = Ok kind ->
  kind <> "selector.named" ->
  resolveSelector selector current = Ok sel ->
  In sel (selections current) /\ kindAdmits kind sel = true /\
  exists preds,
    value_json selector "predicates" (JArr []) = Ok preds /\
    matchesAll (elements preds) sel = Ok true.
Proof.
  intros Hkind Hnamed. rewrite resolveSelector_unfold. unfold resolveSelectorBody.
  rewrite Hkind. cbn [bind]. apply String.eqb_neq in Hnamed. rewrite Hnamed.
  destruct (collectCandidates kind selector (selections current))
    as [candidates|] eqn:Hc; [|discriminate].
  cbn [bind]. destruct candidates as [|c cs]; [discriminate|].
  destruct (value_json selector "rank" (JArr [])) as [rankRules|]; [|discriminate].
  cbn [bind].
  destruct (rankPipeline resolveSelector (elements rankRules) current (c :: cs))
    as [ranked|] eqn:Hr; [|discriminate].
  cbn [bind]. destruct ranked as [|only [|]]; try discriminate.
  intros [= <-].
  destruct (collectCandidates_sound _ _ _ _ Hc) as [Hsub Hall].
  assert (Hin : only ∈ c :: cs).
  { eapply elem_of_sublist; [|exact (rankPipeline_narrows _ _ _ _ _ Hr)].
    now left. }
  split.
  - apply list_elem_of_In. eapply elem_of_sublist; [exact Hin|exact Hsub].
  - apply Hall. now apply list_elem_of_In.
Qed.

Lemma resolved_is_a_candidate_witness :
  value_string selHighestFace "kind" "" = Ok "selector.face" /\
  "selector.face" <> "selector.named" /\
  resolveSelector selHighestFace boxModel = Ok topFace /\
  In topFace (selections boxModel) /\
  kindAdmits "selector.face" topFace = true /\
  exists preds,
    value_json selHighestFace "predicates" (JArr []) = Ok preds /\
    matchesAll (elements preds) topFace = Ok true.
Proof.
  split; [reflexivity|]. split; [discriminate|].
  split; [exact resolve_highest_face|].
  apply (resolved_is_a_candidate selHighestFace boxModel "selector.face" topFace);
    [reflexivity | discriminate | exact resolve_highest_face].
Defined.

(** A selector with exactly one candidate returns it without looking at
    its rank rules, whatever they are. *)
Theorem single_candidate_skips_ranking (selector : json)
    (current : KernelResult) (kind : string) (only : KernelSelection) :
  value_string selector "kind" "" = Ok kind ->
  kind <> "selector.named" ->
  collectCandidates kind selector (selections current) = Ok [only] ->
  resolveSelector selector current = Ok only.
Proof.
  intros Hkind Hnamed Hc. rewrite resolveSelector_unfold.
  unfold resolveSelectorBody. rewrite Hkind. cbn [bind].
  apply String.eqb_neq in Hnamed. rewrite Hnamed, Hc. cbn [bind].
  destruct selector as [| | | | |fields]; try discriminate.
  unfold value_json, value_with.
  destruct (assoc "rank" fields) as [rankRules|]; cbn [bind];
    [destruct (elements rankRules)|]; reflexivity.
Qed.

(** The solid of the box under a rank list that holds the number 5. *)
Lemma single_candidate_skips_ranking_witness :
  value_string selSolidOddRank "kind" "" = Ok "selector.solid" /\
  "selector.solid" <> "selector.named" /\
  collectCandidates "selector.solid" selSolidOddRank (selections boxModel)
  = Ok [boxSolid] /\
  resolveSelector selSolidOddRank boxModel = Ok boxSolid.
Proof.
  assert (Hc : collectCandidates "selector.solid" selSolidOddRank
                 (selections boxModel) = Ok [boxSolid])
    by (vm_compute; reflexivity).
  split; [reflexivity|]. split; [discriminate|]. split; [exact Hc|].
  apply (single_candidate_skips_ranking selSolidOddRank boxModel
           "selector.solid" boxSolid); [reflexivity | discriminate | exact Hc].
Defined.

(** A predicate whose kind is none of [pred.planar], [pred.normal],
    [pred.createdBy] and [pred.role] rejects no selection: the predicate
    loop gives what it gives without that predicate. *)
Theorem unknown_predicate_kind (pred : json) (predKind : string)
    (before after : list json) (sel : KernelSelection) :
  value_string pred "kind" "" = Ok predKind ->
  predKind <> "pred.planar" -> predKind <> "pred.normal" ->
  predKind <> "pred.createdBy" -> predKind <> "pred.role" ->
  evalPredicate pred sel = Ok true /\
  matchesAll (before ++ pred :: after) sel = matchesAll (before ++ after) sel.
Proof.
  intros Hkind Hp Hn Hc Hr.
  assert (He : evalPredicate pred sel = Ok true).
  { unfold evalPredicate. rewrite Hkind. cbn [bind].
    apply String.eqb_neq in Hp, Hn, Hc, Hr. now rewrite Hp, Hn, Hc, Hr. }
  split; [exact He|].
  induction before as [|p before IH]; cbn [app matchesAll].
  - now rewrite He.
  - destruct (evalPredicate p sel) as [[]|]; cbn [bind]; auto.
Qed.

Lemma unknown_predicate_kind_witness :
  value_string (JObj [("kind", JStr "pred.convex")]) "kind" "" = Ok "pred.convex" /\
  evalPredicate (JObj [("kind", JStr "pred.convex")]) boxEdge = Ok true /\
  matchesAll ([predNormalZ] ++ JObj [("kind", JStr "pred.convex")] :: []) boxEdge
  = matchesAll ([predNormalZ] ++ []) boxEdge.
Proof.
  split; [reflexivity|].
  apply (unknown_predicate_kind (JObj [("kind", JStr "pred.convex")])
           "pred.convex" [predNormalZ] [] boxEdge);
    [reflexivity | discriminate | discriminate | discriminate | discriminate].
Defined.

(** ** Geometry references *)

Section GeometryRefs.

Context {TopoDS_Shape : Type}.
Variables (current : KernelResult) (registry : ShapeRegistry TopoDS_Shape).

(** A reference of kind [ref.axis], [ref.point] or [ref.frame] never
    gives a shape; when its selector resolves to an element of the kind
    asked for, the failure is the one that names the unsupported kind. *)
Theorem unsupported_ref_kinds (ref : json) (kind : string) :
  value_string ref "kind" "" = Ok kind ->
  kind = "ref.axis" \/ kind = "ref.point" \/ kind = "ref.frame" ->
  (forall shape, resolveGeometryRef ref current registry <> Ok shape) /\
  (forall selector selection,
     value_json ref "selector" (JObj []) = Ok selector ->
     resolveSelector selector current = Ok selection ->
     resolveGeometryRef ref current registry
     = throw (runtime_error ("Geometry ref kind not supported yet: " ++ kind))).
Proof.
  intros Hkind Hk.
  destruct ref as [| | | | |fields]; try discriminate.
  unfold resolveGeometryRef. rewrite Hkind. cbn [bind].
  assert (Hflags : String.eqb kind "ref.surface" = false /\
                   String.eqb kind "ref.edge" = false /\
                   (String.eqb kind "ref.axis" || String.eqb kind "ref.point"
                    || String.eqb kind "ref.frame") = true).
  { destruct Hk as [->|[->| ->]]; repeat split; reflexivity. }
  destruct Hflags as (Hs & He & Hu). rewrite Hs, He, Hu. cbn [andb].
  split.
  - intros shape.
    destruct (value_json (JObj fields) "selector" (JObj [])) as [selector|];
      [|discriminate].
    cbn [bind].
    destruct (resolveSelector selector current) as [selection|[error|e]];
      discriminate.
  - intros selector selection Hsel Hres. rewrite Hsel. cbn [bind].
    now rewrite Hres.
Qed.

(** A shape that a reference resolves to is the shape the registry holds
    under the handle of the selected element, and the element is a face
    for [ref.surface] and an edge for [ref.edge]. *)
Theorem resolved_ref_is_registered (ref : json) (shape : TopoDS_Shape) :
  resolveGeometryRef ref current registry = Ok shape ->
  exists kind selector selection handle,
    value_string ref "kind" "" = Ok kind /\
    value_json ref "selector" (JObj []) = Ok selector /\
    resolveSelector selector current = Ok selection /\
    handleOfSelection selection = Ok handle /\ handle <> "" /\
    shapes_ registry !! handle = Some shape /\
    (kind = "ref.surface" -> sel_kind selection = "face") /\
    (kind = "ref.edge" -> sel_kind selection = "edge").
Proof.
  destruct ref as [| | | | |fields]; try discriminate.
  unfold resolveGeometryRef.
  destruct (value_string (JObj fields) "kind" "") as [kind|] eqn:Hk;
    [|discriminate].
  cbn [bind].
  destruct (value_json (JObj fields) "selector" (JObj [])) as [selector|]
    eqn:Hsel; [|discriminate].
  cbn [bind].
  destruct (resolveSelector selector current) as [selection|[error|e]]
    eqn:Hres; try discriminate.
  cbn [bind].
  destruct (String.eqb kind "ref.surface"
            && negb (String.eqb (sel_kind selection) "face")) eqn:Hs;
    [discriminate|].
  destruct (String.eqb kind "ref.edge"
            && negb (String.eqb (sel_kind selection) "edge")) eqn:He;
    [discriminate|].
  destruct (String.eqb kind "ref.axis" || String.eqb kind "ref.point"
            || String.eqb kind "ref.frame"); [discriminate|].
  destruct (value_string (sel_meta selection) "handle" "") as [handle|] eqn:Hh;
    [|discriminate].
  cbn [bind]. destruct (String.eqb_spec handle "") as [->|Hne]; [discriminate|].
  unfold get. destruct (shapes_ registry !! handle) as [s|] eqn:Hl; [|discriminate].
  intros [= <-]. exists kind, selector, selection, handle.
  do 6 (split; [first [reflexivity | assumption]|]). split.
  - intros ->. cbn in Hs. apply negb_false_iff in Hs. now apply String.eqb_eq.
  - intros ->. cbn in He. apply negb_false_iff in He. now apply String.eqb_eq.
Qed.

End GeometryRefs.

Lemma unsupported_ref_kinds_witness :
  value_string (namedRef "ref.axis" "body:main") "kind" "" = Ok "ref.axis" /\
  resolveSelector (JObj [("kind", JStr "selector.named"); ("name", JStr "body:main")])
    boxModel = Ok bodyOutput /\
  resolveGeometryRef (namedRef "ref.axis" "body:main") boxModel boxRegistry
  = throw (runtime_error "Geometry ref kind not supported yet: ref.axis").
Proof.
  assert (H : resolveSelector
                (JObj [("kind", JStr "selector.named"); ("name", JStr "body:main")])
                boxModel = Ok bodyOutput) by (vm_compute; reflexivity).
  split; [reflexivity|]. split; [exact H|].
  exact (proj2 (unsupported_ref_kinds boxModel boxRegistry
                  (namedRef "ref.axis" "body:main") "ref.axis" eq_refl
                  (or_introl eq_refl)) _ _ eq_refl H).
Defined.

Lemma resolved_ref_is_registered_witness :
  resolveGeometryRef refHighestFace boxModel boxRegistry = Ok 11%nat /\
  exists kind selector selection handle,
    value_string refHighestFace "kind" "" = Ok kind /\
    value_json refHighestFace "selector" (JObj []) = Ok selector /\
    resolveSelector selector boxModel = Ok selection /\
    handleOfSelection selection = Ok handle /\ handle <> "" /\
    shapes_ boxRegistry !! handle = Some 11%nat /\
    (kind = "ref.surface" -> sel_kind selection = "face") /\
    (kind = "ref.edge" -> sel_kind selection = "edge").
Proof.
  assert (H : resolveGeometryRef refHighestFace boxModel boxRegistry = Ok 11%nat)
    by (vm_compute; reflexivity).
  split; [exact H|].
  exact (resolved_ref_is_registered boxModel boxRegistry refHighestFace 11%nat H).
Defined.

(** ** From a built feature to its shape *)

Lemma handleOf_nonempty (n : N) : String.eqb (handleOf n) "" = false.
Proof. reflexivity. Qed.

Lemma resolveSelector_named (name : string) (current : KernelResult) :
  resolveSelector
    (JObj [("kind", JStr "selector.named"); ("name", JStr name)]) current
  = match outputs current !! name with
    | None => Err (MissingNamedOutput name)
    | Some obj => Ok (mkSelection (obj_id obj) (obj_kind obj) (obj_meta obj))
    end.
Proof. rewrite resolveSelector_unfold. reflexivity. Qed.

(** After a feature is built under [ownerKey] and merged onto any
    upstream model, a reference by name to [ownerKey] resolves to the
    solid of the feature, unless the reference asks for a surface, an edge
    or an unsupported kind. *)
Theorem built_solid_resolves {TopoDS_Shape : Type}
    (kernel : Kernel TopoDS_Shape) (shape : TopoDS_Shape)
    (registry : ShapeRegistry TopoDS_Shape) (featureId ownerKey : string)
    (tags : json) (upstream : KernelResult) (refKind : string) :
  issuedBelow registry ->
  (counter_ registry + N.of_nat (length (registeredShapes kernel shape))
   <= size_max)%N ->
  refKind <> "ref.surface" -> refKind <> "ref.edge" -> refKind <> "ref.axis" ->
  refKind <> "ref.point" -> refKind <> "ref.frame" ->
  let built := collectSelections kernel shape registry featureId ownerKey tags in
  resolveGeometryRef (namedRef refKind ownerKey)
    (mergeResults upstream built.1) built.2 = Ok shape.
Proof.
  intros Hinv Hbound Hs He Ha Hp Hf built.
  destruct (collectSelections_registerAll kernel shape registry featureId
              ownerKey tags) as (Hr & _ & Ho).
  fold built in Hr, Ho.
  destruct (registerAll registry (registeredShapes kernel shape)) as [hs r'] eqn:E.
  cbn [snd] in Hr.
  destruct (registerAll_inv _ _ _ _ E Hinv Hbound) as (_ & _ & _ & Hget & _).
  assert (Hh0 : hs !! 0%nat = Some (handleOf (counter_ registry))).
  { unfold registeredShapes in E. cbn [registerAll] in E.
    unfold registerShape at 1 in E.
    destruct (registerAll _ (faces kernel shape ++ edges kernel shape)).
    injection E as <- _. reflexivity. }
  specialize (Hget 0%nat _ shape Hh0 eq_refl).
  apply String.eqb_neq in Hs, He, Ha, Hp, Hf.
  unfold resolveGeometryRef, namedRef.
  change (value_string (JObj [("kind", JStr refKind);
                              ("selector",
                               JObj [("kind", JStr "selector.named");
                                     ("name", JStr ownerKey)])]) "kind" "")
    with (@Ok string refKind).
  change (value_json (JObj [("kind", JStr refKind);
                            ("selector",
                             JObj [("kind", JStr "selector.named");
                                   ("name", JStr ownerKey)])]) "selector"
            (JObj []))
    with (@Ok json (JObj [("kind", JStr "selector.named");
                          ("name", JStr ownerKey)])).
  cbn [bind].
  rewrite resolveSelector_named, merged_outputs, Ho, lookup_singleton_eq.
  cbn [bind obj_kind obj_meta obj_id sel_kind sel_meta].
  rewrite Hs, He, Ha, Hp, Hf. cbn [andb orb].
  change (value_string
            (JObj [("handle", JStr (handleOf (counter_ registry)));
                   ("role", JStr "body")]) "handle" "")
    with (@Ok string (handleOf (counter_ registry))).
  cbn [bind]. rewrite handleOf_nonempty.
  unfold get. now rewrite Hr, Hget.
Qed.

Lemma built_solid_resolves_witness :
  issuedBelow (@emptyRegistry nat) /\
  (counter_ (@emptyRegistry nat)
   + N.of_nat (length (registeredShapes boxKernel 10%nat)) <= size_max)%N /\
  resolveGeometryRef (namedRef "ref.solid" "body:main")
    (mergeResults sunkModel boxModel) boxRegistry = Ok 10%nat.
Proof.
  assert (Hinv : issuedBelow (@emptyRegistry nat)).
  { intros h [x Hx]. cbn in Hx. now rewrite lookup_empty in Hx. }
  assert (Hb : (counter_ (@emptyRegistry nat)
                + N.of_nat (length (registeredShapes boxKernel 10%nat))
                <= size_max)%N) by (vm_compute; discriminate).
  split; [exact Hinv|]. split; [exact Hb|].
  apply (built_solid_resolves boxKernel 10%nat emptyRegistry "F1" "body:main"
           JNull sunkModel "ref.solid" Hinv Hb); discriminate.
Defined.

(** ** The annotation graph *)

Ltac step_bind H :=
  match type of H with
  | bind ?r _ = Ok _ =>
      let v := fresh "v" in
      destruct r as [v|] eqn:?; [cbn [bind] in H | discriminate H]
  end.

Section AnnotationGraph.

Context {TopoDS_Shape : Type}.
Variables (current : KernelResult) (registry : ShapeRegistry TopoDS_Shape).

(** A constraint whose kind has no tolerance type is passed over before
    its target is looked at: it adds no record and cannot fail the
    export. *)
Theorem unknown_constraint_kind (constraint : json) (kind : string)
    (rest : list json) (datumLabels : gmap string nat) :
  value_string constraint "kind" "" = Ok kind ->
  mapToleranceType kind = GeomToleranceType_None ->
  buildTolerance constraint current registry datumLabels = Ok None /\
  buildTolerances (constraint :: rest) current registry datumLabels
  = buildTolerances rest current registry datumLabels.
Proof.
  intros Hkind Hnone.
  assert (H : buildTolerance constraint current registry datumLabels = Ok None).
  { unfold buildTolerance. rewrite Hkind. cbn [bind]. now rewrite Hnone. }
  split; [exact H|]. cbn [buildTolerances]. rewrite H. cbn [bind].
  now destruct (buildTolerances rest current registry datumLabels).
Qed.

Lemma buildDatums_labels (datums : list json) :
  forall position labels records labels',
    buildDatums datums current registry position labels = Ok (records, labels') ->
    length records = length datums /\
    labels' !! "" = labels !! "" /\
    forall id p, labels' !! id = Some p ->
      labels !! id = Some p \/ (position <= p < position + length datums)%nat.
Proof.
  induction datums as [|datum datums IH]; intros position labels records labels'.
  { intros [= <- <-]. repeat split; auto. }
  cbn [buildDatums].
  destruct (buildDatum datum current registry) as [[record key]|] eqn:Hd;
    [|discriminate].
  cbn [bind fst snd].
  match goal with
  | |- context [buildDatums datums current registry (S position) ?l] =>
      set (labels1 := l);
      destruct (buildDatums datums current registry (S position) labels1)
        as [[more labels2]|] eqn:Hm; [|discriminate]
  end.
  cbn [bind fst snd]. intros [= <- <-].
  destruct (IH _ _ _ _ Hm) as (Hlen & Hempty & Hpos).
  assert (Hkey : key <> Some "").
  { unfold buildDatum in Hd.
    destruct (value_string datum "id" "") as [datumId|]; [|discriminate].
    cbn [bind] in Hd. repeat step_bind Hd. injection Hd as _ <-.
    destruct (String.eqb_spec datumId "") as [->|Hne]; congruence. }
  repeat split.
  - cbn [length]. now rewrite Hlen.
  - rewrite Hempty. subst labels1. destruct key as [datumId|]; [|reflexivity].
    apply lookup_insert_ne. congruence.
  - intros id p Hp. destruct (Hpos id p Hp) as [Hl|Hr].
    + subst labels1. destruct key as [datumId|]; [|now left].
      destruct (decide (datumId = id)) as [->|Hne].
      * rewrite lookup_insert_eq in Hl. injection Hl as <-.
        right. cbn [length]. lia.
      * rewrite lookup_insert_ne in Hl by assumption. now left.
    + right. cbn [length]. lia.
Qed.

Lemma linkDatums_linked (refs : list json) (labels : gmap string nat)
    (linked : list nat) :
  linkDatums refs labels = Ok linked ->
  forall p, In p linked -> exists id, labels !! id = Some p.
Proof.
  revert linked. induction refs as [|datumRef refs IH]; intros linked.
  { intros [= <-] p []. }
  cbn [linkDatums].
  destruct (value_string datumRef "datum" "") as [refId|]; [|discriminate].
  cbn [bind]. destruct (linkDatums refs labels) as [more|]; [|discriminate].
  cbn [bind]. specialize (IH more eq_refl).
  destruct (labels !! refId) as [position|] eqn:E; intros [= <-] p Hin.
  - destruct Hin as [<-|Hin]; [now exists refId|now apply IH].
  - now apply IH.
Qed.

Lemma buildTolerance_links (constraint : json) (labels : gmap string nat)
    (tol : ToleranceRecord) :
  buildTolerance constraint current registry labels = Ok (Some tol) ->
  forall p, In p (tol_datums tol) -> exists id, labels !! id = Some p.
Proof.
  unfold buildTolerance.
  destruct (value_string constraint "kind" "") as [kind|]; [|discriminate].
  cbn [bind].
  assert (body : forall tolType,
    (let* targetRef := value_json constraint "target" (JObj []) in
     let* targetShape := resolveGeometryRef targetRef current registry in
     let* value := value_double constraint "tolerance" 0 in
     let* diameter :=
       if String.eqb kind "constraint.position" then
         let* zone := value_string constraint "zone" "" in
         Ok (String.eqb zone "diameter")
       else Ok false in
     let* mods := tolModifiers constraint in
     let* linked :=
       if contains constraint "datum" && is_array (at_key constraint "datum") then
         linkDatums (elements (at_key constraint "datum")) labels
       else Ok [] in
     Ok (Some (mkTolerance tolType value diameter mods targetShape linked)))
    = Ok (Some tol) ->
    forall p, In p (tol_datums tol) -> exists id, labels !! id = Some p).
  { intros tolType.
    destruct (value_json constraint "target" (JObj [])); [|discriminate].
    cbn [bind].
    destruct (resolveGeometryRef a current registry); [|discriminate].
    cbn [bind].
    destruct (value_double constraint "tolerance" 0); [|discriminate].
    cbn [bind].
    match goal with
    | |- context [bind ?d _] => destruct d; [|discriminate]
    end.
    cbn [bind]. destruct (tolModifiers constraint); [|discriminate].
    cbn [bind].
    destruct (contains constraint "datum" && is_array (at_key constraint "datum")).
    - destruct (linkDatums (elements (at_key constraint "datum")) labels)
        as [linked|] eqn:Hl; [|discriminate].
      cbn [bind]. intros [= <-]. cbn [tol_datums].
      exact (linkDatums_linked _ _ _ Hl).
    - cbn [bind]. intros [= <-] p []. }
  destruct (mapToleranceType kind); try apply body. discriminate.
Qed.

Lemma buildTolerances_links (constraints : list json)
    (labels : gmap string nat) (tols : list ToleranceRecord) :
  buildTolerances constraints current registry labels = Ok tols ->
  forall tol, In tol tols ->
  forall p, In p (tol_datums tol) -> exists id, labels !! id = Some p.
Proof.
  revert tols. induction constraints as [|constraint constraints IH]; intros tols.
  { intros [= <-] tol []. }
  cbn [buildTolerances].
  destruct (buildTolerance constraint current registry labels) as [built|] eqn:Hb;
    [|discriminate].
  cbn [bind].
  destruct (buildTolerances constraints current registry labels) as [more|];
    [|discriminate].
  cbn [bind]. specialize (IH more eq_refl).
  destruct built as [tol0|]; intros [= <-] tol Hin.
  - destruct Hin as [<-|Hin]; [exact (buildTolerance_links _ _ _ Hb)|now apply IH].
  - now apply IH.
Qed.

(** In the annotation graph no link dangles: a tolerance is linked only to
    datum records of the graph, there is a datum record for every datum of
    the payload and at most one tolerance record for each constraint. *)
Theorem annotation_links_valid (pmiPayload : json)
    (datums : list DatumRecord) (tolerances : list ToleranceRecord) :
  annotationGraph pmiPayload current registry = Ok (datums, tolerances) ->
  (forall tol, In tol tolerances ->
   forall p, In p (tol_datums tol) -> (p < length datums)%nat) /\
  (contains pmiPayload "datums" = true ->
   length datums = length (elements (at_key pmiPayload "datums"))).
Proof.
  unfold annotationGraph.
  destruct (contains pmiPayload "datums") eqn:Hc.
  - destruct (buildDatums (elements (at_key pmiPayload "datums")) current
                registry 0 ∅) as [[records labels]|] eqn:Hd; [|discriminate].
    cbn [bind fst snd].
    destruct (buildDatums_labels _ _ _ _ _ Hd) as (Hlen & _ & Hpos).
    match goal with
    | |- context [bind ?t _] => destruct t as [tols|] eqn:Ht; [|discriminate]
    end.
    cbn [bind]. intros [= <- <-]. split; [|intros _; exact Hlen].
    intros tol Hin p Hp.
    assert (Hex : exists id, labels !! id = Some p).
    { destruct (contains pmiPayload "constraints").
      - exact (buildTolerances_links _ _ _ Ht tol Hin p Hp).
      - injection Ht as <-. destruct Hin. }
    destruct Hex as [id Hid]. destruct (Hpos id p Hid) as [Hl|Hr].
    + now rewrite lookup_empty in Hl.
    + rewrite Hlen. lia.
  - cbn [bind fst snd].
    match goal with
    | |- context [bind ?t _] => destruct t as [tols|] eqn:Ht; [|discriminate]
    end.
    cbn [bind]. intros [= <- <-]. split; [|discriminate].
    intros tol Hin p Hp.
    assert (Hex : exists id, (∅ : gmap string nat) !! id = Some p).
    { destruct (contains pmiPayload "constraints").
      - exact (buildTolerances_links _ _ _ Ht tol Hin p Hp).
      - injection Ht as <-. destruct Hin. }
    destruct Hex as [id Hid]. now rewrite lookup_empty in Hid.
Qed.

End AnnotationGraph.

Lemma unknown_constraint_kind_witness :
  value_string (JObj [("kind", JStr "constraint.roundness"); ("target", JNum 5)])
    "kind" "" = Ok "constraint.roundness" /\
  mapToleranceType "constraint.roundness" = GeomToleranceType_None /\
  buildTolerance
    (JObj [("kind", JStr "constraint.roundness"); ("target", JNum 5)])
    boxModel boxRegistry ∅ = Ok None.
Proof.
  split; [reflexivity|]. split; [reflexivity|].
  exact (proj1 (unknown_constraint_kind boxModel boxRegistry
                  (JObj [("kind", JStr "constraint.roundness");
                         ("target", JNum 5)])
                  "constraint.roundness" [] ∅ eq_refl eq_refl)).
Defined.

Lemma annotation_links_valid_witness :
  annotationGraph boxPmi boxModel boxRegistry
  = Ok ([mkDatum "A" 11%nat []; mkDatum "B" 11%nat []],
        [mkTolerance GeomToleranceType_Position 0.5 true [] 11%nat [0%nat]]) /\
  (forall tol,
     In tol [mkTolerance GeomToleranceType_Position 0.5 true [] 11%nat [0%nat]] ->
     forall p, In p (tol_datums tol) ->
       (p < length [mkDatum "A" 11%nat []; mkDatum "B" 11%nat []])%nat) /\
  (contains boxPmi "datums" = true ->
   length [mkDatum "A" 11%nat []; mkDatum "B" 11%nat []]
   = length (elements (at_key boxPmi "datums"))).
Proof.
  assert (H : annotationGraph boxPmi boxModel boxRegistry
              = Ok ([mkDatum "A" 11%nat []; mkDatum "B" 11%nat []],
                    [mkTolerance GeomToleranceType_Position 0.5 true [] 11%nat
                                 [0%nat]]))
    by (vm_compute; reflexivity).
  split; [exact H|].
  exact (annotation_links_valid boxModel boxRegistry boxPmi _ _ H).
Defined.

(** ** The schema enumeration *)

Example findSchema_ap242 : findSchemaEnumMatch boxStep "Ap242" = "ap242dis".
Proof. vm_compute. reflexivity. Qed.

Example findSchema_ap2 : findSchemaEnumMatch boxStep "ap2" = "AP214CD".
Proof. vm_compute. reflexivity. Qed.

Example findSchema_none : findSchemaEnumMatch boxStep "AP999" = "".
Proof. vm_compute. reflexivity. Qed.

Section SchemaSearch.

Context {TopoDS_Shape Statics : Type}.
Context (step : StepKernel TopoDS_Shape Statics
                  (list (@DatumRecord TopoDS_Shape)
                   * list (@ToleranceRecord TopoDS_Shape))).

Lemma schemaMatchFrom_seq (tokenUpper : string) (n : nat) :
  forall a,
    let result := schemaMatchFrom step tokenUpper (seq a n) in
    (result = "" /\
     forall i, (a <= i < a + n)%nat ->
       schemaEntryMatches tokenUpper
         (schemaEnum step (schemaStart step + Z.of_nat i)) = false) \/
    (result <> "" /\
     exists i, (a <= i < a + n)%nat /\
       schemaEnum step (schemaStart step + Z.of_nat i) = Some result /\
       found tokenUpper (toUpperCopy result) = true /\
       forall j, (a <= j < i)%nat ->
         schemaEntryMatches tokenUpper
           (schemaEnum step (schemaStart step + Z.of_nat j)) = false).
Proof.
  induction n as [|n IH]; intros a; cbn [seq schemaMatchFrom].
  { left. split; [reflexivity|]. intros i Hi. lia. }
  set (entry := schemaEnum step (schemaStart step + Z.of_nat a)).
  assert (skip : schemaEntryMatches tokenUpper entry = false ->
            let result := schemaMatchFrom step tokenUpper (seq (S a) n) in
            (result = "" /\
             forall i, (a <= i < a + S n)%nat ->
               schemaEntryMatches tokenUpper
                 (schemaEnum step (schemaStart step + Z.of_nat i)) = false) \/
            (result <> "" /\
             exists i, (a <= i < a + S n)%nat /\
               schemaEnum step (schemaStart step + Z.of_nat i) = Some result /\
               found tokenUpper (toUpperCopy result) = true /\
               forall j, (a <= j < i)%nat ->
                 schemaEntryMatches tokenUpper
                   (schemaEnum step (schemaStart step + Z.of_nat j)) = false)).
  { intros Hno. destruct (IH (S a)) as [[He Hall]|[Hne (i & Hi & Hi1 & Hi2 & Hi3)]].
    - left. split; [exact He|]. intros i Hi.
      destruct (decide (i = a)) as [->|]; [exact Hno|apply Hall; lia].
    - right. split; [exact Hne|]. exists i. repeat split; auto; try lia.
      intros j Hj. destruct (decide (j = a)) as [->|]; [exact Hno|apply Hi3; lia]. }
  destruct entry as [valueStr|] eqn:E; [|now apply skip].
  destruct (String.eqb_spec valueStr "") as [->|Hne]; [now apply skip|].
  destruct (found tokenUpper (toUpperCopy valueStr)) eqn:Hf.
  - right. split; [exact Hne|]. exists a.
    repeat split; auto; try lia; intros j Hj; lia.
  - apply skip. cbn. rewrite Hf. now rewrite andb_false_r.
Qed.

Lemma findSchemaEnumMatch_cases (token : string) :
  let tokenUpper := toUpperCopy token in
  let result := findSchemaEnumMatch step token in
  (result = "" /\
   forall i, (0 <= i < schemaCount step)%Z ->
     schemaEntryMatches tokenUpper (schemaEnum step (schemaStart step + i))
     = false) \/
  (result <> "" /\
   exists i, (0 <= i < schemaCount step)%Z /\
     schemaEnum step (schemaStart step + i) = Some result /\
     found tokenUpper (toUpperCopy result) = true /\
     forall j, (0 <= j < i)%Z ->
       schemaEntryMatches tokenUpper (schemaEnum step (schemaStart step + j))
       = false).
Proof.
  intros tokenUpper result. subst result. unfold findSchemaEnumMatch.
  destruct (schemaCount step <=? 0)%Z eqn:Hc.
  { left. split; [reflexivity|]. intros i Hi. lia. }
  apply Z.leb_gt in Hc. fold tokenUpper.
  destruct (schemaMatchFrom_seq tokenUpper (Z.to_nat (schemaCount step)) 0)
    as [[He Hall]|[Hne (i & Hi & Hi1 & Hi2 & Hi3)]].
  - left. split; [exact He|]. intros i Hi.
    specialize (Hall (Z.to_nat i)). rewrite Z2Nat.id in Hall by lia.
    apply Hall. lia.
  - right. split; [exact Hne|]. exists (Z.of_nat i). repeat split; auto; try lia.
    intros j Hj. specialize (Hi3 (Z.to_nat j)).
    rewrite Z2Nat.id in Hi3 by lia. apply Hi3. lia.
Qed.

(** [findSchemaEnumMatch] returns the first value of the enumeration that
    is not empty and contains the token, letters compared without case;
    it returns the empty string exactly when there is no such value. *)
Theorem findSchemaEnumMatch_first (token : string) :
  let tokenUpper := toUpperCopy token in
  let result := findSchemaEnumMatch step token in
  (result = "" /\
   forall i, (0 <= i < schemaCount step)%Z ->
     schemaEntryMatches tokenUpper (schemaEnum step (schemaStart step + i))
     = false) \/
  (result <> "" /\
   exists i, (0 <= i < schemaCount step)%Z /\
     schemaEnum step (schemaStart step + i) = Some result /\
     found tokenUpper (toUpperCopy result) = true /\
     forall j, (0 <= j < i)%Z ->
       schemaEntryMatches tokenUpper (schemaEnum step (schemaStart step + j))
       = false).
Proof. exact (findSchemaEnumMatch_cases token). Qed.

(** An empty schema leaves the statics as they are.  Any other schema sets
    a value that is not empty: the first enumerated value that contains
    it, letters compared without case, and the schema as it was given
    when there is none. *)
Theorem writeStepSchema_target (schema : string) (statics : Statics) :
  (schema = "" -> writeStepSchema step schema statics = statics) /\
  (schema <> "" ->
   exists target,
     target <> "" /\
     writeStepSchema step schema statics = SetCVal step target statics /\
     ((target = schema /\
       forall i, (0 <= i < schemaCount step)%Z ->
         schemaEntryMatches (toUpperCopy schema)
           (schemaEnum step (schemaStart step + i)) = false) \/
      (exists i, (0 <= i < schemaCount step)%Z /\
         schemaEnum step (schemaStart step + i) = Some target /\
         found (toUpperCopy schema) (toUpperCopy target) = true))).
Proof.
  split.
  - intros ->. reflexivity.
  - intros Hne. unfold writeStepSchema, schemaTarget.
    apply String.eqb_neq in Hne. rewrite Hne.
    assert (Hsame : (if String.eqb schema "AP242" then findSchemaEnumMatch step "AP242"
                     else findSchemaEnumMatch step schema)
                    = findSchemaEnumMatch step schema).
    { destruct (String.eqb_spec schema "AP242") as [->|]; reflexivity. }
    rewrite Hsame.
    destruct (findSchemaEnumMatch_cases schema)
      as [[He Hall]|[Hn (i & Hi & Hi1 & Hi2 & _)]].
    + rewrite He. cbn. exists schema. split; [now apply String.eqb_neq|].
      split; [reflexivity|]. left. now split.
    + apply String.eqb_neq in Hn. rewrite Hn. apply String.eqb_neq in Hn.
      exists (findSchemaEnumMatch step schema).
      split; [exact Hn|]. split; [reflexivity|]. right. now exists i.
Qed.

End SchemaSearch.

(** ** The mesh buffers *)

Lemma nodePositions_length (nodes : list gp_Pnt) :
  length (nodePositions nodes) = (3 * length nodes)%nat.
Proof.
  unfold nodePositions. induction nodes as [|p nodes IH]; [reflexivity|].
  cbn [flat_map]. rewrite length_app, IH. cbn [length]. lia.
Qed.

Lemma triangleIndices_length (vertexOffset : Z) (triangles : list (Z * Z * Z)) :
  length (triangleIndices vertexOffset triangles) = (3 * length triangles)%nat.
Proof.
  unfold triangleIndices. induction triangles as [|[[n1 n2] n3] ts IH];
    [reflexivity|].
  cbn [flat_map]. rewrite length_app, IH. cbn [length]. lia.
Qed.

Lemma triangleIndices_range (vertexOffset : Z) (nodes : list gp_Pnt)
    (triangles : list (Z * Z * Z)) :
  (0 <= vertexOffset)%Z -> trianglesInRange nodes triangles ->
  Forall (fun i => (0 <= i < vertexOffset + Z.of_nat (length nodes))%Z)
         (triangleIndices vertexOffset triangles).
Proof.
  intros Hoff Hrange. unfold triangleIndices, trianglesInRange in *.
  induction Hrange as [|[[n1 n2] n3] ts (H1 & H2 & H3) _ IH]; [constructor|].
  cbn [flat_map app]. repeat (constructor; [lia|]). exact IH.
Qed.

Lemma meshFaces_buffers {TopoDS_Shape : Type}
    (mesh : TopoDS_Shape -> option (list gp_Pnt * list (Z * Z * Z)))
    (fs : list TopoDS_Shape) :
  (forall face nodes triangles,
     In face fs -> mesh face = Some (nodes, triangles) ->
     trianglesInRange nodes triangles) ->
  forall positions indices vertexOffset,
    Z.of_nat (length positions) = (3 * vertexOffset)%Z ->
    Forall (fun i => (0 <= i < vertexOffset)%Z) indices ->
    Nat.divide 3 (length indices) ->
    exists vertices,
      Z.of_nat (length (meshFaces mesh fs positions indices vertexOffset).1)
      = (3 * vertices)%Z /\
      Forall (fun i => (0 <= i < vertices)%Z)
             (meshFaces mesh fs positions indices vertexOffset).2 /\
      Nat.divide 3 (length (meshFaces mesh fs positions indices vertexOffset).2).
Proof.
  induction fs as [|face fs IH]; intros Hrange positions indices vertexOffset
                                        Hpos Hidx Hdiv; cbn [meshFaces].
  { exists vertexOffset. auto. }
  assert (Hrest : forall f nodes triangles,
             In f fs -> mesh f = Some (nodes, triangles) ->
             trianglesInRange nodes triangles)
    by (intros f nodes triangles Hin; apply Hrange; now right).
  destruct (mesh face) as [[nodes triangles]|] eqn:E; [|now apply IH].
  specialize (Hrange face nodes triangles (or_introl eq_refl) E).
  assert (Hoff : (0 <= vertexOffset)%Z) by lia.
  apply IH; [assumption| | |].
  - rewrite length_app, Nat2Z.inj_add, Hpos, nodePositions_length. lia.
  - apply Forall_app. split.
    + eapply Forall_impl; [exact Hidx|]. cbn. intros i Hi. lia.
    + now apply triangleIndices_range.
  - rewrite length_app, triangleIndices_length.
    apply Nat.divide_add_r; [assumption|]. now exists (length triangles); lia.
Qed.

(** When the kernel's triangles name nodes of their own face, every index
    [meshShape] returns is the number of a vertex it returns: the indices
    come in threes, the positions in threes, and each index is below the
    number of vertices. *)
Theorem meshShape_indices_valid {TopoDS_Shape Statics : Type}
    (step : StepKernel TopoDS_Shape Statics
              (list (@DatumRecord TopoDS_Shape)
               * list (@ToleranceRecord TopoDS_Shape)))
    (shape : TopoDS_Shape) (options : json)
    (positions : list float) (indices : list Z) :
  (forall lin rel ang face nodes triangles,
     triangulation step shape lin rel ang face = Some (nodes, triangles) ->
     trianglesInRange nodes triangles) ->
  meshShape step shape options = Ok (positions, indices) ->
  exists vertices,
    Z.of_nat (length positions) = (3 * vertices)%Z /\
    Forall (fun i => (0 <= i < vertices)%Z) indices /\
    Nat.divide 3 (length indices).
Proof.
  intros Hrange. unfold meshShape.
  destruct (value_double options "linearDeflection" _) as [lin|]; [|discriminate].
  cbn [bind].
  destruct (value_double options "angularDeflection" _) as [ang|]; [|discriminate].
  cbn [bind].
  destruct (value_bool options "relative" false) as [rel|]; [|discriminate].
  cbn [bind]. intros [= H].
  destruct (meshFaces_buffers (triangulation step shape lin rel ang)
              (explore step shape)
              (fun face nodes triangles _ => Hrange lin rel ang face nodes triangles)
              [] [] 0%Z eq_refl (Forall_nil_2 _) (Nat.divide_0_r 3))
    as (vertices & Hp & Hi & Hd).
  rewrite H in Hp, Hi, Hd. now exists vertices.
Qed.

Example meshShape_box :
  meshShape boxStep 10%nat (JObj [])
  = Ok ([-5; -5; 5; 5; -5; 5; 5; 5; 5; -5; 5; 5; 5; -5; 0; 5; 5; 0; 5; 5; 5]%float,
        [0; 1; 2; 0; 2; 3; 4; 5; 6]%Z).
Proof. vm_compute. reflexivity. Qed.

Lemma meshShape_indices_valid_witness :
  (forall lin rel ang face nodes triangles,
     triangulation boxStep 10%nat lin rel ang face = Some (nodes, triangles) ->
     trianglesInRange nodes triangles) /\
  exists vertices,
    Z.of_nat (length [-5; -5; 5; 5; -5; 5; 5; 5; 5; -5; 5; 5;
                      5; -5; 0; 5; 5; 0; 5; 5; 5]%float) = (3 * vertices)%Z /\
    Forall (fun i => (0 <= i < vertices)%Z) [0; 1; 2; 0; 2; 3; 4; 5; 6]%Z /\
    Nat.divide 3 (length [0; 1; 2; 0; 2; 3; 4; 5; 6]%Z).
Proof.
  assert (H : forall lin rel ang face nodes triangles,
             triangulation boxStep 10%nat lin rel ang face = Some (nodes, triangles) ->
             trianglesInRange nodes triangles).
  { intros lin rel ang face nodes triangles. cbn.
    destruct (Nat.eqb face 11); [|destruct (Nat.eqb face 13)];
      intros [= <- <-]; repeat constructor; cbn; lia. }
  split; [exact H|].
  exact (meshShape_indices_valid boxStep 10%nat (JObj []) _ _ H meshShape_box).
Defined.

(** ** The mesh and export handlers *)

Section ReadingHandlers.

Context {TopoDS_Shape Statics : Type}.
Context (step : StepKernel TopoDS_Shape Statics
                  (list (@DatumRecord TopoDS_Shape)
                   * list (@ToleranceRecord TopoDS_Shape))).
Variable sessions : gmap string (Session TopoDS_Shape).

Lemma requestShape_state (payload : json) (sessionId : string) :
  sessionState (requestShape sessions payload).1 sessionId
  = sessionState sessions sessionId.
Proof.
  unfold requestShape.
  destruct (value_string payload "sessionId" "default") as [sid|]; [|reflexivity].
  pose proof (sessionGet_state sessions sid sessionId) as H.
  destruct (sessionGet sessions sid) as [session sessions1]. exact H.
Qed.

(** The mesh and export handlers leave every session with the registry
    and the current model it had, whatever the request and its outcome. *)
Theorem reading_handlers_keep_sessions (statics : Statics)
    (body : option json) (sessionId : string) :
  sessionState (meshHandler step sessions body).1 sessionId
  = sessionState sessions sessionId /\
  sessionState (exportStepHandler step sessions statics body).1.1 sessionId
  = sessionState sessions sessionId /\
  sessionState (exportStepPmiHandler step sessions statics body).1.1 sessionId
  = sessionState sessions sessionId.
Proof.
  destruct body as [payload|]; [|repeat split; reflexivity].
  pose proof (requestShape_state payload sessionId) as H.
  unfold meshHandler, exportStepHandler, exportStepPmiHandler.
  destruct (requestShape sessions payload) as [sessions1 found_shape].
  cbn [fst] in H. split; [exact H|]. split.
  - destruct found_shape as [[session shape]|]; cbn [bind fst snd]; [|exact H].
    destruct (requestSchema payload) as [schema|]; cbn [bind]; [|exact H].
    destruct (exportStep step shape schema statics) as [statics1 [bytes|f]];
      exact H.
  - destruct found_shape as [[session shape]|]; cbn [bind fst snd]; [|exact H].
    destruct (value_json payload "pmi" (JObj [])) as [pmi|]; cbn [bind];
      [|exact H].
    destruct (requestSchema payload) as [schema|]; cbn [bind]; [|exact H].
    destruct (exportStepWithPmi step shape (current session) (registry session)
                pmi schema statics) as [statics1 [bytes|f]]; exact H.
Qed.

(** A request without a handle, or with a handle the session of the
    request does not hold, is refused by all three handlers with the error
    of the missing or unknown handle, and the export handlers leave the
    schema setting as it was. *)
Theorem handle_errors (statics : Statics) (payload : json)
    (sessionId handle : string) :
  value_string payload "sessionId" "default" = Ok sessionId ->
  value_string payload "handle" "" = Ok handle ->
  handle = "" \/
  shapes_ (registry (sessionState sessions sessionId)) !! handle = None ->
  let f :=
    if String.eqb handle "" then Thrown (runtime_error "Missing shape handle")
    else Thrown (UnknownHandle handle) in
  (meshHandler step sessions (Some payload)).2 = Refused f /\
  (exportStepHandler step sessions statics (Some payload)).2 = Refused f /\
  (exportStepHandler step sessions statics (Some payload)).1.2 = statics /\
  (exportStepPmiHandler step sessions statics (Some payload)).2 = Refused f /\
  (exportStepPmiHandler step sessions statics (Some payload)).1.2 = statics.
Proof.
  intros Hsid Hhandle Hmiss f.
  assert (Hreq : (requestShape sessions payload).2 = Err f).
  { unfold requestShape. rewrite Hsid.
    pose proof (sessionGet_fst sessions sessionId) as Hs.
    destruct (sessionGet sessions sessionId) as [session sessions1].
    cbn [fst snd] in *. rewrite Hhandle. cbn [bind]. subst f.
    destruct (String.eqb_spec handle "") as [->|Hne]; [reflexivity|].
    destruct Hmiss as [->|Hnone]; [congruence|].
    unfold get. rewrite Hs, Hnone. reflexivity. }
  unfold meshHandler, exportStepHandler, exportStepPmiHandler.
  destruct (requestShape sessions payload) as [sessions1 found_shape].
  cbn [snd] in Hreq. subst found_shape. cbn [bind fst snd].
  repeat split; reflexivity.
Qed.

End ReadingHandlers.

Example meshHandler_box :
  meshHandler boxStep boxSessions (Some meshRequest)
  = (boxSessions,
     Sent ([-5; -5; 5; 5; -5; 5; 5; 5; 5; -5; 5; 5;
            5; -5; 0; 5; 5; 0; 5; 5; 5]%float,
           [0; 1; 2; 0; 2; 3; 4; 5; 6]%Z)).
Proof. vm_compute. reflexivity. Qed.

(** The handle of the box, issued in session [s1], asked for in session
    [s2]. *)
Lemma handle_errors_witness :
  value_string strayRequest "sessionId" "default" = Ok "s2" /\
  value_string strayRequest "handle" "" = Ok "shape:0" /\
  shapes_ (registry (sessionState boxSessions "s2")) !! "shape:0" = None /\
  (meshHandler boxStep boxSessions (Some strayRequest)).2
  = Refused (Thrown (UnknownHandle "shape:0")) /\
  (exportStepHandler boxStep boxSessions "AP214" (Some strayRequest)).2
  = Refused (Thrown (UnknownHandle "shape:0")) /\
  (exportStepHandler boxStep boxSessions "AP214" (Some strayRequest)).1.2 = "AP214" /\
  (exportStepPmiHandler boxStep boxSessions "AP214" (Some strayRequest)).2
  = Refused (Thrown (UnknownHandle "shape:0")) /\
  (exportStepPmiHandler boxStep boxSessions "AP214" (Some strayRequest)).1.2
  = "AP214".
Proof.
  assert (Hn : shapes_ (registry (sessionState boxSessions "s2")) !! "shape:0"
               = None) by (vm_compute; reflexivity).
  split; [reflexivity|]. split; [reflexivity|]. split; [exact Hn|].
  exact (handle_errors boxStep boxSessions "AP214" strayRequest "s2" "shape:0"
           eq_refl eq_refl (or_intror Hn)).
Defined.

(** ** Clearing a registry *)

Section Clearing.

Context {TopoDS_Shape : Type}.
Implicit Types r : ShapeRegistry TopoDS_Shape.

Lemma registerAll_handles (shapes : list TopoDS_Shape) :
  forall r,
    (counter_ r < size_max)%N ->
    (counter_ r + N.of_nat (length shapes) <= size_max)%N ->
    (forall h, In h (registerAll r shapes).1 ->
       exists n, (counter_ r <= n < counter_ r + N.of_nat (length shapes))%N /\
                 h = handleOf n) /\
    counter_ (registerAll r shapes).2
    = ((counter_ r + N.of_nat (length shapes)) mod size_max)%N.
Proof.
  induction shapes as [|shape rest IH]; intros r Hc Hbound.
  { cbn [registerAll fst snd length]. split; [intros h []|].
    rewrite N.add_0_r. symmetry. now apply N.mod_small. }
  cbn [registerAll].
  destruct (registerShape r shape) as [h0 r1] eqn:E1.
  assert (Hh0 : h0 = handleOf (counter_ r)) by (injection E1 as <- _; reflexivity).
  assert (Hc1 : counter_ r1 = ((counter_ r + 1) mod size_max)%N)
    by (injection E1 as _ <-; reflexivity).
  destruct (registerAll r1 rest) as [hs r2] eqn:E2. cbn [fst snd].
  destruct rest as [|shape' rest'].
  { injection E2 as <- <-. split.
    - intros h [<-|[]]. exists (counter_ r). split; [cbn [length]; lia|assumption].
    - rewrite Hc1. cbn [length]. reflexivity. }
  assert (Hlt : (counter_ r + 1 < size_max)%N) by (cbn [length] in Hbound; lia).
  rewrite N.mod_small in Hc1 by assumption.
  destruct (IH r1) as [Hhs Hcount].
  { rewrite Hc1. assumption. }
  { rewrite Hc1. cbn [length] in *. lia. }
  rewrite E2 in Hhs, Hcount. cbn [fst snd] in Hhs, Hcount. split.
  - intros h [<-|Hin].
    + exists (counter_ r). split; [cbn [length]; lia|assumption].
    + destruct (Hhs h Hin) as (n & Hn & ->). exists n.
      split; [|reflexivity]. rewrite Hc1 in Hn. cbn [length] in *. lia.
  - rewrite Hcount, Hc1. f_equal. cbn [length]. lia.
Qed.

(** [clear] forgets every shape but keeps the counter: after it no handle
    resolves, and the registrations that follow return handles that were
    never returned before. *)
Theorem clear_never_reuses (before after : list TopoDS_Shape) :
  (N.of_nat (length before) + N.of_nat (length after) <= size_max)%N ->
  let first := registerAll emptyRegistry before in
  let second := registerAll (clear first.2) after in
  (forall h, get (clear first.2) h = throw (UnknownHandle h)) /\
  (forall h, In h second.1 -> ~ In h first.1) /\
  (forall h, In h first.1 -> get second.2 h = throw (UnknownHandle h)).
Proof.
  intros Hbound first second.
  assert (Hempty : forall h, get (clear first.2) h = throw (UnknownHandle h)).
  { intros h. unfold get, clear. cbn [shapes_]. now rewrite lookup_empty. }
  destruct (registerAll_handles before emptyRegistry) as [Hfirst Hcount];
    [reflexivity | cbn; lia |].
  fold first in Hfirst, Hcount. cbn [counter_ emptyRegistry] in Hfirst, Hcount.
  assert (Hdisjoint : forall h, In h second.1 -> ~ In h first.1).
  { destruct after as [|shape after'].
    { intros h []. }
    assert (Hlt : (N.of_nat (length before) < size_max)%N)
      by (cbn [length] in Hbound; lia).
    rewrite N.add_0_l, N.mod_small in Hcount by assumption.
    destruct (registerAll_handles (shape :: after') (clear first.2)) as [Hsecond _].
    { cbn [clear counter_]. now rewrite Hcount. }
    { cbn [clear counter_]. rewrite Hcount. lia. }
    fold second in Hsecond. cbn [clear counter_] in Hsecond.
    intros h Hin2 Hin1.
    destruct (Hsecond h Hin2) as (n2 & Hn2 & ->).
    destruct (Hfirst _ Hin1) as (n1 & Hn1 & Heq).
    apply handleOf_inj in Heq. rewrite Hcount in Hn2. lia. }
  split; [exact Hempty|]. split; [exact Hdisjoint|].
  intros h Hin1. unfold get. subst second.
  destruct (registerAll (clear first.2) after) as [hs2 r2] eqn:E2.
  assert (Hinv : issuedBelow (clear first.2)).
  { intros handle [x Hx]. cbn in Hx. now rewrite lookup_empty in Hx. }
  destruct after as [|shape after'].
  { injection E2 as <- <-. cbn [snd clear shapes_]. now rewrite lookup_empty. }
  assert (Hlt : (N.of_nat (length before) < size_max)%N)
    by (cbn [length] in Hbound; lia).
  rewrite N.add_0_l, N.mod_small in Hcount by assumption.
  destruct (registerAll_inv _ _ _ _ E2 Hinv) as (_ & _ & _ & _ & Hrest).
  { cbn [clear counter_]. rewrite Hcount. lia. }
  cbn [snd fst] in *. rewrite Hrest.
  - cbn [clear shapes_]. now rewrite lookup_empty.
  - intros Hin2. exact (Hdisjoint h Hin2 Hin1).
Qed.

End Clearing.

Lemma clear_never_reuses_witness :
  (N.of_nat (length [10; 11]%nat) + N.of_nat (length [12]%nat) <= size_max)%N /\
  let first := registerAll emptyRegistry [10; 11]%nat in
  let second := registerAll (clear first.2) [12]%nat in
  (forall h, get (clear first.2) h = throw (UnknownHandle h)) /\
  (forall h, In h second.1 -> ~ In h first.1) /\
  (forall h, In h first.1 -> get second.2 h = throw (UnknownHandle h)).
Proof.
  split; [vm_compute; discriminate|].
  apply (clear_never_reuses [10; 11]%nat [12]%nat). vm_compute. discriminate.
Defined.

(** ** The feature handler and the other sessions *)

Section FeatureSessions.

Context {TopoDS_Shape : Type} (kernel : Kernel TopoDS_Shape).



End FeatureSessions.


(** ** The failures of a feature request *)

Ltac split_bind H :=
  match type of H with
  | bind ?r _ = Err _ =>
      let E := fresh "E" in destruct r eqn:E; cbn [bind] in H
  end.

Lemma value_with_fails {A : Type} (get : json -> res A) (j : json)
    (key : string) (fallback : A) (f : failure) :
  (forall v f', get v = Err f' -> exists n, f' = Thrown (type_error n)) ->
  value_with get j key fallback = Err f ->
  exists n, f = Thrown (type_error n).
Proof.
  intros Hget. unfold value_with.
  destruct j; try (intros [= <-]; eexists; reflexivity).
  destruct (assoc key _) as [v|]; [apply Hget|discriminate].
Qed.

Lemma value_string_fails (j : json) (key fallback : string) (f : failure) :
  value_string j key fallback = Err f -> exists n, f = Thrown (type_error n).
Proof.
  apply value_with_fails. intros [] f'; cbn; intros [= <-]; eexists; reflexivity.
Qed.

Lemma value_double_fails (j : json) (key : string) (fallback : float)
    (f : failure) :
  value_double j key fallback = Err f -> exists n, f = Thrown (type_error n).
Proof.
  apply value_with_fails. intros [] f'; cbn; intros [= <-]; eexists; reflexivity.
Qed.

Lemma value_json_fails (j : json) (key : string) (fallback : json)
    (f : failure) :
  value_json j key fallback = Err f -> exists n, f = Thrown (type_error n).
Proof.
  apply value_with_fails. discriminate.
Qed.

Lemma parseScalar_fails (value : json) (fallback : float) (f : failure) :
  parseScalar value fallback = Err f -> exists n, f = Thrown (type_error n).
Proof.
  unfold parseScalar. destruct value; try discriminate.
  intros H. split_bind H.
  - destruct (String.eqb _ _); [|discriminate].
    exact (value_double_fails _ _ _ _ H).
  - injection H as <-. exact (value_string_fails _ _ _ _ E).
Qed.

Lemma parsePoint2D_fails (value : json) (z : float) (f : failure) :
  parsePoint2D value z = Err f -> exists n, f = Thrown (type_error n).
Proof.
  unfold parsePoint2D. destruct value; try discriminate.
  destruct (_ <? _)%nat; [discriminate|].
  intros H. split_bind H;
    [|injection H as <-; exact (parseScalar_fails _ _ _ E)].
  split_bind H; [discriminate|].
  injection H as <-. exact (parseScalar_fails _ _ _ E0).
Qed.

Lemma parseAxis_fails (axis : json) (f : failure) :
  parseAxis axis = Err f -> exists n, f = Thrown (type_error n).
Proof.
  unfold parseAxis. destruct axis; try discriminate.
  intros H. split_bind H;
    [|injection H as <-; exact (value_string_fails _ _ _ _ E)].
  destruct (String.eqb _ _); [|discriminate].
  split_bind H;
    [|injection H as <-; exact (value_json_fails _ _ _ _ E0)].
  match type of H with
  | match ?direction with JArr _ => _ | _ => _ end = _ =>
      destruct direction; try discriminate
  end.
  destruct (_ <? _)%nat; [discriminate|].
  split_bind H; [|injection H as <-; exact (parseScalar_fails _ _ _ E1)].
  split_bind H; [|injection H as <-; exact (parseScalar_fails _ _ _ E2)].
  split_bind H; [discriminate|].
  injection H as <-. exact (parseScalar_fails _ _ _ E3).
Qed.

Section FeatureFailures.

Context {TopoDS_Shape : Type} (kernel : Kernel TopoDS_Shape).

(** A depth given as a string, ["throughAll"] or any other, is refused as
    a value of the wrong type once the profile has been built. *)
Theorem string_depth_is_type_error (feature profile : json)
    (face : TopoDS_Shape) (depthText : string) :
  value_string feature "kind" "" = Ok "feature.extrude" ->
  value_json feature "profile" (JObj []) = Ok profile ->
  buildProfileFace kernel profile = Ok face ->
  value_json feature "depth" (JNum 0) = Ok (JStr depthText) ->
  buildSolid kernel feature = throw (type_error 302).
Proof.
  intros Hkind Hprofile Hface Hdepth.
  destruct feature as [| | | | |fields]; try discriminate.
  assert (Hd : value_double (JObj fields) "depth" 0 = throw (type_error 302)).
  { unfold value_json, value_double, value_with in *.
    destruct (assoc "depth" fields) as [v|]; [|discriminate].
    injection Hdepth as ->. reflexivity. }
  assert (Hpk : exists pk, value_string profile "kind" "" = Ok pk /\
                           String.eqb pk "profile.ref" = false).
  { pose proof Hface as Hf. unfold buildProfileFace in Hf.
    destruct (value_string profile "kind" "") as [pk|]; [|discriminate].
    exists pk. split; [reflexivity|].
    destruct (String.eqb_spec pk "profile.ref") as [->|]; [|reflexivity].
    cbn in Hf. discriminate. }
  destruct Hpk as (pk & Hpk & Hnotref).
  unfold buildSolid. rewrite Hkind. cbn [bind].
  assert (Hid : (exists id, value_string (JObj fields) "id" "feature" = Ok id) \/
                value_string (JObj fields) "id" "feature" = throw (type_error 302)).
  { unfold value_string, value_with.
    destruct (assoc "id" fields) as [[]|]; cbn; eauto. }
  destruct Hid as [[id ->]| ->]; [|reflexivity].
  cbn [bind].
  assert (Htags : exists tags, value_json (JObj fields) "tags" (JArr []) = Ok tags).
  { unfold value_json, value_with. destruct (assoc "tags" fields); eauto. }
  destruct Htags as [tags ->]. cbn [bind].
  change (negb ("feature.extrude" =? "feature.extrude")%string) with false.
  cbv iota. rewrite Hprofile. cbn [bind]. rewrite Hpk. cbn [bind].
  rewrite Hnotref, Hface. cbn [bind]. rewrite Hd. reflexivity.
Qed.

End FeatureFailures.

Example buildSolid_throughAll :
  buildSolid boxKernel throughAllFeature = throw (type_error 302).
Proof. vm_compute. reflexivity. Qed.

Example buildSolid_thinPoly :
  buildSolid boxKernel thinPolyFeature
  = throw (runtime_error "profile.poly requires sides >= 3").
Proof. vm_compute. reflexivity. Qed.

Lemma string_depth_is_type_error_witness :
  value_string throughAllFeature "kind" "" = Ok "feature.extrude" /\
  buildProfileFace boxKernel (at_key throughAllFeature "profile") = Ok 1%nat /\
  value_json throughAllFeature "depth" (JNum 0) = Ok (JStr "throughAll") /\
  buildSolid boxKernel throughAllFeature = throw (type_error 302).
Proof.
  assert (Hkind : value_string throughAllFeature "kind" "" = Ok "feature.extrude")
    by reflexivity.
  assert (Hprofile : value_json throughAllFeature "profile" (JObj [])
                     = Ok (at_key throughAllFeature "profile")) by reflexivity.
  assert (Hface : buildProfileFace boxKernel (at_key throughAllFeature "profile")
                  = Ok 1%nat) by (vm_compute; reflexivity).
  assert (Hdepth : value_json throughAllFeature "depth" (JNum 0)
                   = Ok (JStr "throughAll")) by reflexivity.
  split; [exact Hkind|]. split; [exact Hface|]. split; [exact Hdepth|].
  exact (string_depth_is_type_error boxKernel throughAllFeature _ 1%nat
           "throughAll" Hkind Hprofile Hface Hdepth).
Defined.

(** ** The failures of a feature request that are not the kernel's *)

Ltac split_call H :=
  match type of H with
  | Raising.bind (Raising.of_res ?r) _ = Raising.Failed _ =>
      let E := fresh "E" in
      destruct r eqn:E; cbn [Raising.bind Raising.of_res] in H
  end.

Ltac type_failure :=
  solve [eauto using value_string_fails, value_double_fails, value_json_fails,
           parseScalar_fails, parsePoint2D_fails, parseAxis_fails].

Ltac read_or_fail H :=
  split_call H;
  [| injection H as <-; first [type_failure | left; type_failure]].

Section RaisingFailures.

Context {TopoDS_Shape : Type} (kernel : Raising.Kernel TopoDS_Shape).

Lemma call_not_Failed {A : Type} (r : option A) (f : failure) :
  Raising.call r <> Raising.Failed f.
Proof. now destruct r. Qed.

Lemma buildProfileFace_Failed (profile : json) (f : failure) :
  Raising.buildProfileFace kernel profile = Raising.Failed f ->
  (exists n, f = Thrown (type_error n)) \/
  (exists kind,
     f = Thrown (runtime_error ("Unsupported profile kind: " ++ kind))) \/
  f = Thrown (runtime_error "profile.poly requires sides >= 3").
Proof.
  unfold Raising.buildProfileFace. intros H.
  read_or_fail H.
  destruct (String.eqb _ "profile.rectangle").
  { do 4 read_or_fail H. now apply call_not_Failed in H. }
  destruct (String.eqb _ "profile.circle").
  { do 3 read_or_fail H. now apply call_not_Failed in H. }
  destruct (String.eqb _ "profile.poly").
  { do 5 read_or_fail H.
    unfold Raising.makePolygonFace in H. destruct (_ <? 3)%Z.
    - injection H as <-. right. right. reflexivity.
    - now apply call_not_Failed in H. }
  injection H as <-. right. left. eexists. reflexivity.
Qed.

(** Between the reading of the feature and the prism, every failure that
    is not an exception of the kernel is a type error of the JSON library
    or one of four messages: the unsupported feature kind, [profile.ref],
    the unsupported profile kind, or the polygon with fewer than three
    sides.  The message about [throughAll] is not among them.  The profile
    is taken to hold the members the code indexes. *)
Theorem buildSolid_failures (feature : json) (f : failure) :
  (forall profile,
     value_json feature "profile" (JObj []) = Ok profile ->
     indexedKeysPresent profile = true) ->
  Raising.buildSolid kernel feature = Raising.Failed f ->
  (exists n, f = Thrown (type_error n)) \/
  (exists kind,
     f = Thrown (runtime_error ("Unsupported feature kind: " ++ kind))) \/
  f = Thrown (runtime_error "profile.ref not supported in native backend yet") \/
  (exists kind,
     f = Thrown (runtime_error ("Unsupported profile kind: " ++ kind))) \/
  f = Thrown (runtime_error "profile.poly requires sides >= 3").
Proof.
  intros _. unfold Raising.buildSolid. intros H.
  do 3 read_or_fail H.
  destruct (negb _).
  { injection H as <-. right. left. eexists. reflexivity. }
  do 2 read_or_fail H.
  destruct (String.eqb _ "profile.ref").
  { injection H as <-. right. right. left. reflexivity. }
  destruct (Raising.buildProfileFace kernel _) as [face|f0|] eqn:Hface;
    cbn [Raising.bind] in H; [| |discriminate].
  2:{ injection H as <-.
      destruct (buildProfileFace_Failed _ _ Hface) as [Ht|[Hk|Hp]];
        [left; exact Ht | right; right; right; left; exact Hk
        | right; right; right; right; exact Hp]. }
  read_or_fail H.
  cbn [parseScalar Raising.of_res Raising.bind] in H.
  do 2 read_or_fail H.
  destruct (Raising.Normalize kernel _); cbn [Raising.call Raising.bind] in H;
    [|discriminate].
  now apply call_not_Failed in H.
Qed.

End RaisingFailures.

Lemma buildSolid_failures_witness :
  (forall profile,
     value_json thinPolyFeature "profile" (JObj []) = Ok profile ->
     indexedKeysPresent profile = true) /\
  Raising.buildSolid (neverRaising boxKernel) thinPolyFeature
  = Raising.Failed (Thrown (runtime_error "profile.poly requires sides >= 3")) /\
  ((exists n, Thrown (runtime_error "profile.poly requires sides >= 3")
              = Thrown (type_error n)) \/
   (exists kind,
      Thrown (runtime_error "profile.poly requires sides >= 3")
      = Thrown (runtime_error ("Unsupported feature kind: " ++ kind))) \/
   Thrown (runtime_error "profile.poly requires sides >= 3")
   = Thrown (runtime_error "profile.ref not supported in native backend yet") \/
   (exists kind,
      Thrown (runtime_error "profile.poly requires sides >= 3")
      = Thrown (runtime_error ("Unsupported profile kind: " ++ kind))) \/
   Thrown (runtime_error "profile.poly requires sides >= 3")
   = Thrown (runtime_error "profile.poly requires sides >= 3")).
Proof.
  assert (Hkeys : forall profile,
            value_json thinPolyFeature "profile" (JObj []) = Ok profile ->
            indexedKeysPresent profile = true).
  { intros profile [= <-]. reflexivity. }
  assert (H : Raising.buildSolid (neverRaising boxKernel) thinPolyFeature
              = Raising.Failed
                  (Thrown (runtime_error "profile.poly requires sides >= 3")))
    by (vm_compute; reflexivity).
  split; [exact Hkeys|]. split; [exact H|].
  exact (buildSolid_failures (neverRaising boxKernel) thinPolyFeature _ Hkeys H).
Defined.

(** ** The schema setting and a refused export *)

Section SchemaSetting.

Context {TopoDS_Shape Statics : Type}.
Context (step : StepKernel TopoDS_Shape Statics
                  (list (@DatumRecord TopoDS_Shape)
                   * list (@ToleranceRecord TopoDS_Shape))).
Context (sessions : gmap string (Session TopoDS_Shape)).

(** Once the shape of an export request is found and its options are
    read, the schema is set before anything is written: both export
    handlers leave the statics [writeStepSchema] gives, also when the
    writer fails, and a PMI export that is refused for its annotations has
    set the schema all the same. *)
Theorem export_sets_schema_first (statics : Statics) (payload pmiPayload : json)
    (session : Session TopoDS_Shape) (shape : TopoDS_Shape) (schema : string) :
  (requestShape sessions payload).2 = Ok (session, shape) ->
  value_json payload "pmi" (JObj []) = Ok pmiPayload ->
  requestSchema payload = Ok schema ->
  (exportStepHandler step sessions statics (Some payload)).1.2
  = writeStepSchema step schema statics /\
  (exportStepPmiHandler step sessions statics (Some payload)).1.2
  = writeStepSchema step schema statics /\
  forall f,
    annotationGraph pmiPayload (current session) (registry session) = Err f ->
    (exportStepPmiHandler step sessions statics (Some payload)).2 = Refused f.
Proof.
  intros Hshape Hpmi Hschema.
  unfold exportStepHandler, exportStepPmiHandler.
  destruct (requestShape sessions payload) as [sessions1 found_shape].
  cbn [snd] in Hshape. subst found_shape. cbn [bind fst snd].
  rewrite Hpmi, Hschema. cbn [bind fst snd].
  unfold exportStep, exportStepWithPmi.
  repeat split.
  - now destruct (stepWrite step _ shape).
  - destruct (annotationGraph pmiPayload _ _) as [graph|]; cbn [bind];
      [|reflexivity].
    now destruct (stepWritePmi step _ shape graph).
  - intros f Hgraph. rewrite Hgraph. reflexivity.
Qed.

End SchemaSetting.

(** The export with the lost datum is refused, and the schema of the
    process has moved from [AP214] to the enumerated value for
    [AP242]. *)
Example lostDatum_export :
  exportStepPmiHandler boxStep boxSessions "AP214" (Some lostDatumRequest)
  = (boxSessions, "ap242dis", Refused (Thrown (runtime_error "Missing named output: body:gone"))).
Proof. vm_compute. reflexivity. Qed.

Lemma export_sets_schema_first_witness :
  (requestShape boxSessions lostDatumRequest).2
  = Ok (mkSession boxRegistry boxModel, 10%nat) /\
  value_json lostDatumRequest "pmi" (JObj []) = Ok (at_key lostDatumRequest "pmi") /\
  requestSchema lostDatumRequest = Ok "AP242" /\
  (exportStepHandler boxStep boxSessions "AP214" (Some lostDatumRequest)).1.2
  = writeStepSchema boxStep "AP242" "AP214" /\
  (exportStepPmiHandler boxStep boxSessions "AP214" (Some lostDatumRequest)).1.2
  = writeStepSchema boxStep "AP242" "AP214" /\
  forall f,
    annotationGraph (at_key lostDatumRequest "pmi") boxModel boxRegistry = Err f ->
    (exportStepPmiHandler boxStep boxSessions "AP214" (Some lostDatumRequest)).2
    = Refused f.
Proof.
  assert (Hshape : (requestShape boxSessions lostDatumRequest).2
                   = Ok (mkSession boxRegistry boxModel, 10%nat))
    by (vm_compute; reflexivity).
  assert (Hpmi : value_json lostDatumRequest "pmi" (JObj [])
                 = Ok (at_key lostDatumRequest "pmi")) by reflexivity.
  assert (Hschema : requestSchema lostDatumRequest = Ok "AP242") by reflexivity.
  split; [exact Hshape|]. split; [exact Hpmi|]. split; [exact Hschema|].
  exact (export_sets_schema_first boxStep boxSessions "AP214" lostDatumRequest
           _ _ _ _ Hshape Hpmi Hschema).
Defined.
